(** * demo-flight: the aircraft lookup page, embedded and verified

    The repository holds two variants of one browser script: the page
    script served with the application ([static/real_app.js], module
    [Static] below) and the variant that calls the hosted API and adds a
    contacts lookup (module [Main] below).  Both react to the submission of
    a tail number by fetching JSON and writing HTML into a fixed set of
    page elements.

    The development has four layers:
    - [JS]: the fragment of the JavaScript value semantics the scripts rely
      on (truthiness, [||], [ToString], [ToNumber], property reads, [trim],
      [encodeURIComponent]);
    - [Dom]: the page elements the scripts write to, console and network
      events, and a small state-and-exception monad;
    - [Static] and [Main]: the two scripts, function by function, the
      asynchronous handler cut at its [await]s;
    - [Spec] and the properties: the statements of the specification,
      proved of the scripts. *)

From Stdlib Require Import String Ascii List ZArith QArith Qround Qreduction.
From Stdlib Require Import Lia Bool DecimalString.
Import ListNotations.

Open Scope string_scope.
Open Scope Z_scope.

Set Warnings "-register-all".

(** ** JavaScript values *)

Module JS.

(** Strings are kept as UTF-8 byte strings.  The double quote is built from
    its code so that markup can be written down literally. *)
Definition dq : string := String (ascii_of_nat 34) EmptyString.

Definition q (s : string) : string := dq ++ s ++ dq.

(** The line feed inside a multi-line template. *)
Definition nl : string := String (ascii_of_nat 10) EmptyString.

Definition of_bytes (l : list nat) : string :=
  fold_right (fun b s => String (ascii_of_nat b) s) EmptyString l.

(** The values [JSON.parse] can produce, and [undefined], which only
    arises from reading a property that is not there.  Numbers are exact
    rationals: rounding of IEEE doubles is not modelled. *)
Inductive jsval : Type :=
| JUndefined
| JNull
| JBool (b : bool)
| JNum (x : Q)
| JStr (s : string)
| JArr (items : list jsval)
| JObj (props : list (string * jsval)).

(** Intermediate results of arithmetic: a finite number, an infinity or
    NaN.  Negative zero is identified with zero. *)
Inductive num : Type :=
| NaN
| Inf (negative : bool)
| Fin (x : Q).

Inductive exn : Type :=
| TypeError
| SyntaxError
| FetchFailure
| Error (message : string).

Inductive outcome (A : Type) : Type :=
| Ok (a : A)
| Throw (e : exn).

Arguments Ok {A} a.
Arguments Throw {A} e.

Definition bindR {A B} (m : outcome A) (k : A -> outcome B) : outcome B :=
  match m with
  | Ok a => k a
  | Throw e => Throw e
  end.

Notation "x <~ m ;; k" := (bindR m (fun x => k))
  (at level 61, m at next level, right associativity).

Fixpoint mapR {A B} (f : A -> outcome B) (l : list A) : outcome (list B) :=
  match l with
  | [] => Ok []
  | x :: rest => y <~ f x ;; ys <~ mapR f rest ;; Ok (y :: ys)
  end.

(** *** Truthiness and the [||] operator *)

Definition truthy (v : jsval) : bool :=
  match v with
  | JUndefined => false
  | JNull => false
  | JBool b => b
  | JNum x => negb (Qeq_bool x 0)
  | JStr s => negb (String.eqb s "")
  | JArr _ => true
  | JObj _ => true
  end.

(** [a || b] *)
Definition js_or (a b : jsval) : jsval := if truthy a then a else b.

(** [v === b] for a boolean literal [b] *)
Definition strict_eq_bool (v : jsval) (b : bool) : bool :=
  match v with
  | JBool b' => Bool.eqb b' b
  | _ => false
  end.

(** [typeof v === 'number'] *)
Definition is_number (v : jsval) : bool :=
  match v with
  | JNum _ => true
  | _ => false
  end.

(** *** Property reads

    A read on [null] or [undefined] throws.  On an object it yields the
    own property (the first binding of the key in the association list) or
    [undefined]: none of the names the scripts read is defined on a
    built-in prototype, except [length] on arrays and strings. *)
Fixpoint own_prop (k : string) (ps : list (string * jsval)) : option jsval :=
  match ps with
  | [] => None
  | (k', v) :: rest => if String.eqb k' k then Some v else own_prop k rest
  end.

(** Length in UTF-16 code units of a UTF-8 string: one unit per code point
    and one more for every four-byte sequence. *)
Fixpoint utf16_length (s : string) : Z :=
  match s with
  | EmptyString => 0
  | String c r =>
      let b := Z.of_nat (nat_of_ascii c) in
      (if (b <? 128) || (192 <=? b) then 1 else 0)
      + (if 240 <=? b then 1 else 0) + utf16_length r
  end.

Definition get (o : jsval) (k : string) : outcome jsval :=
  match o with
  | JUndefined => Throw TypeError
  | JNull => Throw TypeError
  | JObj ps =>
      match own_prop k ps with
      | Some v => Ok v
      | None => Ok JUndefined
      end
  | JArr items =>
      Ok (if String.eqb k "length" then JNum (inject_Z (Z.of_nat (length items)))
          else JUndefined)
  | JStr s =>
      Ok (if String.eqb k "length" then JNum (inject_Z (utf16_length s))
          else JUndefined)
  | _ => Ok JUndefined
  end.

(** [o?.k] *)
Definition get_opt (o : jsval) (k : string) : outcome jsval :=
  match o with
  | JUndefined => Ok JUndefined
  | JNull => Ok JUndefined
  | _ => get o k
  end.

(** The receiver of [.map], [.join], [.forEach]: anything but an array has
    no callable property of that name. *)
Definition as_array (v : jsval) : outcome (list jsval) :=
  match v with
  | JArr items => Ok items
  | _ => Throw TypeError
  end.

(** *** Numbers to strings *)

Definition Z_to_string (z : Z) : string :=
  NilZero.string_of_int (Z.to_int z).

Definition digit_char (d : Z) : ascii := ascii_of_nat (48 + Z.to_nat d).

Fixpoint frac_digits (fuel : nat) (r d : Z) : string :=
  match fuel with
  | O => ""
  | S fuel' =>
      if r =? 0 then ""
      else String (digit_char (r * 10 / d)) (frac_digits fuel' (r * 10 mod d) d)
  end.

(** Integers print in decimal; other rationals print their decimal
    expansion (exact for the short decimals JSON carries, cut after twenty
    places otherwise).  Exponent notation, which JavaScript uses from 1e21
    and below 1e-6, is not modelled. *)
Definition Q_to_string (x : Q) : string :=
  let r := Qred x in
  let n := Qnum r in
  let d := Z.pos (Qden r) in
  if d =? 1 then Z_to_string n
  else (if n <? 0 then "-" else "")
       ++ Z_to_string (Z.abs n / d) ++ "."
       ++ frac_digits 20 (Z.abs n mod d) d.

Definition num_to_string (n : num) : string :=
  match n with
  | NaN => "NaN"
  | Inf false => "Infinity"
  | Inf true => "-Infinity"
  | Fin x => Q_to_string x
  end.

(** *** [ToString]

    An object prints as [[object Object]] unless it carries an own
    [toString] property: a JSON value is never callable, so the conversion
    finds no method that returns a primitive and throws.  An array prints
    its elements joined by commas, [null] printing as the empty string. *)
Fixpoint to_string (v : jsval) : outcome string :=
  match v with
  | JUndefined => Ok "undefined"
  | JNull => Ok "null"
  | JBool true => Ok "true"
  | JBool false => Ok "false"
  | JNum x => Ok (Q_to_string x)
  | JStr s => Ok s
  | JArr items =>
      strs <~ (fix elems (l : list jsval) : outcome (list string) :=
                 match l with
                 | [] => Ok []
                 | x :: rest =>
                     s <~ match x with
                          | JUndefined => Ok ""
                          | JNull => Ok ""
                          | _ => to_string x
                          end ;;
                     ss <~ elems rest ;;
                     Ok (s :: ss)
                 end) items ;;
      Ok (String.concat "," strs)
  | JObj ps =>
      match own_prop "toString" ps with
      | Some _ => Throw TypeError
      | None => Ok "[object Object]"
      end
  end.

(** An element inside [Array.prototype.join] *)
Definition join_elem (v : jsval) : outcome string :=
  match v with
  | JUndefined => Ok ""
  | JNull => Ok ""
  | _ => to_string v
  end.

(** [items.join(sep)] *)
Definition array_join (sep : string) (items : list jsval) : outcome string :=
  strs <~ mapR join_elem items ;; Ok (String.concat sep strs).

(** *** White space, [trim] and [encodeURIComponent] *)

(** The UTF-8 encodings of the code points [trim] removes: the white space
    and line terminator characters of the language. *)
Definition white_space : list string :=
  map of_bytes
    [ [9]; [10]; [11]; [12]; [13]; [32]; [194; 160]; [225; 154; 128];
      [226; 128; 128]; [226; 128; 129]; [226; 128; 130]; [226; 128; 131];
      [226; 128; 132]; [226; 128; 133]; [226; 128; 134]; [226; 128; 135];
      [226; 128; 136]; [226; 128; 137]; [226; 128; 138]; [226; 128; 168];
      [226; 128; 169]; [226; 128; 175]; [226; 129; 159]; [227; 128; 128];
      [239; 187; 191] ]%nat.

Fixpoint string_rev (s : string) : string :=
  match s with
  | EmptyString => EmptyString
  | String c r => string_rev r ++ String c EmptyString
  end.

Fixpoint drop (n : nat) (s : string) : string :=
  match n, s with
  | O, _ => s
  | S n', String _ r => drop n' r
  | S _, EmptyString => EmptyString
  end.

Fixpoint starts_with (p s : string) : bool :=
  match p, s with
  | EmptyString, _ => true
  | String a p', String b s' => Ascii.eqb a b && starts_with p' s'
  | String _ _, EmptyString => false
  end.

(** Remove one leading occurrence of one of [pats], if there is one. *)
Fixpoint strip_one (pats : list string) (s : string) : option string :=
  match pats with
  | [] => None
  | p :: rest =>
      if starts_with p s then Some (drop (String.length p) s)
      else strip_one rest s
  end.

Fixpoint strip_all (fuel : nat) (pats : list string) (s : string) : string :=
  match fuel with
  | O => s
  | S fuel' =>
      match strip_one pats s with
      | Some r => strip_all fuel' pats r
      | None => s
      end
  end.

Definition trim_start (s : string) : string :=
  strip_all (String.length s) white_space s.

Definition trim_end (s : string) : string :=
  string_rev (strip_all (String.length s) (map string_rev white_space)
                        (string_rev s)).

Definition trim (s : string) : string := trim_end (trim_start s).

Definition hex_digit (n : nat) : ascii :=
  if Nat.ltb n 10 then ascii_of_nat (48 + n) else ascii_of_nat (55 + n).

(** The characters [encodeURIComponent] leaves alone: letters, digits and
    [- _ . ! ~ * ' ( )]. *)
Definition uri_unreserved (c : ascii) : bool :=
  let n := nat_of_ascii c in
  (Nat.leb 65 n && Nat.leb n 90) || (Nat.leb 97 n && Nat.leb n 122)
  || (Nat.leb 48 n && Nat.leb n 57)
  || existsb (Nat.eqb n) [45; 95; 46; 33; 126; 42; 39; 40; 41]%nat.

(** Every other byte of the UTF-8 encoding is written as a percent sign and
    two upper-case hexadecimal digits. *)
Fixpoint encodeURIComponent (s : string) : string :=
  match s with
  | EmptyString => EmptyString
  | String c r =>
      if uri_unreserved c then String c (encodeURIComponent r)
      else
        let n := nat_of_ascii c in
        String "%" (String (hex_digit (Nat.div n 16))
                      (String (hex_digit (Nat.modulo n 16))
                         (encodeURIComponent r)))
  end.

(** *** Arithmetic on numbers *)

Definition Qneg_b (x : Q) : bool := Qnum x <? 0.

Definition num_neg (a : num) : num :=
  match a with
  | NaN => NaN
  | Inf s => Inf (negb s)
  | Fin x => Fin (- x)
  end.

Definition num_add (a b : num) : num :=
  match a, b with
  | NaN, _ => NaN
  | _, NaN => NaN
  | Fin x, Fin y => Fin (x + y)
  | Inf s, Inf t => if Bool.eqb s t then Inf s else NaN
  | Inf s, Fin _ => Inf s
  | Fin _, Inf t => Inf t
  end.

(** [a - b] *)
Definition num_sub (a b : num) : num := num_add a (num_neg b).

(** [a * b] *)
Definition num_mul (a b : num) : num :=
  match a, b with
  | NaN, _ => NaN
  | _, NaN => NaN
  | Fin x, Fin y => Fin (x * y)
  | Inf s, Inf t => Inf (xorb s t)
  | Inf s, Fin y => if Qeq_bool y 0 then NaN else Inf (xorb s (Qneg_b y))
  | Fin x, Inf t => if Qeq_bool x 0 then NaN else Inf (xorb (Qneg_b x) t)
  end.

(** [a / b]; a zero divisor counts as positive zero. *)
Definition num_div (a b : num) : num :=
  match a, b with
  | NaN, _ => NaN
  | _, NaN => NaN
  | Inf _, Inf _ => NaN
  | Inf s, Fin y => Inf (xorb s (Qneg_b y))
  | Fin _, Inf _ => Fin 0
  | Fin x, Fin y =>
      if Qeq_bool y 0
      then (if Qeq_bool x 0 then NaN else Inf (Qneg_b x))
      else Fin (x / y)
  end.

(** [a < b]; every comparison with NaN is false. *)
Definition num_lt (a b : num) : bool :=
  match a, b with
  | NaN, _ => false
  | _, NaN => false
  | Inf s, Inf t => s && negb t
  | Inf s, Fin _ => s
  | Fin _, Inf t => negb t
  | Fin x, Fin y => negb (Qle_bool y x)
  end.

(** [a <= b] *)
Definition num_le (a b : num) : bool :=
  match a, b with
  | NaN, _ => false
  | _, NaN => false
  | Inf s, Inf t => s || negb t
  | Inf s, Fin _ => s
  | Fin _, Inf t => negb t
  | Fin x, Fin y => Qle_bool x y
  end.

(** [a > b] and [a >= b] *)
Definition num_gt (a b : num) : bool := num_lt b a.
Definition num_ge (a b : num) : bool := num_le b a.

(** [Math.floor], [Math.round] (halves go up) and [Math.max] *)
Definition Math_floor (a : num) : num :=
  match a with
  | Fin x => Fin (inject_Z (Qfloor x))
  | _ => a
  end.

Definition Math_round (a : num) : num :=
  match a with
  | Fin x => Fin (inject_Z (Qfloor (x + (1 # 2))))
  | _ => a
  end.

Definition Math_max (a b : num) : num :=
  match a, b with
  | NaN, _ => NaN
  | _, NaN => NaN
  | _, _ => if num_lt a b then b else a
  end.

Definition of_Z (z : Z) : num := Fin (inject_Z z).

(** *** [ToNumber]

    A string converts by the numeric-literal grammar for strings: optional
    white space around an optionally signed decimal literal (with optional
    fraction and exponent) or [Infinity], or an unsigned literal in base
    16, 8 or 2; the empty string is 0 and anything else is NaN. *)
Definition digit_val (c : ascii) : option Z :=
  let n := Z.of_nat (nat_of_ascii c) in
  if (48 <=? n) && (n <=? 57) then Some (n - 48)
  else if (97 <=? n) && (n <=? 102) then Some (n - 87)
  else if (65 <=? n) && (n <=? 70) then Some (n - 55)
  else None.

(** All of [s] as digits below [base], most significant first. *)
Fixpoint digits_all (base acc : Z) (s : string) : option Z :=
  match s with
  | EmptyString => Some acc
  | String c r =>
      match digit_val c with
      | Some d => if d <? base then digits_all base (acc * base + d) r else None
      | None => None
      end
  end.

(** The longest prefix of decimal digits: its value, its length, the rest. *)
Fixpoint take_digits (acc : Z) (n : nat) (s : string) : Z * nat * string :=
  match s with
  | EmptyString => (acc, n, s)
  | String c r =>
      match digit_val c with
      | Some d => if d <? 10 then take_digits (acc * 10 + d) (S n) r
                  else (acc, n, s)
      | None => (acc, n, s)
      end
  end.

Definition exponent_part (s : string) : option Z :=
  match s with
  | EmptyString => Some 0
  | String c r =>
      if (Ascii.eqb c "e" || Ascii.eqb c "E")%bool then
        let '(neg, ds) :=
          match r with
          | String "-" r' => (true, r')
          | String "+" r' => (false, r')
          | _ => (false, r)
          end in
        match ds with
        | EmptyString => None
        | _ => match digits_all 10 0 ds with
               | Some e => Some (if neg then - e else e)
               | None => None
               end
        end
      else None
  end.

Definition unsigned_decimal (s : string) : option Q :=
  let '(ip, ni, r1) := take_digits 0 0 s in
  let '(fp, nf, r2) :=
    match r1 with
    | String "." r => take_digits 0 0 r
    | _ => (0, O, r1)
    end in
  if Nat.eqb (ni + nf) 0 then None
  else
    match exponent_part r2 with
    | Some e =>
        Some ((inject_Z ip + inject_Z fp / inject_Z (10 ^ Z.of_nat nf))
              * Qpower (inject_Z 10) e)%Q
    | None => None
    end.

Definition radix_literal (s : string) : option (option Z) :=
  match s with
  | String "0" (String c r) =>
      let base :=
        if (Ascii.eqb c "x" || Ascii.eqb c "X")%bool then Some 16
        else if (Ascii.eqb c "o" || Ascii.eqb c "O")%bool then Some 8
        else if (Ascii.eqb c "b" || Ascii.eqb c "B")%bool then Some 2
        else None in
      match base with
      | Some b =>
          Some (match r with
                | EmptyString => None
                | _ => digits_all b 0 r
                end)
      | None => None
      end
  | _ => None
  end.

Definition string_to_number (s : string) : num :=
  let t := trim s in
  if String.eqb t "" then Fin 0
  else
    match radix_literal t with
    | Some (Some z) => of_Z z
    | Some None => NaN
    | None =>
        let '(neg, u) :=
          match t with
          | String "-" r => (true, r)
          | String "+" r => (false, r)
          | _ => (false, t)
          end in
        if String.eqb u "Infinity" then Inf neg
        else
          match unsigned_decimal u with
          | Some x => Fin (if neg then - x else x)
          | None => NaN
          end
    end.

Definition to_number (v : jsval) : outcome num :=
  match v with
  | JUndefined => Ok NaN
  | JNull => Ok (Fin 0)
  | JBool b => Ok (Fin (if b then 1 else 0))
  | JNum x => Ok (Fin x)
  | JStr s => Ok (string_to_number s)
  | _ => s <~ to_string v ;; Ok (string_to_number s)
  end.

End JS.

(** ** The page, the console and the network *)

Module Dom.
Import JS.

(** The elements the scripts hold on to.  An element's markup is the string
    last assigned to its [innerHTML] (or [textContent]); the table body is
    the list of its rows ([innerHTML] of each appended [tr]). *)
Record page : Type := mkPage {
  spinner_display : string;
  errBox_hidden : bool;
  errBox_text : string;
  results_hidden : bool;
  fr24Card : string;
  fr24Link : string;
  regCard : string;
  regLink : string;
  adsbCard : string;
  adsbLink : string;
  targetCard : string;
  activityCard : string;
  flightsTable : list string }.

(** The four contact blocks exist only in the newer page: each is either
    absent ([getElementById] returned [null]) or holds its markup. *)
Record contacts : Type := mkContacts {
  contactsAirline : option string;
  domContacts : option string;
  occContacts : option string;
  otherContacts : option string }.

Definition set_spinner_display (v : string) (p : page) : page :=
  mkPage v (errBox_hidden p) (errBox_text p) (results_hidden p) (fr24Card p)
    (fr24Link p) (regCard p) (regLink p) (adsbCard p) (adsbLink p) (targetCard
    p) (activityCard p) (flightsTable p).

Definition set_errBox_hidden (v : bool) (p : page) : page :=
  mkPage (spinner_display p) v (errBox_text p) (results_hidden p) (fr24Card
    p) (fr24Link p) (regCard p) (regLink p) (adsbCard p) (adsbLink p)
    (targetCard p) (activityCard p) (flightsTable p).

Definition set_errBox_text (v : string) (p : page) : page :=
  mkPage (spinner_display p) (errBox_hidden p) v (results_hidden p)
    (fr24Card p) (fr24Link p) (regCard p) (regLink p) (adsbCard p) (adsbLink
    p) (targetCard p) (activityCard p) (flightsTable p).

Definition set_results_hidden (v : bool) (p : page) : page :=
  mkPage (spinner_display p) (errBox_hidden p) (errBox_text p) v (fr24Card
    p) (fr24Link p) (regCard p) (regLink p) (adsbCard p) (adsbLink p)
    (targetCard p) (activityCard p) (flightsTable p).

Definition set_fr24Card (v : string) (p : page) : page :=
  mkPage (spinner_display p) (errBox_hidden p) (errBox_text p)
    (results_hidden p) v (fr24Link p) (regCard p) (regLink p) (adsbCard p)
    (adsbLink p) (targetCard p) (activityCard p) (flightsTable p).

Definition set_fr24Link (v : string) (p : page) : page :=
  mkPage (spinner_display p) (errBox_hidden p) (errBox_text p)
    (results_hidden p) (fr24Card p) v (regCard p) (regLink p) (adsbCard p)
    (adsbLink p) (targetCard p) (activityCard p) (flightsTable p).

Definition set_regCard (v : string) (p : page) : page :=
  mkPage (spinner_display p) (errBox_hidden p) (errBox_text p)
    (results_hidden p) (fr24Card p) (fr24Link p) v (regLink p) (adsbCard p)
    (adsbLink p) (targetCard p) (activityCard p) (flightsTable p).

Definition set_regLink (v : string) (p : page) : page :=
  mkPage (spinner_display p) (errBox_hidden p) (errBox_text p)
    (results_hidden p) (fr24Card p) (fr24Link p) (regCard p) v (adsbCard p)
    (adsbLink p) (targetCard p) (activityCard p) (flightsTable p).

Definition set_adsbCard (v : string) (p : page) : page :=
  mkPage (spinner_display p) (errBox_hidden p) (errBox_text p)
    (results_hidden p) (fr24Card p) (fr24Link p) (regCard p) (regLink p) v
    (adsbLink p) (targetCard p) (activityCard p) (flightsTable p).

Definition set_adsbLink (v : string) (p : page) : page :=
  mkPage (spinner_display p) (errBox_hidden p) (errBox_text p)
    (results_hidden p) (fr24Card p) (fr24Link p) (regCard p) (regLink p)
    (adsbCard p) v (targetCard p) (activityCard p) (flightsTable p).

Definition set_targetCard (v : string) (p : page) : page :=
  mkPage (spinner_display p) (errBox_hidden p) (errBox_text p)
    (results_hidden p) (fr24Card p) (fr24Link p) (regCard p) (regLink p)
    (adsbCard p) (adsbLink p) v (activityCard p) (flightsTable p).

Definition set_activityCard (v : string) (p : page) : page :=
  mkPage (spinner_display p) (errBox_hidden p) (errBox_text p)
    (results_hidden p) (fr24Card p) (fr24Link p) (regCard p) (regLink p)
    (adsbCard p) (adsbLink p) (targetCard p) v (flightsTable p).

Definition set_flightsTable (v : list string) (p : page) : page :=
  mkPage (spinner_display p) (errBox_hidden p) (errBox_text p)
    (results_hidden p) (fr24Card p) (fr24Link p) (regCard p) (regLink p)
    (adsbCard p) (adsbLink p) (targetCard p) (activityCard p) v.

(** What the browser holds between two events: the page, the contact
    blocks, the text typed into the input field, and the readings that the
    coming calls of [Date.now()] return, in order (milliseconds). *)
Record browser : Type := mkBrowser {
  the_page : page;
  the_contacts : contacts;
  input_value : string;
  clock : nat -> Z }.

(** What a primary section can touch: the page and the clock. *)
Record view : Type := mkView {
  v_page : page;
  v_clock : nat -> Z }.

(** Assignment to [el.innerHTML] where [el] may be [null]: the scripts
    guard every such assignment, so an absent element stays absent. *)
Definition assign (el : option string) (html : string) : option string :=
  match el with
  | Some _ => Some html
  | None => None
  end.

Definition present (el : option string) : bool :=
  match el with
  | Some _ => true
  | None => false
  end.

Inductive block : Type :=
| ContactsAirline
| DomContacts
| OccContacts
| OtherContacts.

Definition block_of (b : block) (c : contacts) : option string :=
  match b with
  | ContactsAirline => contactsAirline c
  | DomContacts => domContacts c
  | OccContacts => occContacts c
  | OtherContacts => otherContacts c
  end.

(** [b.innerHTML = html], for a block that is there *)
Definition set_block (b : block) (html : string) (c : contacts) : contacts :=
  match b with
  | ContactsAirline =>
      mkContacts (assign (contactsAirline c) html) (domContacts c)
                 (occContacts c) (otherContacts c)
  | DomContacts =>
      mkContacts (contactsAirline c) (assign (domContacts c) html)
                 (occContacts c) (otherContacts c)
  | OccContacts =>
      mkContacts (contactsAirline c) (domContacts c)
                 (assign (occContacts c) html) (otherContacts c)
  | OtherContacts =>
      mkContacts (contactsAirline c) (domContacts c) (occContacts c)
                 (assign (otherContacts c) html)
  end.

(** *** Console and network events *)

Inductive logarg : Type :=
| LStr (s : string)
| LVal (v : jsval)
| LExn (e : exn).

Inductive event : Type :=
| ConsoleLog (args : list logarg)
| ConsoleError (args : list logarg)
| Fetch (url : string).

(** The answer to a request: the request fails, or a response arrives with
    a status and a body that [json()] parses or rejects. *)
Inductive body : Type :=
| BadJson
| Json (v : jsval).

Inductive response : Type :=
| NetworkFailure
| Response (status : Z) (b : body).

(** [res.ok] *)
Definition ok (status : Z) : bool := (200 <=? status) && (status <=? 299).

(** *** State and exceptions

    A computation over a state [S] returns a value or throws, and leaves a
    state behind either way: what was written before a throw stays. *)
Definition ST (S A : Type) : Type := S -> outcome A * S.

Definition ret {S A} (a : A) : ST S A := fun s => (Ok a, s).

Definition bind {S A B} (m : ST S A) (k : A -> ST S B) : ST S B :=
  fun s =>
    match m s with
    | (Ok a, s') => k a s'
    | (Throw e, s') => (Throw e, s')
    end.

Definition lift {S A} (r : outcome A) : ST S A := fun s => (r, s).

Definition modify {S} (f : S -> S) : ST S unit := fun s => (Ok tt, f s).

Notation "x <- m ;; k" := (bind m (fun x => k))
  (at level 61, m at next level, right associativity).
Notation "x <-- r ;; k" := (bind (lift r) (fun x => k))
  (at level 61, r at next level, right associativity).
Notation "m ;;; k" := (bind m (fun _ => k))
  (at level 61, right associativity).

(** [items.forEach(f)] *)
Fixpoint forEach {S A} (f : A -> ST S unit) (l : list A) : ST S unit :=
  match l with
  | [] => ret tt
  | x :: rest => f x ;;; forEach f rest
  end.

(** [Date.now()] takes the next reading of the clock. *)
Definition Date_now : ST view Z :=
  fun v => (Ok (v_clock v 0%nat),
            mkView (v_page v) (fun k => v_clock v (S k))).

Definition on_page (f : page -> page) : ST view unit :=
  modify (fun v => mkView (f (v_page v)) (v_clock v)).

(** *** The handler level

    An event handler runs over the whole browser state and leaves a trace
    of console output and requests; the sections run inside it on the part
    of the state they can touch. *)
Definition H (A : Type) : Type := browser -> outcome A * browser * list event.

Definition retH {A} (a : A) : H A := fun b => (Ok a, b, []).

Definition bindH {A B} (m : H A) (k : A -> H B) : H B :=
  fun b =>
    match m b with
    | (Ok a, b', t) => let '(r, b'', t') := k a b' in (r, b'', (t ++ t')%list)
    | (Throw e, b', t) => (Throw e, b', t)
    end.

Definition liftH {A} (r : outcome A) : H A := fun b => (r, b, []).

Definition emit (e : event) : H unit := fun b => (Ok tt, b, [e]).

Definition in_view {A} (m : ST view A) : H A :=
  fun b =>
    let '(r, v) := m (mkView (the_page b) (clock b)) in
    (r, mkBrowser (v_page v) (the_contacts b) (input_value b) (v_clock v), []).

Definition in_contacts {A} (m : ST contacts A) : H A :=
  fun b =>
    let '(r, c) := m (the_contacts b) in
    (r, mkBrowser (the_page b) c (input_value b) (clock b), []).

(** [try { m } catch (e) { handler e }] *)
Definition try_catch {A} (m : H A) (handler : exn -> H A) : H A :=
  fun b =>
    match m b with
    | (Ok a, b', t) => (Ok a, b', t)
    | (Throw e, b', t) =>
        let '(r, b'', t') := handler e b' in (r, b'', (t ++ t')%list)
    end.

(** [try { m } finally { f }], for an [f] that cannot throw *)
Definition finally {A} (m : H A) (f : H unit) : H A :=
  fun b =>
    let '(r, b', t) := m b in
    let '(_, b'', t') := f b' in (r, b'', (t ++ t')%list).

Notation "x <<- m ;; k" := (bindH m (fun x => k))
  (at level 61, m at next level, right associativity).
Notation "m >>> k" := (bindH m (fun _ => k))
  (at level 61, right associativity).

(** Where a handler stands when it gives control back: at its end, or
    waiting for the answer to a request it sent for the query [n]. *)
Inductive pending : Type :=
| Finished
| AwaitAircraft (n : string)
| AwaitContacts (n : string).

End Dom.

(** ** The page script [static/real_app.js] *)

Module Static.
Import JS Dom.

Definition showSpinner (show : bool) : page -> page :=
  set_spinner_display (if show then "inline-block" else "none").

Definition setError (msg : string) (p : page) : page :=
  if String.eqb msg ""
  then set_errBox_text "" (set_errBox_hidden true p)
  else set_errBox_text msg (set_errBox_hidden false p).

Definition kv (label : string) (value : jsval) : outcome string :=
  v <~ to_string (js_or value (JStr "—")) ;;
  Ok ("<div class=" ++ q "mb-2" ++ "><div class=" ++ q "label" ++ ">"
      ++ label ++ "</div><div class=" ++ q "value" ++ ">" ++ v
      ++ "</div></div>").

Definition pill (code count : jsval) : outcome string :=
  c <~ to_string (js_or code (JStr "—")) ;;
  n <~ to_string count ;;
  Ok ("<span class="
      ++ q "badge rounded-pill text-bg-primary me-2 badge-airport" ++ ">"
      ++ c ++ " <span class=" ++ q "ms-1 text-bg-dark badge" ++ ">" ++ n
      ++ "</span></span>").

Definition formatAgo (epoch : jsval) : ST view string :=
  if negb (truthy epoch) then ret "—"
  else
    now <- Date_now ;;
    e <-- to_number epoch ;;
    let diffMs := num_sub (of_Z now) (num_mul e (of_Z 1000)) in
    let s := Math_max (of_Z 0) (Math_floor (num_div diffMs (of_Z 1000))) in
    let m := Math_floor (num_div s (of_Z 60)) in
    let h := Math_floor (num_div m (of_Z 60)) in
    let d := Math_floor (num_div h (of_Z 24)) in
    if num_ge d (of_Z 1) then
      ret (num_to_string d ++ " day" ++ (if num_gt d (of_Z 1) then "s" else "")
           ++ " ago")
    else if num_ge h (of_Z 1) then
      ret (num_to_string h ++ " hr" ++ (if num_gt h (of_Z 1) then "s" else "")
           ++ " ago")
    else if num_ge m (of_Z 1) then
      ret (num_to_string m ++ " min" ++ (if num_gt m (of_Z 1) then "s" else "")
           ++ " ago")
    else
      ret (num_to_string s ++ " sec" ++ (if num_gt s (of_Z 1) then "s" else "")
           ++ " ago").

(** *** The sections of the result view

    Each section is the block of the handler under the comment of the same
    name.  [kv_prop label o k] is [kv(label, o.k)]; [joined sep vals] is
    [vals.filter(Boolean).join(sep) || '—']; [source_link] is the markup of
    the three attributed links. *)
Definition kv_prop (label : string) (o : jsval) (k : string) : outcome string :=
  v <~ get o k ;; kv label v.

Definition kv_prop_or (label : string) (o : jsval) (k : string)
    : outcome string :=
  v <~ get o k ;; kv label (js_or v (JStr "—")).

Definition joined (sep : string) (vals : list jsval) : outcome jsval :=
  s <~ array_join sep (filter truthy vals) ;;
  Ok (js_or (JStr s) (JStr "—")).

Definition source_link (url : jsval) (text : string) : outcome string :=
  if truthy url then
    u <~ to_string url ;;
    Ok ("Source: <a href=" ++ dq ++ u ++ dq ++ " target=" ++ q "_blank"
      ++ " rel=" ++ q "noopener" ++ ">" ++ text ++ "</a>")
  else Ok "".

Definition fr24_card (data : jsval) : ST view unit :=
  fr24 <-- get data "fr24" ;;
  let fr := js_or fr24 (JObj []) in
  k1 <-- (t <~ get data "tail_number" ;;
          ts <~ to_string t ;;
          kv "Tail number" (JStr ("<strong>" ++ ts ++ "</strong>"))) ;;
  k2 <-- kv_prop "Aircraft" fr "model" ;;
  k3 <-- kv_prop "Airline" fr "airline" ;;
  k4 <-- kv_prop "Operator" fr "operator" ;;
  k5 <-- kv_prop "Type Code" fr "type_code" ;;
  k6 <-- kv_prop "Code (Airline)" fr "airline_code" ;;
  k7 <-- kv_prop "Code (Operator)" fr "operator_code" ;;
  k8 <-- kv_prop_or "Mode S (ICAO hex)" fr "mode_s" ;;
  k9 <-- kv_prop_or "Serial Number (MSN)" fr "serial_msn" ;;
  on_page (set_fr24Card
             (String.concat "" [k1; k2; k3; k4; k5; k6; k7; k8; k9])) ;;;
  link <-- (url <~ get fr "source_url" ;; source_link url "FR24") ;;
  on_page (set_fr24Link link).

(** [fo === true ? 'YES' : (fo === false ? 'NO' : '—')] *)
Definition fractional_owner_text (fo : jsval) : string :=
  if strict_eq_bool fo true then "YES"
  else if strict_eq_bool fo false then "NO"
  else "—".

Definition registry_card (data : jsval) : ST view unit :=
  registry <-- get data "registry" ;;
  let rg := js_or registry (JObj []) in
  k1 <-- kv_prop "Owner" rg "owner" ;;
  k2 <-- kv_prop "Status" rg "status" ;;
  k3 <-- kv_prop "Airworthiness Class" rg "airworthiness_class" ;;
  k4 <-- kv_prop "Certificate Issue Date" rg "certificate_issue_date" ;;
  k5 <-- kv_prop "Airworthiness Date" rg "airworthiness_date" ;;
  k6 <-- kv_prop "Expiration" rg "expiration" ;;
  k7 <-- kv_prop "Engine" rg "engine" ;;
  k8 <-- kv_prop "Serial Number" rg "serial_number" ;;
  k9 <-- kv_prop "Model Year" rg "model_year" ;;
  k10 <-- kv_prop "Seats" rg "seats" ;;
  k11 <-- kv_prop "Engines" rg "engines_count" ;;
  k12 <-- (fo <~ get rg "fractional_owner" ;;
           kv "Fractional Owner" (JStr (fractional_owner_text fo))) ;;
  on_page (set_regCard
             (String.concat ""
                [k1; k2; k3; k4; k5; k6; k7; k8; k9; k10; k11; k12])) ;;;
  link <-- (url <~ get rg "source_url" ;; source_link url "FAA / Registry") ;;
  on_page (set_regLink link).

Definition adsb_card (data : jsval) : ST view unit :=
  adsb <-- get data "adsb" ;;
  let ad := js_or adsb (JObj []) in
  k1 <-- kv_prop "Callsign" ad "callsign" ;;
  k2 <-- kv_prop "ICAO hex" ad "hex" ;;
  k3 <-- (r <~ get ad "registration" ;;
          t <~ (if truthy r then Ok r else get data "tail_number") ;;
          kv "Registration" t) ;;
  k4 <-- (a <~ get ad "icao_type" ;; b <~ get ad "type_full" ;;
          v <~ joined " · " [a; b] ;; kv "Type (ICAO / Full)" v) ;;
  k5 <-- (a <~ get ad "type_desc" ;; b <~ get ad "category" ;;
          v <~ joined " · " [a; b] ;; kv "Type Desc / Category" v) ;;
  pos_epoch <-- get ad "pos_epoch" ;;
  seen <- (if truthy pos_epoch then
             ago <- formatAgo pos_epoch ;; ret (JStr (ago ++ " (epoch)"))
           else
             last_seen <-- get ad "last_seen" ;;
             ret (js_or last_seen (JStr "—"))) ;;
  k6 <-- kv "Last seen (ADS-B)" seen ;;
  k7 <-- kv_prop_or "On-ground / Altitude" ad "baro_altitude" ;;
  k8 <-- (a <~ get ad "groundspeed_kt" ;; b <~ get ad "ground_track" ;;
          v <~ joined " / " [a; b] ;; kv "Groundspeed (kt) / Track" v) ;;
  k9 <-- (a <~ get ad "true_heading" ;; b <~ get ad "mag_heading" ;;
          v <~ joined " / " [a; b] ;; kv "Heading (true/mag)" v) ;;
  k10 <-- kv_prop "Squawk" ad "squawk" ;;
  k11 <-- kv_prop "Position (WGS84)" ad "position" ;;
  k12 <-- (a <~ get ad "source" ;; b <~ get ad "message_rate" ;;
           v <~ joined " · " [a; b] ;; kv "Source / Msg rate" v) ;;
  on_page (set_adsbCard
             (String.concat ""
                [k1; k2; k3; k4; k5; k6; k7; k8; k9; k10; k11; k12])) ;;;
  link <-- (links <~ get data "links" ;;
            url <~ get_opt links "adsb_globe_url" ;;
            if truthy url then
              links' <~ get data "links" ;;
              url' <~ get links' "adsb_globe_url" ;;
              source_link url' "ADS-B Exchange (globe)"
            else Ok "") ;;
  on_page (set_adsbLink link).

Definition role_badge (r : jsval) : outcome string :=
  rs <~ to_string r ;;
  Ok ("<span class=" ++ q "badge text-bg-secondary me-2" ++ ">" ++ rs
      ++ "</span>").

Definition overnight_badge (o : jsval) : outcome string :=
  airport <~ get o "airport" ;;
  a <~ to_string (js_or airport (JStr "—")) ;;
  overnights <~ get o "overnights" ;;
  n <~ to_string overnights ;;
  avg_ground_hours <~ get o "avg_ground_hours" ;;
  g <~ to_string avg_ground_hours ;;
  Ok ("<span class=" ++ q "badge text-bg-primary me-2 badge-airport" ++ ">"
      ++ a ++ " <span class=" ++ q "ms-1 text-bg-dark badge" ++ ">" ++ n
      ++ " ovn · " ++ g ++ "h avg</span></span>").

(** [(v || []).map(f).join('')] *)
Definition map_join (v : jsval) (f : jsval -> outcome string)
    : outcome string :=
  items <~ as_array (js_or v (JArr [])) ;;
  strs <~ mapR f items ;;
  Ok (String.concat "" strs).

Definition targeting (data : jsval) : ST view unit :=
  roles <-- (hint <~ get data "buyer_roles_hint" ;; map_join hint role_badge) ;;
  likely_base <-- get data "likely_base" ;;
  let base := js_or likely_base (JObj []) in
  baseConf <-- (c <~ get base "confidence" ;;
                if is_number c then
                  c' <~ get base "confidence" ;;
                  x <~ to_number c' ;;
                  Ok (" (conf "
                      ++ num_to_string (Math_round (num_mul x (of_Z 100)))
                      ++ "%)")
                else Ok "") ;;
  ovn <-- (tops <~ get data "overnights_top" ;; map_join tops overnight_badge) ;;
  chase0 <-- get data "chase" ;;
  let chase :=
    js_or chase0 (JObj [("score", JNum 0); ("reasons", JArr [])]) in
  k1 <-- (op <~ get data "inferred_operation" ;;
          ops <~ to_string (js_or op (JStr "—")) ;;
          fractional <~ get data "is_fractional" ;;
          kv "Inferred Operation"
             (JStr (ops ++ (if truthy fractional then " (fractional)"
                            else "")))) ;;
  k2 <-- kv "Who to contact" (js_or (JStr roles) (JStr "—")) ;;
  k3 <-- (code <~ get base "code" ;;
          if truthy code then
            code' <~ get base "code" ;;
            cs <~ to_string code' ;;
            kv "Likely operating base" (JStr (cs ++ baseConf))
          else kv "Likely operating base" (JStr "—")) ;;
  k4 <-- kv "Overnights / avg ground time" (js_or (JStr ovn) (JStr "—")) ;;
  k5 <-- (score <~ get chase "score" ;;
          ss <~ to_string score ;;
          reasons <~ get chase "reasons" ;;
          items <~ as_array (js_or reasons (JArr [])) ;;
          rs <~ array_join ", " items ;;
          kv "Chase score" (JStr (ss ++ " / 5 — " ++ rs))) ;;
  on_page (set_targetCard (String.concat "" [k1; k2; k3; k4; k5])).

Definition top_pill (a : jsval) : outcome string :=
  code <~ get a "code" ;;
  count <~ get a "count" ;;
  pill code count.

Definition activity (data : jsval) : ST view unit :=
  last_spotted <-- get data "last_spotted" ;;
  let last := js_or last_spotted (JObj []) in
  placeLabel <-- (place_code <~ get last "place_code" ;;
                  if truthy place_code then
                    place_city <~ get last "place_city" ;;
                    if truthy place_city then
                      code <~ get last "place_code" ;;
                      cs <~ to_string code ;;
                      city <~ get last "place_city" ;;
                      ys <~ to_string city ;;
                      Ok (JStr (cs ++ " (" ++ ys ++ ")"))
                    else get last "place_code"
                  else Ok (JStr "—")) ;;
  top7 <-- (tops <~ get data "top_airports_7d" ;; map_join tops top_pill) ;;
  top30 <-- (tops <~ get data "top_airports_30d" ;; map_join tops top_pill) ;;
  top90 <-- (tops <~ get data "top_airports_90d" ;; map_join tops top_pill) ;;
  epoch <-- get last "epoch" ;;
  spotted <- (if truthy epoch then
                epoch' <-- get last "epoch" ;;
                ago <- formatAgo epoch' ;;
                place <-- to_string placeLabel ;;
                ret (JStr (ago ++ " at " ++ place))
              else ret (JStr "—")) ;;
  k1 <-- kv "Last spotted (overall)" spotted ;;
  k2 <-- kv "Top airports — last 7 days" (js_or (JStr top7) (JStr "—")) ;;
  k3 <-- kv "Top airports — last 30 days" (js_or (JStr top30) (JStr "—")) ;;
  k4 <-- kv "Top airports — last 90 days" (js_or (JStr top90) (JStr "—")) ;;
  on_page (set_activityCard (String.concat "" [k1; k2; k3; k4])).

Definition flight_row (f : jsval) : outcome string :=
  date_local <~ get f "date_local" ;;
  s1 <~ to_string (js_or date_local (JStr "—")) ;;
  from_airport <~ get f "from_airport" ;;
  s2 <~ to_string (js_or from_airport (JStr "—")) ;;
  to_airport <~ get f "to_airport" ;;
  s3 <~ to_string (js_or to_airport (JStr "—")) ;;
  callsign <~ get f "callsign" ;;
  s4 <~ to_string (js_or callsign (JStr "—")) ;;
  flight_time <~ get f "flight_time" ;;
  s5 <~ to_string (js_or flight_time (JStr "—")) ;;
  Ok (nl ++ "        <td>" ++ s1 ++ "</td>" ++ nl
      ++ "        <td><span class=" ++ q "badge badge-airport text-bg-dark"
      ++ ">" ++ s2 ++ "</span></td>" ++ nl ++ "        <td><span class="
      ++ q "badge badge-airport text-bg-dark" ++ ">" ++ s3 ++ "</span></td>"
      ++ nl ++ "        <td>" ++ s4 ++ "</td>" ++ nl ++ "        <td>" ++ s5
      ++ "</td>" ++ nl ++ "      ").

Definition flights_table (data : jsval) : ST view unit :=
  recent_flights <-- get data "recent_flights" ;;
  items <-- as_array (js_or recent_flights (JArr [])) ;;
  forEach (fun f =>
             tr <-- flight_row f ;;
             on_page (fun p => set_flightsTable (flightsTable p ++ [tr])%list p))
          items.

(** *** The submit handler *)

Definition apply_all {A} (fs : list (A -> A)) (a : A) : A :=
  fold_left (fun x f => f x) fs a.

(** [a || b] on strings *)
Definition str_or (a b : string) : string := if String.eqb a "" then b else a.

Definition aircraft_url (n : string) : string :=
  "/api/aircraft?n=" ++ encodeURIComponent n ++ "&use_adsb=true".

(** The statements of the handler before it reads the input: the error
    box, the results region, every card, link and the table are cleared and
    the spinner is shown. *)
Definition reset_page : page -> page :=
  apply_all
    [ setError ""; set_results_hidden true;
      set_fr24Card ""; set_regCard ""; set_adsbCard ""; set_targetCard "";
      set_activityCard "";
      set_fr24Link ""; set_regLink ""; set_adsbLink "";
      set_flightsTable [];
      showSpinner true ].

Definition reset (b : browser) : browser :=
  mkBrowser (reset_page (the_page b)) (the_contacts b)
            (input_value b) (clock b).

(** Validation: an input that trims to the empty string is answered on the
    spot; otherwise the request for the aircraft goes out and the handler
    waits for its answer. *)
Definition validate (b : browser) : browser * list event * pending :=
  let n := trim (str_or (input_value b) "") in
  if String.eqb n "" then
    (mkBrowser (showSpinner false (setError "Please enter an N-number."
                                            (the_page b)))
               (the_contacts b) (input_value b) (clock b),
     [], Finished)
  else (b, [Fetch (aircraft_url n)], AwaitAircraft n).

Definition on_submit (b : browser) : browser * list event * pending :=
  validate (reset b).

(** The [catch] and [finally] clauses around the body of the handler. *)
Definition outer_handlers (m : H unit) : H unit :=
  finally
    (try_catch m
       (fun err =>
          emit (ConsoleError [LExn err]) >>>
          in_view (on_page
            (setError
               "Lookup failed. Try again in a moment or verify the N-number."))))
    (in_view (on_page (showSpinner false))).

(** [await fetch(...)], the status check and [await res.json()] *)
Definition received (r : response) : outcome jsval :=
  match r with
  | NetworkFailure => Throw FetchFailure
  | Response status b =>
      if negb (ok status) then Throw (Error ("HTTP " ++ Z_to_string status))
      else
        match b with
        | BadJson => Throw SyntaxError
        | Json data => Ok data
        end
  end.

Definition show_results : H unit :=
  in_view (on_page (set_results_hidden false)).

Definition aircraft_sections (r : response) : H unit :=
  data <<- liftH (received r) ;;
  in_view (fr24_card data) >>>
  in_view (registry_card data) >>>
  in_view (adsb_card data) >>>
  in_view (targeting data) >>>
  in_view (activity data) >>>
  in_view (flights_table data).

(** The handler resumes with the answer [r] of the aircraft request and
    runs to its end. *)
Definition on_aircraft (n : string) (r : response) (b : browser)
    : browser * list event * pending :=
  let '(_, b', t) :=
    outer_handlers (aircraft_sections r >>> show_results) b in
  (b', t, Finished).

(** One submission from beginning to end, the network answering each
    request by its URL. *)
Definition submit (net : string -> response) (b : browser)
    : browser * list event :=
  let '(b1, t1, p1) := on_submit b in
  match p1 with
  | AwaitAircraft n =>
      let '(b2, t2, _) := on_aircraft n (net (aircraft_url n)) b1 in
      (b2, (t1 ++ t2)%list)
  | _ => (b1, t1)
  end.

End Static.

(** ** The script against the hosted API, with the contacts lookup *)

Module Main.
Import JS Dom.

Definition API_BASE : string := "https://demo-flight.onrender.com".

Definition showSpinner (show : bool) : page -> page :=
  set_spinner_display (if show then "inline-block" else "none").

Definition setError (msg : string) (p : page) : page :=
  if String.eqb msg ""
  then set_errBox_text "" (set_errBox_hidden true p)
  else set_errBox_text msg (set_errBox_hidden false p).

Definition kv (label : string) (value : jsval) : outcome string :=
  v <~ to_string (js_or value (JStr "—")) ;;
  Ok ("<div class=" ++ q "mb-2" ++ "><div class=" ++ q "label" ++ ">"
      ++ label ++ "</div><div class=" ++ q "value" ++ ">" ++ v
      ++ "</div></div>").

Definition pill (code count : jsval) : outcome string :=
  c <~ to_string (js_or code (JStr "—")) ;;
  n <~ to_string count ;;
  Ok ("<span class="
      ++ q "badge rounded-pill text-bg-primary me-2 badge-airport" ++ ">"
      ++ c ++ " <span class=" ++ q "ms-1 text-bg-dark badge" ++ ">" ++ n
      ++ "</span></span>").

Definition formatAgo (epoch : jsval) : ST view string :=
  if negb (truthy epoch) then ret "—"
  else
    now <- Date_now ;;
    e <-- to_number epoch ;;
    let diffMs := num_sub (of_Z now) (num_mul e (of_Z 1000)) in
    let s := Math_max (of_Z 0) (Math_floor (num_div diffMs (of_Z 1000))) in
    let m := Math_floor (num_div s (of_Z 60)) in
    let h := Math_floor (num_div m (of_Z 60)) in
    let d := Math_floor (num_div h (of_Z 24)) in
    if num_ge d (of_Z 1) then
      ret (num_to_string d ++ " day" ++ (if num_gt d (of_Z 1) then "s" else "")
           ++ " ago")
    else if num_ge h (of_Z 1) then
      ret (num_to_string h ++ " hr" ++ (if num_gt h (of_Z 1) then "s" else "")
           ++ " ago")
    else if num_ge m (of_Z 1) then
      ret (num_to_string m ++ " min" ++ (if num_gt m (of_Z 1) then "s" else "")
           ++ " ago")
    else
      ret (num_to_string s ++ " sec" ++ (if num_gt s (of_Z 1) then "s" else "")
           ++ " ago").

(** The callback [renderContactsGroup] maps over the list: one contact. *)
Definition contact_row (c : jsval) : outcome string :=
  name0 <~ get c "name" ;;
  let name := js_or name0 (JStr "—") in
  title <~ get c "title" ;;
  let pieces1 := if truthy title then [title] else [] in
  email <~ get c "email" ;;
  pieces2 <~ (if truthy email then
                e1 <~ to_string email ;;
                e2 <~ to_string email ;;
                Ok (pieces1 ++ [JStr ("<a href=" ++ dq ++ "mailto:" ++ e1 ++ dq
                                ++ ">" ++ e2 ++ "</a>")])%list
              else Ok pieces1) ;;
  corporate_phone <~ get c "corporate_phone" ;;
  phone <~ (if truthy corporate_phone then Ok corporate_phone
            else get c "phone") ;;
  let pieces3 := if truthy phone then (pieces2 ++ [phone])%list else pieces2 in
  company <~ get c "company" ;;
  let pieces := if truthy company then (pieces3 ++ [company])%list
                else pieces3 in
  joined <~ array_join " · " pieces ;;
  let details := js_or (JStr joined) (JStr "—") in
  name_s <~ to_string name ;;
  details_s <~ to_string details ;;
  Ok ("<div class=" ++ q "mb-1" ++ "><span class=" ++ q "value" ++ ">"
      ++ name_s ++ "</span><span class=" ++ q "ms-1 muted" ++ ">— "
      ++ details_s ++ "</span></div>").

Definition strict_eq_zero (v : jsval) : bool :=
  match v with
  | JNum x => Qeq_bool x 0
  | _ => false
  end.

(** [renderContactsGroup(container, label, list)]; the container is named
    by the block it was looked up as. *)
Definition renderContactsGroup (container : block) (label : string)
    (list : jsval) : ST contacts unit :=
  fun cs =>
    if negb (present (block_of container cs)) then ret tt cs
    else
      (empty <-- (if negb (truthy list) then Ok true
                  else len <~ get list "length" ;; Ok (strict_eq_zero len)) ;;
       if (empty : bool) then
         html <-- kv label (JStr "No contacts found") ;;
         modify (set_block container html)
       else
         let html0 :=
           "<div class=" ++ q "mb-1 fw-semibold" ++ ">" ++ label ++ "</div>" in
         items <-- as_array list ;;
         rows <-- mapR contact_row items ;;
         let html := html0 ++ String.concat "" rows in
         modify (set_block container html)) cs.

(** *** The sections of the result view

    Each section is the block of the handler under the comment of the same
    name.  [kv_prop label o k] is [kv(label, o.k)]; [joined sep vals] is
    [vals.filter(Boolean).join(sep) || '—']; [source_link] is the markup of
    the three attributed links. *)
Definition kv_prop (label : string) (o : jsval) (k : string) : outcome string :=
  v <~ get o k ;; kv label v.

Definition kv_prop_or (label : string) (o : jsval) (k : string)
    : outcome string :=
  v <~ get o k ;; kv label (js_or v (JStr "—")).

Definition joined (sep : string) (vals : list jsval) : outcome jsval :=
  s <~ array_join sep (filter truthy vals) ;;
  Ok (js_or (JStr s) (JStr "—")).

Definition source_link (url : jsval) (text : string) : outcome string :=
  if truthy url then
    u <~ to_string url ;;
    Ok ("Source: <a href=" ++ dq ++ u ++ dq ++ " target=" ++ q "_blank"
      ++ " rel=" ++ q "noopener" ++ ">" ++ text ++ "</a>")
  else Ok "".

Definition fr24_card (data : jsval) : ST view unit :=
  fr24 <-- get data "fr24" ;;
  let fr := js_or fr24 (JObj []) in
  k1 <-- (t <~ get data "tail_number" ;;
          ts <~ to_string t ;;
          kv "Tail number" (JStr ("<strong>" ++ ts ++ "</strong>"))) ;;
  k2 <-- kv_prop "Aircraft" fr "model" ;;
  k3 <-- kv_prop "Airline" fr "airline" ;;
  k4 <-- kv_prop "Operator" fr "operator" ;;
  k5 <-- kv_prop "Type Code" fr "type_code" ;;
  k6 <-- kv_prop "Code (Airline)" fr "airline_code" ;;
  k7 <-- kv_prop "Code (Operator)" fr "operator_code" ;;
  k8 <-- kv_prop_or "Mode S (ICAO hex)" fr "mode_s" ;;
  k9 <-- kv_prop_or "Serial Number (MSN)" fr "serial_msn" ;;
  on_page (set_fr24Card
             (String.concat "" [k1; k2; k3; k4; k5; k6; k7; k8; k9])) ;;;
  link <-- (url <~ get fr "source_url" ;; source_link url "FR24") ;;
  on_page (set_fr24Link link).

(** [fo === true ? 'YES' : (fo === false ? 'NO' : '—')] *)
Definition fractional_owner_text (fo : jsval) : string :=
  if strict_eq_bool fo true then "YES"
  else if strict_eq_bool fo false then "NO"
  else "—".

Definition registry_card (data : jsval) : ST view unit :=
  registry <-- get data "registry" ;;
  let rg := js_or registry (JObj []) in
  k1 <-- kv_prop "Owner" rg "owner" ;;
  k2 <-- kv_prop "Status" rg "status" ;;
  k3 <-- kv_prop "Airworthiness Class" rg "airworthiness_class" ;;
  k4 <-- kv_prop "Certificate Issue Date" rg "certificate_issue_date" ;;
  k5 <-- kv_prop "Airworthiness Date" rg "airworthiness_date" ;;
  k6 <-- kv_prop "Expiration" rg "expiration" ;;
  k7 <-- kv_prop "Engine" rg "engine" ;;
  k8 <-- kv_prop "Serial Number" rg "serial_number" ;;
  k9 <-- kv_prop "Model Year" rg "model_year" ;;
  k10 <-- kv_prop "Seats" rg "seats" ;;
  k11 <-- kv_prop "Engines" rg "engines_count" ;;
  k12 <-- (fo <~ get rg "fractional_owner" ;;
           kv "Fractional Owner" (JStr (fractional_owner_text fo))) ;;
  on_page (set_regCard
             (String.concat ""
                [k1; k2; k3; k4; k5; k6; k7; k8; k9; k10; k11; k12])) ;;;
  link <-- (url <~ get rg "source_url" ;; source_link url "FAA / Registry") ;;
  on_page (set_regLink link).

Definition adsb_card (data : jsval) : ST view unit :=
  adsb <-- get data "adsb" ;;
  let ad := js_or adsb (JObj []) in
  k1 <-- kv_prop "Callsign" ad "callsign" ;;
  k2 <-- kv_prop "ICAO hex" ad "hex" ;;
  k3 <-- (r <~ get ad "registration" ;;
          t <~ (if truthy r then Ok r else get data "tail_number") ;;
          kv "Registration" t) ;;
  k4 <-- (a <~ get ad "icao_type" ;; b <~ get ad "type_full" ;;
          v <~ joined " · " [a; b] ;; kv "Type (ICAO / Full)" v) ;;
  k5 <-- (a <~ get ad "type_desc" ;; b <~ get ad "category" ;;
          v <~ joined " · " [a; b] ;; kv "Type Desc / Category" v) ;;
  pos_epoch <-- get ad "pos_epoch" ;;
  seen <- (if truthy pos_epoch then
             ago <- formatAgo pos_epoch ;; ret (JStr (ago ++ " (epoch)"))
           else
             last_seen <-- get ad "last_seen" ;;
             ret (js_or last_seen (JStr "—"))) ;;
  k6 <-- kv "Last seen (ADS-B)" seen ;;
  k7 <-- kv_prop_or "On-ground / Altitude" ad "baro_altitude" ;;
  k8 <-- (a <~ get ad "groundspeed_kt" ;; b <~ get ad "ground_track" ;;
          v <~ joined " / " [a; b] ;; kv "Groundspeed (kt) / Track" v) ;;
  k9 <-- (a <~ get ad "true_heading" ;; b <~ get ad "mag_heading" ;;
          v <~ joined " / " [a; b] ;; kv "Heading (true/mag)" v) ;;
  k10 <-- kv_prop "Squawk" ad "squawk" ;;
  k11 <-- kv_prop "Position (WGS84)" ad "position" ;;
  k12 <-- (a <~ get ad "source" ;; b <~ get ad "message_rate" ;;
           v <~ joined " · " [a; b] ;; kv "Source / Msg rate" v) ;;
  on_page (set_adsbCard
             (String.concat ""
                [k1; k2; k3; k4; k5; k6; k7; k8; k9; k10; k11; k12])) ;;;
  link <-- (links <~ get data "links" ;;
            url <~ get_opt links "adsb_globe_url" ;;
            if truthy url then
              links' <~ get data "links" ;;
              url' <~ get links' "adsb_globe_url" ;;
              source_link url' "ADS-B Exchange (globe)"
            else Ok "") ;;
  on_page (set_adsbLink link).

Definition role_badge (r : jsval) : outcome string :=
  rs <~ to_string r ;;
  Ok ("<span class=" ++ q "badge text-bg-secondary me-2" ++ ">" ++ rs
      ++ "</span>").

Definition overnight_badge (o : jsval) : outcome string :=
  airport <~ get o "airport" ;;
  a <~ to_string (js_or airport (JStr "—")) ;;
  overnights <~ get o "overnights" ;;
  n <~ to_string overnights ;;
  avg_ground_hours <~ get o "avg_ground_hours" ;;
  g <~ to_string avg_ground_hours ;;
  Ok ("<span class=" ++ q "badge text-bg-primary me-2 badge-airport" ++ ">"
      ++ a ++ " <span class=" ++ q "ms-1 text-bg-dark badge" ++ ">" ++ n
      ++ " ovn · " ++ g ++ "h avg</span></span>").

(** [(v || []).map(f).join('')] *)
Definition map_join (v : jsval) (f : jsval -> outcome string)
    : outcome string :=
  items <~ as_array (js_or v (JArr [])) ;;
  strs <~ mapR f items ;;
  Ok (String.concat "" strs).

Definition targeting (data : jsval) : ST view unit :=
  roles <-- (hint <~ get data "buyer_roles_hint" ;; map_join hint role_badge) ;;
  likely_base <-- get data "likely_base" ;;
  let base := js_or likely_base (JObj []) in
  baseConf <-- (c <~ get base "confidence" ;;
                if is_number c then
                  c' <~ get base "confidence" ;;
                  x <~ to_number c' ;;
                  Ok (" (conf "
                      ++ num_to_string (Math_round (num_mul x (of_Z 100)))
                      ++ "%)")
                else Ok "") ;;
  ovn <-- (tops <~ get data "overnights_top" ;; map_join tops overnight_badge) ;;
  chase0 <-- get data "chase" ;;
  let chase :=
    js_or chase0 (JObj [("score", JNum 0); ("reasons", JArr [])]) in
  k1 <-- (op <~ get data "inferred_operation" ;;
          ops <~ to_string (js_or op (JStr "—")) ;;
          fractional <~ get data "is_fractional" ;;
          kv "Inferred Operation"
             (JStr (ops ++ (if truthy fractional then " (fractional)"
                            else "")))) ;;
  k2 <-- kv "Who to contact" (js_or (JStr roles) (JStr "—")) ;;
  k3 <-- (code <~ get base "code" ;;
          if truthy code then
            code' <~ get base "code" ;;
            cs <~ to_string code' ;;
            kv "Likely operating base" (JStr (cs ++ baseConf))
          else kv "Likely operating base" (JStr "—")) ;;
  k4 <-- kv "Overnights / avg ground time" (js_or (JStr ovn) (JStr "—")) ;;
  k5 <-- (score <~ get chase "score" ;;
          ss <~ to_string score ;;
          reasons <~ get chase "reasons" ;;
          items <~ as_array (js_or reasons (JArr [])) ;;
          rs <~ array_join ", " items ;;
          kv "Chase score" (JStr (ss ++ " / 5 — " ++ rs))) ;;
  on_page (set_targetCard (String.concat "" [k1; k2; k3; k4; k5])).

Definition top_pill (a : jsval) : outcome string :=
  code <~ get a "code" ;;
  count <~ get a "count" ;;
  pill code count.

Definition activity (data : jsval) : ST view unit :=
  last_spotted <-- get data "last_spotted" ;;
  let last := js_or last_spotted (JObj []) in
  placeLabel <-- (place_code <~ get last "place_code" ;;
                  if truthy place_code then
                    place_city <~ get last "place_city" ;;
                    if truthy place_city then
                      code <~ get last "place_code" ;;
                      cs <~ to_string code ;;
                      city <~ get last "place_city" ;;
                      ys <~ to_string city ;;
                      Ok (JStr (cs ++ " (" ++ ys ++ ")"))
                    else get last "place_code"
                  else Ok (JStr "—")) ;;
  top7 <-- (tops <~ get data "top_airports_7d" ;; map_join tops top_pill) ;;
  top30 <-- (tops <~ get data "top_airports_30d" ;; map_join tops top_pill) ;;
  top90 <-- (tops <~ get data "top_airports_90d" ;; map_join tops top_pill) ;;
  epoch <-- get last "epoch" ;;
  spotted <- (if truthy epoch then
                epoch' <-- get last "epoch" ;;
                ago <- formatAgo epoch' ;;
                place <-- to_string placeLabel ;;
                ret (JStr (ago ++ " at " ++ place))
              else ret (JStr "—")) ;;
  k1 <-- kv "Last spotted (overall)" spotted ;;
  k2 <-- kv "Top airports — last 7 days" (js_or (JStr top7) (JStr "—")) ;;
  k3 <-- kv "Top airports — last 30 days" (js_or (JStr top30) (JStr "—")) ;;
  k4 <-- kv "Top airports — last 90 days" (js_or (JStr top90) (JStr "—")) ;;
  on_page (set_activityCard (String.concat "" [k1; k2; k3; k4])).

Definition flight_row (f : jsval) : outcome string :=
  date_local <~ get f "date_local" ;;
  s1 <~ to_string (js_or date_local (JStr "—")) ;;
  from_airport <~ get f "from_airport" ;;
  s2 <~ to_string (js_or from_airport (JStr "—")) ;;
  to_airport <~ get f "to_airport" ;;
  s3 <~ to_string (js_or to_airport (JStr "—")) ;;
  callsign <~ get f "callsign" ;;
  s4 <~ to_string (js_or callsign (JStr "—")) ;;
  flight_time <~ get f "flight_time" ;;
  s5 <~ to_string (js_or flight_time (JStr "—")) ;;
  Ok (nl ++ "        <td>" ++ s1 ++ "</td>" ++ nl
      ++ "        <td><span class=" ++ q "badge badge-airport text-bg-dark"
      ++ ">" ++ s2 ++ "</span></td>" ++ nl ++ "        <td><span class="
      ++ q "badge badge-airport text-bg-dark" ++ ">" ++ s3 ++ "</span></td>"
      ++ nl ++ "        <td>" ++ s4 ++ "</td>" ++ nl ++ "        <td>" ++ s5
      ++ "</td>" ++ nl ++ "      ").

Definition flights_table (data : jsval) : ST view unit :=
  recent_flights <-- get data "recent_flights" ;;
  items <-- as_array (js_or recent_flights (JArr [])) ;;
  forEach (fun f =>
             tr <-- flight_row f ;;
             on_page (fun p => set_flightsTable (flightsTable p ++ [tr])%list p))
          items.

(** *** The submit handler *)

Definition apply_all {A} (fs : list (A -> A)) (a : A) : A :=
  fold_left (fun x f => f x) fs a.

(** [a || b] on strings *)
Definition str_or (a b : string) : string := if String.eqb a "" then b else a.

Definition aircraft_url (n : string) : string :=
  API_BASE ++ "/api/aircraft?n=" ++ encodeURIComponent n ++ "&use_adsb=true".

Definition contacts_url (n : string) : string :=
  API_BASE ++ "/api/contacts-by-tail?n=" ++ encodeURIComponent n.

(** The statements of the handler before it reads the input: the error
    box, the results region, every card, link and the table are cleared,
    then the contact blocks that exist, and the spinner is shown. *)
Definition reset_page : page -> page :=
  apply_all
    [ setError ""; set_results_hidden true;
      set_fr24Card ""; set_regCard ""; set_adsbCard ""; set_targetCard "";
      set_activityCard "";
      set_fr24Link ""; set_regLink ""; set_adsbLink "";
      set_flightsTable [];
      showSpinner true ].

Definition reset_contacts : contacts -> contacts :=
  apply_all
    [ set_block ContactsAirline ""; set_block DomContacts "";
      set_block OccContacts ""; set_block OtherContacts "" ].

Definition reset (b : browser) : browser :=
  mkBrowser (reset_page (the_page b)) (reset_contacts (the_contacts b))
            (input_value b) (clock b).

(** Validation: an input that trims to the empty string is answered on the
    spot; otherwise the request for the aircraft goes out and the handler
    waits for its answer. *)
Definition validate (b : browser) : browser * list event * pending :=
  let n := trim (str_or (input_value b) "") in
  if String.eqb n "" then
    (mkBrowser (showSpinner false (setError "Please enter an N-number."
                                            (the_page b)))
               (the_contacts b) (input_value b) (clock b),
     [], Finished)
  else (b, [Fetch (aircraft_url n)], AwaitAircraft n).

Definition on_submit (b : browser) : browser * list event * pending :=
  validate (reset b).

(** The [catch] and [finally] clauses around the body of the handler. *)
Definition outer_handlers (m : H unit) : H unit :=
  finally
    (try_catch m
       (fun err =>
          emit (ConsoleError [LExn err]) >>>
          in_view (on_page
            (setError
               "Lookup failed. Try again in a moment or verify the N-number."))))
    (in_view (on_page (showSpinner false))).

(** [await fetch(...)], the status check and [await res.json()] *)
Definition received (r : response) : outcome jsval :=
  match r with
  | NetworkFailure => Throw FetchFailure
  | Response status b =>
      if negb (ok status) then Throw (Error ("HTTP " ++ Z_to_string status))
      else
        match b with
        | BadJson => Throw SyntaxError
        | Json data => Ok data
        end
  end.

Definition show_results : H unit :=
  in_view (on_page (set_results_hidden false)).

Definition aircraft_sections (r : response) : H unit :=
  data <<- liftH (received r) ;;
  in_view (fr24_card data) >>>
  in_view (registry_card data) >>>
  in_view (adsb_card data) >>>
  (links <<- liftH (get data "links") ;; emit (ConsoleLog [LVal links])) >>>
  in_view (targeting data) >>>
  in_view (activity data) >>>
  in_view (flights_table data).

(** [contactsAirline && domContacts && occContacts && otherContacts] *)
Definition contacts_guard (c : contacts) : bool :=
  present (contactsAirline c) && present (domContacts c)
  && present (occContacts c) && present (otherContacts c).

(** The inner [try] block once the answer of the contacts request is in. *)
Definition contacts_body (r : response) : H unit :=
  match r with
  | NetworkFailure => liftH (Throw FetchFailure)
  | Response status b =>
      if ok status then
        cdata <<- liftH (match b with
                         | BadJson => Throw SyntaxError
                         | Json v => Ok v
                         end) ;;
        contacts0 <<- liftH (get cdata "contacts") ;;
        let c := js_or contacts0 (JObj []) in
        airline <<- liftH (a <~ get c "airline" ;;
                           if truthy a then Ok a else get cdata "airline") ;;
        (if truthy airline then
           html <<- liftH (a <~ get c "airline" ;;
                           a' <~ (if truthy a then Ok a
                                  else get cdata "airline") ;;
                           s <~ to_string a' ;;
                           Ok ("Airline: <strong>" ++ s ++ "</strong>")) ;;
           in_contacts (modify (set_block ContactsAirline html))
         else retH tt) >>>
        (dom <<- liftH (get c "dom") ;;
         in_contacts (renderContactsGroup DomContacts
                        "Director of Maintenance / Maintenance" dom)) >>>
        (occ <<- liftH (get c "occ") ;;
         in_contacts (renderContactsGroup OccContacts "OCC / Dispatch" occ)) >>>
        (other <<- liftH (get c "other") ;;
         in_contacts (renderContactsGroup OtherContacts
                        "Other relevant contacts" other))
      else
        html <<- liftH (kv "Contacts"
                          (JStr "Contact lookup not available for this tail.")) ;;
        in_contacts (modify (set_block DomContacts html))
  end.

Definition contacts_catch (contactErr : exn) : H unit :=
  emit (ConsoleError [LStr "Contacts lookup failed:"; LExn contactErr]) >>>
  html <<- liftH (kv "Contacts" (JStr "Contact lookup failed.")) ;;
  in_contacts (modify (set_block DomContacts html)).

(** The handler resumes with the answer [r] of the aircraft request.  When
    the sections are written and the four contact blocks exist, the
    contacts request goes out and the handler waits again, still inside
    both [try] blocks; otherwise it runs to its end. *)
Definition on_aircraft (n : string) (r : response) (b : browser)
    : browser * list event * pending :=
  let '(o, b1, t1) := aircraft_sections r b in
  match o with
  | Ok _ =>
      if contacts_guard (the_contacts b1) then
        (b1, (t1 ++ [Fetch (contacts_url n)])%list, AwaitContacts n)
      else
        let '(_, b2, t2) := outer_handlers show_results b1 in
        (b2, (t1 ++ t2)%list, Finished)
  | Throw err =>
      let '(_, b2, t2) := outer_handlers (liftH (Throw err)) b1 in
      (b2, (t1 ++ t2)%list, Finished)
  end.

(** The handler resumes with the answer [r] of the contacts request. *)
Definition on_contacts (r : response) (b : browser) : browser * list event :=
  let '(_, b', t) :=
    outer_handlers
      (try_catch (contacts_body r) contacts_catch >>> show_results) b in
  (b', t).

(** One submission from beginning to end, the network answering each
    request by its URL. *)
Definition submit (net : string -> response) (b : browser)
    : browser * list event :=
  let '(b1, t1, p1) := on_submit b in
  match p1 with
  | AwaitAircraft n =>
      let '(b2, t2, p2) := on_aircraft n (net (aircraft_url n)) b1 in
      match p2 with
      | AwaitContacts n' =>
          let '(b3, t3) := on_contacts (net (contacts_url n')) b2 in
          (b3, (t1 ++ t2 ++ t3)%list)
      | _ => (b2, (t1 ++ t2)%list)
      end
  | _ => (b1, t1)
  end.

End Main.

(** ** Specification-level definitions

    What the statements below are phrased with: the reducer and the time
    buckets in the words of the specification, the markup of a field, and
    the parts of the page a statement singles out. *)

Module Spec.
Import JS Dom.











(** [c1 || c2 || ... || '—']: the alternatives a label is filled from, in
    order, closed by the alternative [kv] itself adds. *)
Definition or_chain (cands : list jsval) : jsval :=
  fold_right js_or (JStr "—") cands.

(** The reducer in the words of the specification: the first candidate
    that is not null, not undefined and not the empty string. *)
Definition spec_present (v : jsval) : bool :=
  match v with
  | JUndefined => false
  | JNull => false
  | JStr s => negb (String.eqb s "")
  | _ => true
  end.

Definition spec_reduce (cands : list jsval) : jsval :=
  match find spec_present cands with
  | Some v => v
  | None => JStr "—"
  end.

(** The markup of one labelled field. *)
Definition kv_html (label value : string) : string :=
  "<div class=" ++ q "mb-2" ++ "><div class=" ++ q "label" ++ ">" ++ label
  ++ "</div><div class=" ++ q "value" ++ ">" ++ value ++ "</div></div>".

(** A page with nothing on it, and a browser showing it at a fixed time. *)
Definition blank_page : page :=
  mkPage "none" true "" true "" "" "" "" "" "" "" "" [].

Definition empty_contacts : contacts :=
  mkContacts (Some "") (Some "") (Some "") (Some "").

Definition at_time (now : Z) : view := mkView blank_page (fun _ => now).

(** The parts of the page no section writes: the spinner, the error box
    and the visibility of the results region. *)
Definition chrome (p : page) : string * bool * string * bool :=
  (spinner_display p, errBox_hidden p, errBox_text p, results_hidden p).

(** What the sections write. *)
Definition sections_of (p : page)
    : string * string * string * string * string * string * string * string
      * list string :=
  (fr24Card p, fr24Link p, regCard p, regLink p, adsbCard p, adsbLink p,
   targetCard p, activityCard p, flightsTable p).

Definition sections_empty (p : page) : Prop :=
  sections_of p = ("", "", "", "", "", "", "", "", []).

(** Which contact blocks the page has, and that those it has are empty. *)
Definition presence (c : contacts) : list bool :=
  [ present (contactsAirline c); present (domContacts c);
    present (occContacts c); present (otherContacts c) ].

Definition cleared (el : option string) : Prop := el = None \/ el = Some "".

Definition contacts_empty (c : contacts) : Prop :=
  cleared (contactsAirline c) /\ cleared (domContacts c)
  /\ cleared (occContacts c) /\ cleared (otherContacts c).

(** A section leaves the chrome alone. *)
Definition keeps {A} (m : ST view A) : Prop :=
  forall v, chrome (v_page (snd (m v))) = chrome (v_page v).

(** A contacts rendering neither adds nor removes a block. *)
Definition keeps_presence {A} (m : ST contacts A) : Prop :=
  forall c, presence (snd (m c)) = presence c.

Definition is_fetch (e : event) : bool :=
  match e with
  | Fetch _ => true
  | _ => false
  end.

Definition is_console_error (e : event) : bool :=
  match e with
  | ConsoleError _ => true
  | _ => false
  end.

Definition fetches (t : list event) : list event := filter is_fetch t.

(** A part of the handler that writes sections only: contact blocks,
    input and chrome stay, and it neither sends a request nor reports an
    error. *)
Definition writes_sections_only {A} (m : H A) : Prop :=
  forall b,
    let '(_, b', t) := m b in
    the_contacts b' = the_contacts b
    /\ input_value b' = input_value b
    /\ chrome (the_page b') = chrome (the_page b)
    /\ fetches t = [] /\ filter is_console_error t = [].

(** A part of the handler that writes contact blocks only. *)
Definition writes_contacts_only {A} (m : H A) : Prop :=
  forall b,
    let '(_, b', t) := m b in
    the_page b' = the_page b
    /\ clock b' = clock b
    /\ input_value b' = input_value b
    /\ presence (the_contacts b') = presence (the_contacts b)
    /\ fetches t = [].

(** The page while the first request is out: everything cleared, the
    error box hidden, the results hidden, the spinner shown. *)
Definition waiting_page : page :=
  mkPage "inline-block" true "" true "" "" "" "" "" "" "" "" [].

(** The page after an empty query, and after a failed lookup. *)
Definition rejected_page : page :=
  mkPage "none" false "Please enter an N-number." true
         "" "" "" "" "" "" "" "" [].

Definition failed_page : page :=
  mkPage "none" false
         "Lookup failed. Try again in a moment or verify the N-number." true
         "" "" "" "" "" "" "" "" [].

(** The messages of the scripts. *)
Definition lookup_failed : string :=
  "Lookup failed. Try again in a moment or verify the N-number.".


Definition contacts_failed : string := "Contact lookup failed.".

(** Sample payloads and a sample browser for the worked instances. *)
Definition registry_sample : jsval :=
  JObj [("registry",
         JObj [("owner", JStr "ACME LLC"); ("seats", JNum 0);
               ("fractional_owner", JBool false)])].

Definition sample_data : jsval :=
  JObj [("tail_number", JStr "N123AB");
        ("fr24", JObj [("model", JStr "Gulfstream G650")]);
        ("registry", JObj [("seats", JNum 0);
                           ("fractional_owner", JBool false)]);
        ("adsb", JObj [("pos_epoch", JNum 1700000040);
                       ("groundspeed_kt", JNum 0);
                       ("ground_track", JNum 90)]);
        ("likely_base", JObj [("code", JStr "TEB");
                              ("confidence", JNum (87 # 100))]);
        ("last_spotted", JObj [("epoch", JNum 1699900000);
                               ("place_code", JStr "KTEB");
                               ("place_city", JStr "Teterboro")]);
        ("top_airports_7d",
         JArr [JObj [("code", JStr "KTEB"); ("count", JNum 3)]]);
        ("recent_flights", JArr [JObj [("callsign", JStr "EJA1")]])].

Definition sample_contacts : jsval :=
  JObj [("airline", JStr "NetJets");
        ("contacts",
         JObj [("dom", JArr [JObj [("name", JStr "Ann");
                                   ("title", JStr "DOM");
                                   ("email", JStr "a@x.io");
                                   ("phone", JStr "555")]]);
               ("occ", JArr [])])].

(** A page left over from an earlier lookup. *)
Definition used_page : page :=
  mkPage "none" false "old error" false "old fr24" "old link" "old reg"
         "old link" "old adsb" "old link" "old target" "old activity"
         ["old row"].

Definition used_contacts : contacts :=
  mkContacts (Some "old airline") (Some "old dom") (Some "old occ")
             (Some "old other").

Definition sample_browser (typed : string) (now : Z) : browser :=
  mkBrowser used_page used_contacts typed (fun _ => now).

(** A network that answers the aircraft request of either script with
    [aircraft] and every other request with [others]. *)
Definition sample_net (aircraft others : response) (url : string) : response :=
  if String.eqb url (Main.aircraft_url "N123AB") then aircraft
  else if String.eqb url (Static.aircraft_url "N123AB") then aircraft
  else others.

(** The sample browser once the query N123AB is out, and once the sample
    payload has been rendered and the contacts request is out. *)
Definition sample_waiting : browser :=
  mkBrowser waiting_page empty_contacts " N123AB " (fun _ => 1700000100000).

Definition sample_rendered : browser :=
  fst (fst (Main.on_aircraft "N123AB" (Response 200 (Json sample_data))
                             sample_waiting)).

(** Two parts of a handler that do the same to the page and the clock and
    send the same requests, whatever else the two browsers hold. *)
Definition same_view {A} (m m' : H A) : Prop :=
  forall b b',
    the_page b = the_page b' -> clock b = clock b' ->
    let '(o, b1, t) := m b in
    let '(o', b1', t') := m' b' in
    o = o' /\ the_page b1 = the_page b1' /\ clock b1 = clock b1'
    /\ fetches t = fetches t'.

(** *** Further definitions

    What the statements about the rest of the scripts are phrased with. *)

(** A page at rest after a submission: the spinner is off, and either the
    results are shown and the error box is hidden and empty, or the
    results are hidden and the error box shows one of the two messages. *)
Definition settled (p : page) : Prop :=
  spinner_display p = "none"
  /\ (results_hidden p = false /\ errBox_hidden p = true /\ errBox_text p = ""
      \/ results_hidden p = true /\ errBox_hidden p = false
         /\ (errBox_text p = "Please enter an N-number."
             \/ errBox_text p = lookup_failed)).

(** A payload of the shape the scripts are written for.  [prop o k] is
    the read [o.k] where it cannot throw; [plain v] says that no object
    inside [v] carries an own [toString], the one thing that makes a
    conversion to a string fail; a list field holds an array or nothing,
    and where the script reads properties of the entries, no entry is
    [null]. *)
Definition nullish (v : jsval) : bool :=
  match v with
  | JUndefined => true
  | JNull => true
  | _ => false
  end.

Definition prop (o : jsval) (k : string) : jsval :=
  match get o k with
  | Ok v => v
  | Throw _ => JUndefined
  end.

Definition str (v : jsval) : string :=
  match to_string v with
  | Ok s => s
  | Throw _ => ""
  end.

Fixpoint plain (v : jsval) : bool :=
  match v with
  | JArr items =>
      (fix all (l : list jsval) : bool :=
         match l with
         | [] => true
         | x :: r => plain x && all r
         end) items
  | JObj ps =>
      match own_prop "toString" ps with
      | Some _ => false
      | None => true
      end
      && (fix all (l : list (string * jsval)) : bool :=
            match l with
            | [] => true
            | (_, x) :: r => plain x && all r
            end) ps
  | _ => true
  end.

Definition texts_field (v : jsval) : bool :=
  match v with
  | JArr _ => true
  | _ => negb (truthy v)
  end.

Definition rows_field (v : jsval) : bool :=
  match v with
  | JArr items => forallb (fun x => negb (nullish x)) items
  | _ => negb (truthy v)
  end.

Definition well_shaped (data : jsval) : bool :=
  negb (nullish data) && plain data
  && texts_field (prop data "buyer_roles_hint")
  && rows_field (prop data "overnights_top")
  && texts_field (prop (prop data "chase") "reasons")
  && rows_field (prop data "top_airports_7d")
  && rows_field (prop data "top_airports_30d")
  && rows_field (prop data "top_airports_90d")
  && rows_field (prop data "recent_flights").

(** A string with no white space at its beginning and none at its end. *)
Definition bare (s : string) : Prop :=
  (forall w, In w white_space -> starts_with w s = false)
  /\ (forall w, In w white_space ->
        starts_with (string_rev w) (string_rev s) = false).

(** The same browser at another time, and computations that never look at
    the time: run at any clock they return the same, write the same and
    leave the clock as it was. *)
Definition with_clock (c : nat -> Z) (b : browser) : browser :=
  mkBrowser (the_page b) (the_contacts b) (input_value b) c.

Definition clock_free {A} (m : ST view A) : Prop :=
  forall p, exists r p', forall c, m (mkView p c) = (r, mkView p' c).

Definition clock_freeH {A} (m : H A) : Prop :=
  forall b, exists o p cs t,
    forall c, m (with_clock c b) = (o, mkBrowser p cs (input_value b) c, t).

(** A payload that carries neither of the two times the page shows as an
    age. *)
Definition no_epochs (data : jsval) : Prop :=
  truthy (prop (js_or (prop data "adsb") (JObj [])) "pos_epoch") = false
  /\ truthy (prop (js_or (prop data "last_spotted") (JObj [])) "epoch")
     = false.

(** A part of the handler that leaves the contact block [k] alone. *)
Definition keeps_block (k : block) {A} (m : H A) : Prop :=
  forall b,
    block_of k (the_contacts (snd (fst (m b)))) = block_of k (the_contacts b).

(** An entry of a list whose properties the script reads. *)
Definition entry (x : jsval) : Prop := nullish x = false /\ plain x = true.

(** Induction over a value and the values inside it. *)
Section Nested_induction.

Variable P : jsval -> Prop.
Hypothesis HUndefined : P JUndefined.
Hypothesis HNull : P JNull.
Hypothesis HBool : forall b, P (JBool b).
Hypothesis HNum : forall x, P (JNum x).
Hypothesis HStr : forall s, P (JStr s).
Hypothesis HArr : forall items, Forall P items -> P (JArr items).
Hypothesis HObj :
  forall ps, Forall (fun kv => P (snd kv)) ps -> P (JObj ps).

Fixpoint jsval_nested_ind (v : jsval) : P v :=
  match v with
  | JUndefined => HUndefined
  | JNull => HNull
  | JBool b => HBool b
  | JNum x => HNum x
  | JStr s => HStr s
  | JArr items =>
      HArr items
        ((fix go (l : list jsval) : Forall P l :=
            match l with
            | [] => Forall_nil _
            | x :: r => Forall_cons x (jsval_nested_ind x) (go r)
            end) items)
  | JObj ps =>
      HObj ps
        ((fix go (l : list (string * jsval))
            : Forall (fun kv => P (snd kv)) l :=
            match l with
            | [] => Forall_nil _
            | kv :: r => Forall_cons kv (jsval_nested_ind (snd kv)) (go r)
            end) ps)
  end.

End Nested_induction.

End Spec.

(** ** Properties *)

Import JS Dom Spec.

(** *** Numbers *)




















(** *** The time-relative formatter *)


Lemma formatAgo_same (epoch : jsval) :
  Static.formatAgo epoch = Main.formatAgo epoch.
Proof. reflexivity. Qed.






(** *** The field reducer *)

Lemma or_chain_find (cands : list jsval) :
  or_chain cands
  = match find truthy cands with
    | Some v => v
    | None => JStr "—"
    end.
Proof.
  induction cands as [|c rest IH]; [reflexivity|].
  simpl. unfold js_or. destruct (truthy c); [reflexivity|exact IH].
Qed.

Lemma truthy_false_iff (v : jsval) :
  truthy v = false
  <-> v = JUndefined \/ v = JNull \/ v = JBool false
      \/ (exists x, v = JNum x /\ x == 0) \/ v = JStr "".
Proof.
  split.
  - destruct v as [ | | b | x | s | l | ps ]; simpl; intros H; auto.
    + destruct b; [discriminate|auto].
    + right; right; right; left. exists x. split; [reflexivity|].
      apply Qeq_bool_iff. now destruct (Qeq_bool x 0).
    + right; right; right; right. f_equal.
      destruct (String.eqb_spec s ""); [assumption|discriminate].
    + discriminate.
    + discriminate.
  - intros [-> | [-> | [-> | [[x [-> Hx]] | ->]]]]; try reflexivity.
    simpl. apply Qeq_bool_iff in Hx. now rewrite Hx.
Qed.

Lemma kv_or_chain (label : string) (v : jsval) :
  Main.kv label v = (s <~ to_string (or_chain [v]) ;; Ok (kv_html label s))
  /\ Static.kv label v = Main.kv label v.
Proof. split; reflexivity. Qed.

Lemma js_or_assoc (a b c : jsval) : js_or (js_or a b) c = js_or a (js_or b c).
Proof. unfold js_or. destruct (truthy a) eqn:E; [now rewrite E|reflexivity]. Qed.

(** [kv(label, a || b)] fills the label from the chain [a || b || '—']. *)
Lemma kv_or_chain2 (label : string) (a b : jsval) :
  Main.kv label (js_or a b)
  = (s <~ to_string (or_chain [a; b]) ;; Ok (kv_html label s)).
Proof.
  unfold Main.kv. rewrite js_or_assoc. reflexivity.
Qed.

(** [vals.filter(Boolean).join(sep) || '—'] joins the truthy candidates. *)
Lemma joined_truthy (sep : string) (vals : list jsval) :
  Main.joined sep vals
  = (s <~ array_join sep (filter truthy vals) ;; Ok (or_chain [JStr s])).
Proof. reflexivity. Qed.

(** C1, as the scripts have it: the chain of alternatives that fills a
    label yields its first truthy candidate, or the sentinel when there is
    none; the candidates passed over are exactly undefined, null, false,
    zero and the empty string; [kv] renders the outcome of the chain, and
    the joined fields keep the truthy candidates only. *)
Theorem or_chain_first_truthy (cands : list jsval) :
  or_chain cands
  = match find truthy cands with
    | Some v => v
    | None => JStr "—"
    end
  /\ (forall v, truthy v = false
        <-> v = JUndefined \/ v = JNull \/ v = JBool false
            \/ (exists x, v = JNum x /\ x == 0) \/ v = JStr "")
  /\ (forall label v,
        Main.kv label v
        = (s <~ to_string (or_chain [v]) ;; Ok (kv_html label s))
        /\ Static.kv label v = Main.kv label v)
  /\ (forall label a b,
        Main.kv label (js_or a b)
        = (s <~ to_string (or_chain [a; b]) ;; Ok (kv_html label s)))
  /\ (forall sep vals,
        Main.joined sep vals
        = (s <~ array_join sep (filter truthy vals) ;;
           Ok (or_chain [JStr s]))).
Proof.
  split; [apply or_chain_find|].
  split; [apply truthy_false_iff|].
  split; [apply kv_or_chain|].
  split; [apply kv_or_chain2|apply joined_truthy].
Qed.

(** C1 fails as stated: zero and false are passed over like absent values,
    where the specification keeps them. *)
Lemma zero_and_false_replaced :
  or_chain [JNum 0] <> spec_reduce [JNum 0]
  /\ or_chain [JNum 0] = JStr "—" /\ spec_reduce [JNum 0] = JNum 0
  /\ or_chain [JBool false] = JStr "—"
  /\ spec_reduce [JBool false] = JBool false
  /\ or_chain [JNum 0; JStr "N1"] = JStr "N1"
  /\ spec_reduce [JNum 0; JStr "N1"] = JNum 0
  /\ Main.kv "Seats" (JNum 0) = Ok (kv_html "Seats" "—")
  /\ Static.kv "Seats" (JBool false) = Ok (kv_html "Seats" "—")
  /\ Main.joined " / " [JNum 0; JNum 90] = Ok (JStr "90").
Proof.
  split; [discriminate|].
  repeat split.
Qed.

(** *** The fractional-owner field *)

Lemma fractional_owner_text_cases (fo : jsval) :
  Main.fractional_owner_text fo = "YES" /\ fo = JBool true
  \/ Main.fractional_owner_text fo = "NO" /\ fo = JBool false
  \/ Main.fractional_owner_text fo = "—" /\ fo <> JBool true /\ fo <> JBool false.
Proof.
  destruct fo as [ | | [ | ] | x | s | l | ps ]; simpl; auto;
    right; right; repeat split; discriminate.
Qed.

Lemma kv_fractional_owner (fo : jsval) :
  Main.kv "Fractional Owner" (JStr (Main.fractional_owner_text fo))
  = Ok (kv_html "Fractional Owner" (Main.fractional_owner_text fo)).
Proof.
  destruct (fractional_owner_text_cases fo) as [[-> _] | [[-> _] | [-> _]]];
    reflexivity.
Qed.

Lemma bind_lift {S A B} (r : outcome A) (k : A -> ST S B) (s : S) :
  bind (lift r) k s
  = match r with
    | Ok a => k a s
    | Throw e => (Throw e, s)
    end.
Proof. unfold bind, lift. destruct r; reflexivity. Qed.

Lemma bind_on_page {B} (f : page -> page) (k : unit -> ST view B) (v : view) :
  bind (on_page f) k v = k tt (mkView (f (v_page v)) (v_clock v)).
Proof. reflexivity. Qed.

Ltac step_ok H :=
  match type of H with
  | bind (lift ?r) _ _ = (Ok _, _) =>
      rewrite bind_lift in H;
      let x := fresh "x" in
      let E := fresh "E" in
      destruct r as [x|?] eqn:E; [|discriminate H]
  | bind (on_page _) _ _ = (Ok _, _) => rewrite bind_on_page in H
  end.

Lemma registry_card_last (data : jsval) (v v' : view) :
  Main.registry_card data v = (Ok tt, v') ->
  exists rg fo firsts,
    get data "registry" = Ok rg
    /\ get (js_or rg (JObj [])) "fractional_owner" = Ok fo
    /\ length firsts = 11%nat
    /\ regCard (v_page v')
       = String.concat ""
           (firsts ++ [kv_html "Fractional Owner"
                         (Main.fractional_owner_text fo)]).
Proof.
  intros H. unfold Main.registry_card in H.
  step_ok H.
  do 11 step_ok H.
  step_ok H. step_ok H. step_ok H.
  unfold on_page, modify in H. injection H as <-.
  destruct (get (js_or x (JObj [])) "fractional_owner") as [fo|] eqn:Efo;
    [|discriminate].
  simpl in E11. rewrite kv_fractional_owner in E11. injection E11 as <-.
  exists x, fo, [x0; x1; x2; x3; x4; x5; x6; x7; x8; x9; x10].
  repeat split; assumption.
Qed.

(** C8: the fractional-owner field maps [true] to YES, [false] to NO and an
    absent value to the sentinel; any other value also yields the
    sentinel, and [false] keeps its own text.  The registry card of every
    payload closes with that field.  Both scripts agree. *)
Theorem fractional_owner_three_way :
  Main.fractional_owner_text (JBool true) = "YES"
  /\ Main.fractional_owner_text (JBool false) = "NO"
  /\ Main.fractional_owner_text JUndefined = "—"
  /\ (forall fo, fo <> JBool true -> fo <> JBool false ->
        Main.fractional_owner_text fo = "—")
  /\ (forall fo,
        Main.kv "Fractional Owner" (JStr (Main.fractional_owner_text fo))
        = Ok (kv_html "Fractional Owner" (Main.fractional_owner_text fo)))
  /\ (forall data v v',
        Main.registry_card data v = (Ok tt, v') ->
        exists rg fo firsts,
          get data "registry" = Ok rg
          /\ get (js_or rg (JObj [])) "fractional_owner" = Ok fo
          /\ length firsts = 11%nat
          /\ regCard (v_page v')
             = String.concat ""
                 (firsts ++ [kv_html "Fractional Owner"
                               (Main.fractional_owner_text fo)]))
  /\ (forall fo,
        Static.fractional_owner_text fo = Main.fractional_owner_text fo)
  /\ (forall data, Static.registry_card data = Main.registry_card data).
Proof.
  repeat split.
  - intros fo H1 H2.
    destruct (fractional_owner_text_cases fo) as [[_ ->] | [[_ ->] | [-> _]]];
      congruence.
  - apply kv_fractional_owner.
  - apply registry_card_last.
Qed.

Lemma fractional_owner_three_way_witness :
  exists firsts,
    regCard (v_page (snd (Main.registry_card registry_sample (at_time 0))))
    = String.concat "" (firsts ++ [kv_html "Fractional Owner" "NO"]).
Proof.
  destruct fractional_owner_three_way as (_ & _ & _ & _ & _ & H & _).
  destruct (H registry_sample (at_time 0)
              (snd (Main.registry_card registry_sample (at_time 0))) eq_refl)
    as (rg & fo & firsts & Hrg & Hfo & _ & Hc).
  injection Hrg as <-. injection Hfo as <-. exists firsts. exact Hc.
Defined.

(** *** What the sections leave alone *)

Lemma keeps_ret {A} (a : A) : keeps (ret a).
Proof. intros v. reflexivity. Qed.

Lemma keeps_lift {A} (r : outcome A) : keeps (lift r).
Proof. intros v. reflexivity. Qed.

Lemma keeps_bind {A B} (m : ST view A) (k : A -> ST view B) :
  keeps m -> (forall a, keeps (k a)) -> keeps (bind m k).
Proof.
  intros Hm Hk v. unfold bind. specialize (Hm v).
  destruct (m v) as [[a|e] v1]; simpl in *; [|exact Hm].
  rewrite <- Hm. apply Hk.
Qed.

Lemma keeps_Date_now : keeps Date_now.
Proof. intros v. reflexivity. Qed.

Lemma keeps_on_page (f : page -> page) :
  (forall p, chrome (f p) = chrome p) -> keeps (on_page f).
Proof. intros Hf v. apply Hf. Qed.

Lemma keeps_forEach {A} (f : A -> ST view unit) (l : list A) :
  (forall a, keeps (f a)) -> keeps (forEach f l).
Proof.
  intros Hf. induction l as [|x rest IH]; simpl.
  - apply keeps_ret.
  - apply keeps_bind; [apply Hf|intros _; exact IH].
Qed.

Ltac keeps_step :=
  first
    [ apply keeps_ret
    | apply keeps_lift
    | apply keeps_Date_now
    | apply keeps_on_page; intro; reflexivity
    | apply keeps_forEach; intro
    | apply keeps_bind; [|intro]
    | match goal with
      | |- keeps (if ?c then _ else _) => destruct c
      end ].

Lemma keeps_formatAgo (epoch : jsval) : keeps (Main.formatAgo epoch).
Proof. unfold Main.formatAgo. repeat keeps_step. Qed.

Ltac keeps_auto := repeat first [ apply keeps_formatAgo | keeps_step ].

Lemma keeps_fr24_card (data : jsval) : keeps (Main.fr24_card data).
Proof. unfold Main.fr24_card. keeps_auto. Qed.

Lemma keeps_registry_card (data : jsval) : keeps (Main.registry_card data).
Proof. unfold Main.registry_card. keeps_auto. Qed.

Lemma keeps_adsb_card (data : jsval) : keeps (Main.adsb_card data).
Proof. unfold Main.adsb_card. keeps_auto. Qed.

Lemma keeps_targeting (data : jsval) : keeps (Main.targeting data).
Proof. unfold Main.targeting. keeps_auto. Qed.

Lemma keeps_activity (data : jsval) : keeps (Main.activity data).
Proof. unfold Main.activity. keeps_auto. Qed.

Lemma keeps_flights_table (data : jsval) : keeps (Main.flights_table data).
Proof. unfold Main.flights_table. keeps_auto. Qed.

(** *** Parts of the handler *)

Lemma sections_only_bindH {A B} (m : H A) (k : A -> H B) :
  writes_sections_only m -> (forall a, writes_sections_only (k a)) ->
  writes_sections_only (bindH m k).
Proof.
  intros Hm Hk b. unfold bindH. specialize (Hm b).
  destruct (m b) as [[[a|e] b1] t1]; [|exact Hm].
  specialize (Hk a b1). destruct (k a b1) as [[r b2] t2].
  destruct Hm as (C1 & I1 & P1 & F1 & E1), Hk as (C2 & I2 & P2 & F2 & E2).
  unfold fetches in *. rewrite !filter_app, F1, F2, E1, E2.
  repeat split; congruence.
Qed.

Lemma sections_only_liftH {A} (r : outcome A) : writes_sections_only (liftH r).
Proof. intros b. simpl. repeat split. Qed.

Lemma sections_only_in_view {A} (m : ST view A) :
  keeps m -> writes_sections_only (in_view m).
Proof.
  intros Hm b. unfold in_view.
  specialize (Hm (mkView (the_page b) (clock b))).
  destruct (m (mkView (the_page b) (clock b))) as [r v]. simpl in *.
  repeat split; assumption.
Qed.

Lemma sections_only_log (args : list logarg) :
  writes_sections_only (emit (ConsoleLog args)).
Proof. intros b. simpl. repeat split. Qed.

Lemma aircraft_sections_only (r : response) :
  writes_sections_only (Main.aircraft_sections r).
Proof.
  unfold Main.aircraft_sections.
  repeat first
    [ apply sections_only_liftH
    | apply sections_only_log
    | apply sections_only_in_view;
      first [ apply keeps_fr24_card | apply keeps_registry_card
            | apply keeps_adsb_card | apply keeps_targeting
            | apply keeps_activity | apply keeps_flights_table ]
    | apply sections_only_bindH; [|intro] ].
Qed.

(** *** Reset and validation *)

Lemma str_or_empty (a : string) : Main.str_or a "" = a.
Proof. unfold Main.str_or. now destruct (String.eqb_spec a ""). Qed.

Lemma reset_page_waiting (p : page) :
  Main.reset_page p = waiting_page /\ Static.reset_page p = waiting_page.
Proof. split; reflexivity. Qed.

Lemma reset_contacts_blocks (c : contacts) :
  Main.reset_contacts c
  = mkContacts (assign (contactsAirline c) "") (assign (domContacts c) "")
               (assign (occContacts c) "") (assign (otherContacts c) "").
Proof. reflexivity. Qed.

Lemma assign_cleared (el : option string) : cleared (assign el "").
Proof. destruct el; [right|left]; reflexivity. Qed.

Lemma assign_present (el : option string) (html : string) :
  present (assign el html) = present el.
Proof. now destruct el. Qed.

Lemma reset_contacts_empty (c : contacts) :
  contacts_empty (Main.reset_contacts c)
  /\ presence (Main.reset_contacts c) = presence c.
Proof.
  rewrite reset_contacts_blocks. split.
  - repeat split; apply assign_cleared.
  - unfold presence; simpl. now rewrite !assign_present.
Qed.

Lemma on_submit_cases (b : browser) :
  (trim (input_value b) = ""
   /\ Main.on_submit b
      = (mkBrowser rejected_page (Main.reset_contacts (the_contacts b))
                   (input_value b) (clock b), [], Finished))
  \/ (trim (input_value b) <> ""
      /\ Main.on_submit b
         = (mkBrowser waiting_page (Main.reset_contacts (the_contacts b))
                      (input_value b) (clock b),
            [Fetch (Main.aircraft_url (trim (input_value b)))],
            AwaitAircraft (trim (input_value b)))).
Proof.
  unfold Main.on_submit, Main.validate, Main.reset. simpl input_value.
  rewrite str_or_empty.
  destruct (String.eqb_spec (trim (input_value b)) "") as [E|E];
    [left|right]; (split; [exact E|reflexivity]).
Qed.

Lemma static_on_submit_cases (b : browser) :
  (trim (input_value b) = ""
   /\ Static.on_submit b
      = (mkBrowser rejected_page (the_contacts b) (input_value b) (clock b),
         [], Finished))
  \/ (trim (input_value b) <> ""
      /\ Static.on_submit b
         = (mkBrowser waiting_page (the_contacts b) (input_value b) (clock b),
            [Fetch (Static.aircraft_url (trim (input_value b)))],
            AwaitAircraft (trim (input_value b)))).
Proof.
  unfold Static.on_submit, Static.validate, Static.reset. simpl input_value.
  change (Static.str_or (input_value b) "") with (Main.str_or (input_value b) "").
  rewrite str_or_empty.
  destruct (String.eqb_spec (trim (input_value b)) "") as [E|E];
    [left|right]; (split; [exact E|reflexivity]).
Qed.

Lemma strip_one_white_space (w rest : string) :
  In w white_space -> strip_one white_space (w ++ rest) = Some rest.
Proof.
  intros H. unfold white_space in H. simpl in H.
  repeat (destruct H as [<- | H]; [reflexivity|]).
  contradiction.
Qed.

Lemma white_space_not_empty (w : string) :
  In w white_space -> (1 <= String.length w)%nat.
Proof.
  intros H. unfold white_space in H. simpl in H.
  repeat (destruct H as [<- | H]; [simpl; lia|]).
  contradiction.
Qed.

Lemma length_append (s1 s2 : string) :
  String.length (s1 ++ s2) = (String.length s1 + String.length s2)%nat.
Proof. induction s1 as [|c s1 IH]; simpl; [reflexivity|now rewrite IH]. Qed.

Lemma strip_all_white_space (ws : list string) (fuel : nat) :
  Forall (fun w => In w white_space) ws ->
  (String.length (fold_right append "" ws) <= fuel)%nat ->
  strip_all fuel white_space (fold_right append "" ws) = "".
Proof.
  intros Hws. revert fuel.
  induction Hws as [|w rest Hw Hrest IH]; intros fuel Hfuel.
  - destruct fuel; reflexivity.
  - cbn [fold_right] in *. rewrite length_append in Hfuel.
    pose proof (white_space_not_empty w Hw).
    destruct fuel as [|fuel]; [lia|].
    cbn [strip_all]. rewrite (strip_one_white_space w _ Hw).
    apply IH. lia.
Qed.

(** A string made of white space only trims to the empty string. *)
Lemma trim_white_space (ws : list string) :
  Forall (fun w => In w white_space) ws ->
  trim (fold_right append "" ws) = "".
Proof.
  intros Hws. unfold trim, trim_start.
  rewrite (strip_all_white_space ws _ Hws (Nat.le_refl _)). reflexivity.
Qed.

(** C4: a query that trims to the empty string (the empty string, or any
    run of white space) sends no request, neither in the first step of the
    handler nor in the whole submission, and leaves the message "Please
    enter an N-number." in the error box, shown, with the spinner off.
    Both scripts. *)
Theorem empty_query_rejected (b : browser) :
  trim (input_value b) = "" ->
  Main.on_submit b
  = (mkBrowser rejected_page (Main.reset_contacts (the_contacts b))
               (input_value b) (clock b), [], Finished)
  /\ (forall net,
        Main.submit net b
        = (mkBrowser rejected_page (Main.reset_contacts (the_contacts b))
                     (input_value b) (clock b), []))
  /\ Static.on_submit b
     = (mkBrowser rejected_page (the_contacts b) (input_value b) (clock b),
        [], Finished)
  /\ (forall net,
        Static.submit net b
        = (mkBrowser rejected_page (the_contacts b) (input_value b) (clock b),
           []))
  /\ errBox_text rejected_page = "Please enter an N-number."
  /\ errBox_hidden rejected_page = false
  /\ spinner_display rejected_page = "none"
  /\ results_hidden rejected_page = true
  /\ (forall ws, Forall (fun w => In w white_space) ws ->
        trim (fold_right append "" ws) = "").
Proof.
  intros Hn.
  destruct (on_submit_cases b) as [[_ Hm]|[Hne _]]; [|contradiction].
  destruct (static_on_submit_cases b) as [[_ Hs]|[Hne _]]; [|contradiction].
  split; [exact Hm|].
  split; [intros net; unfold Main.submit; now rewrite Hm|].
  split; [exact Hs|].
  split; [intros net; unfold Static.submit; now rewrite Hs|].
  do 4 (split; [reflexivity|]).
  exact trim_white_space.
Qed.

Lemma empty_query_rejected_witness :
  Main.submit (sample_net NetworkFailure NetworkFailure) (sample_browser "   " 0)
  = (mkBrowser rejected_page empty_contacts "   " (fun _ => 0), []).
Proof.
  exact (proj1 (proj2 (empty_query_rejected (sample_browser "   " 0) eq_refl))
               (sample_net NetworkFailure NetworkFailure)).
Defined.

(** C9: before the input is read, the handler empties every card, the
    three source links, the flights table and the contact blocks the page
    has, and hides and empties the error box; validation writes none of
    the sections, so the page is still empty when the handler returns, and
    while the request is out it is the cleared page with the error box
    empty.  Both scripts (the page script has no contact blocks). *)
Theorem submit_resets_outputs (b : browser) :
  the_page (Main.reset b) = waiting_page
  /\ sections_empty waiting_page
  /\ errBox_text waiting_page = "" /\ errBox_hidden waiting_page = true
  /\ results_hidden waiting_page = true
  /\ contacts_empty (the_contacts (Main.reset b))
  /\ presence (the_contacts (Main.reset b)) = presence (the_contacts b)
  /\ Main.on_submit b = Main.validate (Main.reset b)
  /\ (let '(b1, _, p) := Main.on_submit b in
      sections_empty (the_page b1)
      /\ contacts_empty (the_contacts b1)
      /\ results_hidden (the_page b1) = true
      /\ match p with
         | AwaitAircraft _ => the_page b1 = waiting_page
         | _ => True
         end)
  /\ the_page (Static.reset b) = waiting_page
  /\ Static.on_submit b = Static.validate (Static.reset b)
  /\ (let '(b1, _, p) := Static.on_submit b in
      sections_empty (the_page b1)
      /\ results_hidden (the_page b1) = true
      /\ match p with
         | AwaitAircraft _ => the_page b1 = waiting_page
         | _ => True
         end).
Proof.
  pose proof (reset_contacts_empty (the_contacts b)) as [He Hp].
  repeat match goal with |- _ /\ _ => split end;
    try reflexivity; try assumption.
  - destruct (on_submit_cases b) as [[_ ->]|[_ ->]]; simpl;
      (split; [reflexivity|]); (split; [exact He|]); split;
      first [reflexivity | exact I].
  - destruct (static_on_submit_cases b) as [[_ ->]|[_ ->]]; simpl;
      repeat split.
Qed.

(** *** Failure of the aircraft request *)

(** How the aircraft request can fail before anything is rendered, and the
    exception each way raises. *)
Lemma received_failures (r : response) :
  r = NetworkFailure
  \/ (exists st bd, r = Response st bd /\ ok st = false)
  \/ (exists st, r = Response st BadJson) ->
  Main.received r = Throw FetchFailure /\ r = NetworkFailure
  \/ (exists st bd, r = Response st bd /\ ok st = false
        /\ Main.received r = Throw (Error ("HTTP " ++ Z_to_string st)))
  \/ (exists st, r = Response st BadJson /\ ok st = true
        /\ Main.received r = Throw SyntaxError).
Proof.
  intros [-> | [(st & bd & -> & Hok) | (st & ->)]].
  - left. split; reflexivity.
  - right; left. exists st, bd. repeat split; [assumption|].
    simpl. now rewrite Hok.
  - destruct (ok st) eqn:Hok.
    + right; right. exists st. repeat split; [assumption|].
      simpl. now rewrite Hok.
    + right; left. exists st, BadJson. repeat split; [assumption|].
      simpl. now rewrite Hok.
Qed.

Lemma aircraft_sections_throw (r : response) (e : exn) (b : browser) :
  Main.received r = Throw e -> Main.aircraft_sections r b = (Throw e, b, []).
Proof.
  intros H. unfold Main.aircraft_sections, bindH, liftH. rewrite H. reflexivity.
Qed.

Lemma static_sections_throw (r : response) (e : exn) (b : browser) :
  Main.received r = Throw e -> Static.aircraft_sections r b = (Throw e, b, []).
Proof.
  intros H. unfold Static.aircraft_sections, bindH, liftH.
  change (Static.received r) with (Main.received r). rewrite H. reflexivity.
Qed.

Lemma on_aircraft_throw (n : string) (r : response) (b b' : browser)
    (t : list event) (e : exn) :
  Main.aircraft_sections r b = (Throw e, b', t) ->
  Main.on_aircraft n r b
  = (mkBrowser
       (Main.showSpinner false (Main.setError lookup_failed (the_page b')))
       (the_contacts b') (input_value b') (clock b'),
     (t ++ [ConsoleError [LExn e]])%list, Finished).
Proof.
  intros H. unfold Main.on_aircraft. rewrite H. reflexivity.
Qed.

Lemma static_on_aircraft_throw (n : string) (r : response) (b : browser)
    (e : exn) :
  Main.received r = Throw e ->
  Static.on_aircraft n r b
  = (mkBrowser
       (Main.showSpinner false (Main.setError lookup_failed (the_page b)))
       (the_contacts b) (input_value b) (clock b),
     [ConsoleError [LExn e]], Finished).
Proof.
  intros H. unfold Static.on_aircraft, Static.outer_handlers.
  unfold finally, try_catch. unfold bindH at 1.
  rewrite (static_sections_throw r e b H). reflexivity.
Qed.

Lemma failed_lookup (n : string) (r : response) (e : exn) (b : browser) :
  the_page b = waiting_page ->
  Main.received r = Throw e ->
  Main.on_aircraft n r b
  = (mkBrowser failed_page (the_contacts b) (input_value b) (clock b),
     [ConsoleError [LExn e]], Finished)
  /\ Static.on_aircraft n r b
     = (mkBrowser failed_page (the_contacts b) (input_value b) (clock b),
        [ConsoleError [LExn e]], Finished).
Proof.
  intros Hp Hr. split.
  - rewrite (on_aircraft_throw n r b b [] e (aircraft_sections_throw r e b Hr)).
    rewrite Hp. reflexivity.
  - rewrite (static_on_aircraft_throw n r b e Hr). rewrite Hp. reflexivity.
Qed.

(** C3: when the aircraft request fails in transport, comes back with a
    status outside 200-299, or carries a body that does not parse, the
    lookup fails as a whole: the handler ends with every section still
    empty and the results hidden, the error box shows only the fixed
    message (which names no status), and the exception that caused it is
    written to the console.  The same holds for the whole submission, and
    for both scripts.  When a section throws while rendering, the results
    stay hidden, the same message is shown and the exception is logged. *)
Theorem primary_failure_fails_lookup (b b1 : browser) (t1 : list event)
    (n : string) (r : response) :
  Main.on_submit b = (b1, t1, AwaitAircraft n) ->
  r = NetworkFailure
  \/ (exists st bd, r = Response st bd /\ ok st = false)
  \/ (exists st, r = Response st BadJson) ->
  exists cause,
    Main.received r = Throw cause
    /\ Main.on_aircraft n r b1
       = (mkBrowser failed_page (the_contacts b1) (input_value b1) (clock b1),
          [ConsoleError [LExn cause]], Finished)
    /\ (forall net, net (Main.aircraft_url n) = r ->
          Main.submit net b
          = (mkBrowser failed_page (the_contacts b1) (input_value b1)
                       (clock b1),
             [Fetch (Main.aircraft_url n); ConsoleError [LExn cause]]))
    /\ Static.on_aircraft n r b1
       = (mkBrowser failed_page (the_contacts b1) (input_value b1) (clock b1),
          [ConsoleError [LExn cause]], Finished)
    /\ sections_empty failed_page
    /\ results_hidden failed_page = true
    /\ errBox_hidden failed_page = false
    /\ errBox_text failed_page = lookup_failed
    /\ spinner_display failed_page = "none"
    /\ (r = NetworkFailure /\ cause = FetchFailure
        \/ (exists st bd, r = Response st bd /\ ok st = false
              /\ cause = Error ("HTTP " ++ Z_to_string st))
        \/ (exists st, r = Response st BadJson /\ ok st = true
              /\ cause = SyntaxError))
    /\ (forall r' b' t cause',
          Main.aircraft_sections r' b1 = (Throw cause', b', t) ->
          exists b2 t2,
            Main.on_aircraft n r' b1 = (b2, t2, Finished)
            /\ results_hidden (the_page b2) = true
            /\ errBox_hidden (the_page b2) = false
            /\ errBox_text (the_page b2) = lookup_failed
            /\ spinner_display (the_page b2) = "none"
            /\ filter is_console_error t2 = [ConsoleError [LExn cause']]).
Proof.
  intros Hs Hr.
  assert (Hb1 : the_page b1 = waiting_page
                /\ t1 = [Fetch (Main.aircraft_url n)]).
  { destruct (on_submit_cases b) as [[_ E]|[_ E]]; rewrite E in Hs;
      [discriminate|]. injection Hs as <- <- <-. split; reflexivity. }
  destruct Hb1 as [Hp ->].
  assert (Hc : exists cause,
             Main.received r = Throw cause
             /\ (r = NetworkFailure /\ cause = FetchFailure
                 \/ (exists st bd, r = Response st bd /\ ok st = false
                       /\ cause = Error ("HTTP " ++ Z_to_string st))
                 \/ (exists st, r = Response st BadJson /\ ok st = true
                       /\ cause = SyntaxError))).
  { destruct (received_failures r Hr)
      as [[E ->] | [(st & bd & -> & Hok & E) | (st & -> & Hok & E)]].
    - exists FetchFailure. split; [exact E|]. left. split; reflexivity.
    - exists (Error ("HTTP " ++ Z_to_string st)). split; [exact E|].
      right; left. exists st, bd. repeat split. exact Hok.
    - exists SyntaxError. split; [exact E|].
      right; right. exists st. repeat split. exact Hok. }
  destruct Hc as (cause & Hcause & Hkind).
  destruct (failed_lookup n r cause b1 Hp Hcause) as [Hm Hst].
  exists cause.
  split; [exact Hcause|].
  split; [exact Hm|].
  split.
  { intros net Hnet. unfold Main.submit. rewrite Hs, Hnet, Hm. reflexivity. }
  split; [exact Hst|].
  do 5 (split; [reflexivity|]).
  split; [exact Hkind|].
  intros r' b' t cause' Hthrow.
  pose proof (aircraft_sections_only r' b1) as Hfr. rewrite Hthrow in Hfr.
  destruct Hfr as (_ & _ & Hch & _ & Hce).
  rewrite (on_aircraft_throw n r' b1 b' t cause' Hthrow).
  eexists _, _. split; [reflexivity|].
  unfold chrome in Hch. rewrite Hp in Hch. simpl in Hch.
  injection Hch as _ _ _ Hres.
  simpl. rewrite filter_app, Hce. repeat split. exact Hres.
Qed.

Lemma primary_failure_fails_lookup_witness :
  exists cause,
    Main.submit (sample_net (Response 500 BadJson) NetworkFailure)
                (sample_browser " N123AB " 0)
    = (mkBrowser failed_page empty_contacts " N123AB " (fun _ => 0),
       [Fetch (Main.aircraft_url "N123AB"); ConsoleError [LExn cause]]).
Proof.
  destruct (primary_failure_fails_lookup
              (sample_browser " N123AB " 0)
              (mkBrowser waiting_page empty_contacts " N123AB " (fun _ => 0))
              [Fetch (Main.aircraft_url "N123AB")] "N123AB"
              (Response 500 BadJson) eq_refl
              (or_intror (or_introl
                 (ex_intro _ 500 (ex_intro _ BadJson (conj eq_refl eq_refl))))))
    as (cause & _ & _ & H & _).
  exists cause.
  exact (H (sample_net (Response 500 BadJson) NetworkFailure) eq_refl).
Defined.

(** *** The contacts lookup *)

Lemma set_block_presence (k : block) (html : string) (c : contacts) :
  presence (set_block k html c) = presence c.
Proof. destruct k; unfold presence; simpl; now rewrite assign_present. Qed.

Lemma kp_ret {A} (a : A) : keeps_presence (ret a).
Proof. intros c. reflexivity. Qed.

Lemma kp_lift {A} (r : outcome A) : keeps_presence (lift r).
Proof. intros c. reflexivity. Qed.

Lemma kp_modify (k : block) (html : string) :
  keeps_presence (modify (set_block k html)).
Proof. intros c. apply set_block_presence. Qed.

Lemma kp_bind {A B} (m : ST contacts A) (k : A -> ST contacts B) :
  keeps_presence m -> (forall a, keeps_presence (k a)) ->
  keeps_presence (bind m k).
Proof.
  intros Hm Hk c. unfold bind. specialize (Hm c).
  destruct (m c) as [[a|e] c1]; simpl in *; [|exact Hm].
  rewrite <- Hm. apply Hk.
Qed.

Lemma kp_renderContactsGroup (k : block) (label : string) (list : jsval) :
  keeps_presence (Main.renderContactsGroup k label list).
Proof.
  intros c. unfold Main.renderContactsGroup.
  destruct (negb (present (block_of k c))); [reflexivity|].
  match goal with
  | |- presence (snd (?m c)) = presence c =>
      revert c; change (keeps_presence m)
  end.
  repeat first
    [ apply kp_lift | apply kp_modify | apply kp_ret
    | apply kp_bind; [|intro]
    | match goal with
      | |- keeps_presence (if ?c then _ else _) => destruct c
      end ].
Qed.

Lemma contacts_only_bindH {A B} (m : H A) (k : A -> H B) :
  writes_contacts_only m -> (forall a, writes_contacts_only (k a)) ->
  writes_contacts_only (bindH m k).
Proof.
  intros Hm Hk b. unfold bindH. specialize (Hm b).
  destruct (m b) as [[[a|e] b1] t1]; [|exact Hm].
  specialize (Hk a b1). destruct (k a b1) as [[r b2] t2].
  destruct Hm as (P1 & C1 & I1 & R1 & F1), Hk as (P2 & C2 & I2 & R2 & F2).
  unfold fetches in *. rewrite filter_app, F1, F2.
  repeat split; congruence.
Qed.

Lemma contacts_only_liftH {A} (r : outcome A) : writes_contacts_only (liftH r).
Proof. intros b. simpl. repeat split. Qed.

Lemma contacts_only_retH {A} (a : A) : writes_contacts_only (retH a).
Proof. intros b. simpl. repeat split. Qed.

Lemma contacts_only_error (args : list logarg) :
  writes_contacts_only (emit (ConsoleError args)).
Proof. intros b. simpl. repeat split. Qed.

Lemma contacts_only_in_contacts {A} (m : ST contacts A) :
  keeps_presence m -> writes_contacts_only (in_contacts m).
Proof.
  intros Hm b. unfold in_contacts. specialize (Hm (the_contacts b)).
  destruct (m (the_contacts b)) as [r c]. simpl in *.
  repeat split; assumption.
Qed.

Ltac contacts_only_auto :=
  repeat first
    [ apply contacts_only_liftH
    | apply contacts_only_retH
    | apply contacts_only_error
    | apply contacts_only_in_contacts;
      first [ apply kp_renderContactsGroup | apply kp_modify ]
    | apply contacts_only_bindH; [|intro]
    | match goal with
      | |- writes_contacts_only (if ?c then _ else _) => destruct c
      | |- writes_contacts_only (match ?x with _ => _ end) => destruct x
      end ].

Lemma contacts_body_only (r : response) :
  writes_contacts_only (Main.contacts_body r).
Proof. unfold Main.contacts_body. contacts_only_auto. Qed.

Lemma contacts_catch_only (e : exn) :
  writes_contacts_only (Main.contacts_catch e).
Proof. unfold Main.contacts_catch. contacts_only_auto. Qed.

Lemma try_contacts_result (rc : response) (b : browser) :
  exists b' t,
    try_catch (Main.contacts_body rc) Main.contacts_catch b = (Ok tt, b', t)
    /\ the_page b' = the_page b
    /\ clock b' = clock b
    /\ input_value b' = input_value b
    /\ presence (the_contacts b') = presence (the_contacts b)
    /\ fetches t = []
    /\ (forall e b0 t0,
          Main.contacts_body rc b = (Throw e, b0, t0) ->
          domContacts (the_contacts b')
          = assign (domContacts (the_contacts b0))
                   (kv_html "Contacts" contacts_failed)
          /\ t = (t0 ++ [ConsoleError [LStr "Contacts lookup failed:";
                                       LExn e]])%list)
    /\ (forall b0 t0,
          Main.contacts_body rc b = (Ok tt, b0, t0) -> b' = b0 /\ t = t0).
Proof.
  unfold try_catch.
  pose proof (contacts_body_only rc b) as Hb.
  destruct (Main.contacts_body rc b) as [[[[]|e] b0] t0].
  - exists b0, t0. destruct Hb as (P & C & I & R & F).
    repeat split; try assumption; try discriminate;
      intros; congruence.
  - destruct Hb as (P & C & I & R & F).
    pose proof (contacts_catch_only e b0) as Hc.
    destruct (Main.contacts_catch e b0) as [[r b1] t1] eqn:E.
    destruct Hc as (P1 & C1 & I1 & R1 & F1).
    unfold Main.contacts_catch in E. simpl in E.
    injection E as <- <- <-.
    eexists _, _. split; [reflexivity|].
    simpl in *. unfold fetches in *. rewrite filter_app, F. simpl.
    repeat split; try congruence;
      intros;
      try match goal with
          | H : (_, _, _) = (_, _, _) |- _ =>
              first [ discriminate H
                    | injection H as <- <- <-; reflexivity ]
          end.
Qed.

Lemma on_contacts_result (rc : response) (b b' : browser) (t : list event) :
  try_catch (Main.contacts_body rc) Main.contacts_catch b = (Ok tt, b', t) ->
  Main.on_contacts rc b
  = (mkBrowser
       (Main.showSpinner false (set_results_hidden false (the_page b')))
       (the_contacts b') (input_value b') (clock b'), t).
Proof.
  intros H. unfold Main.on_contacts, Main.outer_handlers.
  set (X := try_catch (Main.contacts_body rc) Main.contacts_catch) in *.
  unfold finally, try_catch, bindH. rewrite H. simpl. rewrite !app_nil_r.
  reflexivity.
Qed.







(** The page after the contacts step does not depend on the answer. *)
Lemma on_contacts_page (rc : response) (b : browser) :
  the_page (fst (Main.on_contacts rc b))
  = Main.showSpinner false (set_results_hidden false (the_page b)).
Proof.
  destruct (try_contacts_result rc b) as (b' & t & E & P & _).
  rewrite (on_contacts_result rc b b' t E). simpl. now rewrite P.
Qed.



(** *** Repeating a lookup *)

Lemma assign_same_presence (a b : option string) (html : string) :
  present a = present b -> assign a html = assign b html.
Proof. destruct a, b; simpl; intros H; try discriminate; reflexivity. Qed.

Lemma reset_contacts_same (c c' : contacts) :
  presence c = presence c' -> Main.reset_contacts c = Main.reset_contacts c'.
Proof.
  unfold presence. intros H. injection H as H1 H2 H3 H4.
  rewrite !reset_contacts_blocks.
  now rewrite (assign_same_presence _ _ "" H1), (assign_same_presence _ _ "" H2),
    (assign_same_presence _ _ "" H3), (assign_same_presence _ _ "" H4).
Qed.

Lemma on_submit_same (b1 b2 : browser) :
  input_value b1 = input_value b2 ->
  clock b1 = clock b2 ->
  presence (the_contacts b1) = presence (the_contacts b2) ->
  Main.on_submit b1 = Main.on_submit b2.
Proof.
  intros Hi Hc Hp.
  destruct (on_submit_cases b1) as [[E1 ->]|[E1 ->]],
           (on_submit_cases b2) as [[E2 ->]|[E2 ->]];
    rewrite Hi in *; try contradiction;
    now rewrite Hc, (reset_contacts_same _ _ Hp).
Qed.

Lemma on_aircraft_contacts (n : string) (r : response) (b : browser) :
  the_contacts (fst (fst (Main.on_aircraft n r b))) = the_contacts b.
Proof.
  unfold Main.on_aircraft.
  pose proof (aircraft_sections_only r b) as Hfr.
  destruct (Main.aircraft_sections r b) as [[[[]|e] b1] t1].
  - destruct Hfr as (Hc & _).
    destruct (Main.contacts_guard (the_contacts b1)); simpl; exact Hc.
  - destruct Hfr as (Hc & _). simpl. exact Hc.
Qed.

Lemma on_contacts_presence (rc : response) (b : browser) :
  presence (the_contacts (fst (Main.on_contacts rc b)))
  = presence (the_contacts b).
Proof.
  destruct (try_contacts_result rc b) as (b' & t & E & _ & _ & _ & R & _).
  rewrite (on_contacts_result rc b b' t E). simpl. exact R.
Qed.

(** A submission neither adds nor removes a contact block. *)
Lemma submit_presence (net : string -> response) (b : browser) :
  presence (the_contacts (fst (Main.submit net b)))
  = presence (the_contacts b)
  /\ input_value (fst (Main.submit net b)) = input_value b.
Proof.
  unfold Main.submit.
  pose proof (reset_contacts_empty (the_contacts b)) as [_ Hr].
  destruct (on_submit_cases b) as [[_ ->]|[_ ->]];
    [simpl; split; [exact Hr|reflexivity]|].
  set (n := trim (input_value b)).
  set (b1 := mkBrowser waiting_page (Main.reset_contacts (the_contacts b))
                       (input_value b) (clock b)).
  pose proof (on_aircraft_contacts n (net (Main.aircraft_url n)) b1) as Hc.
  pose proof (aircraft_sections_only (net (Main.aircraft_url n)) b1) as Hs.
  unfold Main.on_aircraft in *.
  destruct (Main.aircraft_sections (net (Main.aircraft_url n)) b1)
    as [[[[]|e] b2] t2]; destruct Hs as (_ & Hi & _).
  - destruct (Main.contacts_guard (the_contacts b2)).
    + simpl in Hc.
      pose proof (on_contacts_presence (net (Main.contacts_url n)) b2) as Hp.
      destruct (try_contacts_result (net (Main.contacts_url n)) b2)
        as (b' & t & E & _ & _ & I' & _).
      rewrite (on_contacts_result _ b2 b' t E) in *. simpl in *.
      split; [now rewrite Hp, Hc|now rewrite I', Hi].
    + simpl in *. split; [now rewrite Hc|exact Hi].
  - simpl in *. split; [now rewrite Hc|exact Hi].
Qed.

(** C5, as the scripts have it: a lookup that meets the same input, the
    same answers from the network and the same clock readings ends in the
    same page, the same contact blocks and the same trace, whatever the
    page showed before; in particular a second lookup, run on what the
    first one left and under the same clock readings, ends as the first. *)
Theorem lookup_repeatable (net : string -> response) (b1 b2 : browser) :
  input_value b1 = input_value b2 ->
  clock b1 = clock b2 ->
  presence (the_contacts b1) = presence (the_contacts b2) ->
  Main.submit net b1 = Main.submit net b2
  /\ Main.submit net
       (mkBrowser (the_page (fst (Main.submit net b1)))
                  (the_contacts (fst (Main.submit net b1)))
                  (input_value (fst (Main.submit net b1))) (clock b1))
     = Main.submit net b1.
Proof.
  intros Hi Hc Hp. split.
  - unfold Main.submit. now rewrite (on_submit_same b1 b2 Hi Hc Hp).
  - destruct (submit_presence net b1) as [Hpr Hin].
    set (again := mkBrowser (the_page (fst (Main.submit net b1)))
                            (the_contacts (fst (Main.submit net b1)))
                            (input_value (fst (Main.submit net b1)))
                            (clock b1)).
    change (Main.submit net again = Main.submit net b1).
    unfold Main.submit.
    now rewrite (on_submit_same again b1 Hin eq_refl Hpr).
Qed.

Lemma lookup_repeatable_witness :
  Main.submit
    (sample_net (Response 200 (Json sample_data))
                (Response 200 (Json sample_contacts)))
    (sample_browser " N123AB " 1700000100000)
  = Main.submit
      (sample_net (Response 200 (Json sample_data))
                  (Response 200 (Json sample_contacts)))
      (mkBrowser blank_page empty_contacts " N123AB "
                 (fun _ => 1700000100000)).
Proof.
  exact (proj1 (lookup_repeatable _
                  (sample_browser " N123AB " 1700000100000)
                  (mkBrowser blank_page empty_contacts " N123AB "
                             (fun _ => 1700000100000))
                  eq_refl eq_refl eq_refl)).
Defined.

(** C5 fails as stated: the same query with the same payloads, looked up
    one minute later, renders another ADS-B card. *)
Lemma lookup_depends_on_clock :
  adsbCard (the_page (fst (Main.submit
     (sample_net (Response 200 (Json sample_data))
                 (Response 200 (Json sample_contacts)))
     (sample_browser " N123AB " 1700000100000))))
  <> adsbCard (the_page (fst (Main.submit
       (sample_net (Response 200 (Json sample_data))
                   (Response 200 (Json sample_contacts)))
       (sample_browser " N123AB " 1700000160000))))
  /\ fst (Main.formatAgo (JNum 1700000040) (at_time 1700000100000))
     = Ok "1 min ago"
  /\ fst (Main.formatAgo (JNum 1700000040) (at_time 1700000160000))
     = Ok "2 mins ago".
Proof.
  split; [|split; vm_compute; reflexivity].
  vm_compute. intros H. discriminate H.
Qed.

(** *** The two scripts side by side *)

Lemma same_view_bindH {A B} (m m' : H A) (k k' : A -> H B) :
  same_view m m' -> (forall a, same_view (k a) (k' a)) ->
  same_view (bindH m k) (bindH m' k').
Proof.
  intros Hm Hk b b' Hp Hc. unfold bindH. specialize (Hm b b' Hp Hc).
  destruct (m b) as [[o b1] t1], (m' b') as [[o' b1'] t1'].
  destruct Hm as (-> & Hp1 & Hc1 & Hf1).
  destruct o' as [a|e].
  - specialize (Hk a b1 b1' Hp1 Hc1).
    destruct (k a b1) as [[r b2] t2], (k' a b1') as [[r' b2'] t2'].
    destruct Hk as (-> & Hp2 & Hc2 & Hf2).
    unfold fetches in *. rewrite !filter_app, Hf1, Hf2. repeat split; assumption.
  - repeat split; assumption.
Qed.

Lemma same_view_liftH {A} (r : outcome A) : same_view (liftH r) (liftH r).
Proof. intros b b' Hp Hc. simpl. repeat split; assumption. Qed.

Lemma same_view_in_view {A} (m : ST view A) : same_view (in_view m) (in_view m).
Proof.
  intros b b' Hp Hc. unfold in_view. rewrite Hp, Hc.
  destruct (m (mkView (the_page b') (clock b'))) as [r v]. simpl.
  repeat split.
Qed.

(** A step that only writes to the console can be skipped on one side. *)
Lemma same_view_skip_log {A} (args : list logarg) (m m' : H A) :
  same_view m m' -> same_view m (emit (ConsoleLog args) >>> m').
Proof.
  intros Hm b b' Hp Hc. unfold bindH, emit. specialize (Hm b b' Hp Hc).
  destruct (m b) as [[o b1] t1], (m' b') as [[o' b1'] t1'].
  destruct Hm as (-> & Hp1 & Hc1 & Hf1). simpl. repeat split; assumption.
Qed.

Lemma get_defined (o : jsval) (k : string) :
  o <> JUndefined -> o <> JNull -> exists v, get o k = Ok v.
Proof.
  destruct o as [ | | b | x | s | l | ps ]; simpl; intros H1 H2;
    try congruence; eauto.
  destruct (own_prop k ps); eauto.
Qed.

Lemma sections_same_view (r : response) :
  same_view (Static.aircraft_sections r) (Main.aircraft_sections r).
Proof.
  unfold Static.aircraft_sections, Main.aircraft_sections.
  change (Static.received r) with (Main.received r).
  apply same_view_bindH; [apply same_view_liftH|]. intros data.
  assert (Hnull : data = JUndefined \/ data = JNull
                  \/ (data <> JUndefined /\ data <> JNull)).
  { destruct data; auto; right; right; split; discriminate. }
  destruct Hnull as [-> | [-> | [H1 H2]]].
  - intros b b' Hp Hc. simpl. repeat split; assumption.
  - intros b b' Hp Hc. simpl. repeat split; assumption.
  - destruct (get_defined data "links" H1 H2) as [links Hl]. rewrite Hl.
    apply (same_view_bindH (in_view (Static.fr24_card data))
                           (in_view (Main.fr24_card data)));
      [apply (same_view_in_view (Main.fr24_card data))|intros _].
    apply (same_view_bindH (in_view (Static.registry_card data))
                           (in_view (Main.registry_card data)));
      [apply (same_view_in_view (Main.registry_card data))|intros _].
    apply (same_view_bindH (in_view (Static.adsb_card data))
                           (in_view (Main.adsb_card data)));
      [apply (same_view_in_view (Main.adsb_card data))|intros _].
    change (links0 <<- liftH (Ok links) ;; emit (ConsoleLog [LVal links0]))
      with (emit (ConsoleLog [LVal links])).
    apply same_view_skip_log.
    apply (same_view_bindH (in_view (Static.targeting data))
                           (in_view (Main.targeting data)));
      [apply (same_view_in_view (Main.targeting data))|intros _].
    apply (same_view_bindH (in_view (Static.activity data))
                           (in_view (Main.activity data)));
      [apply (same_view_in_view (Main.activity data))|intros _].
    apply (same_view_in_view (Main.flights_table data)).
Qed.

Lemma static_on_aircraft_result (n : string) (r : response) (b b1 : browser)
    (o : outcome unit) (t : list event) :
  Static.aircraft_sections r b = (o, b1, t) ->
  exists t',
    Static.on_aircraft n r b
    = (mkBrowser
         (Main.showSpinner false
            (match o with
             | Ok _ => set_results_hidden false (the_page b1)
             | Throw _ => Main.setError lookup_failed (the_page b1)
             end))
         (the_contacts b1) (input_value b1) (clock b1),
       t', Finished)
    /\ fetches t' = fetches t.
Proof.
  intros H. unfold Static.on_aircraft, Static.outer_handlers.
  unfold finally, try_catch. unfold bindH at 1. rewrite H.
  destruct o as [[]|e]; simpl; eexists; (split; [reflexivity|]);
    unfold fetches; rewrite !filter_app; simpl; now rewrite !app_nil_r.
Qed.

Lemma main_on_aircraft_page (n : string) (r : response) (b b1 : browser)
    (o : outcome unit) (t : list event) (rc : response) :
  Main.aircraft_sections r b = (o, b1, t) ->
  let '(b2, t2, p) := Main.on_aircraft n r b in
  match p with
  | AwaitContacts n' =>
      n' = n /\ o = Ok tt
      /\ the_page (fst (Main.on_contacts rc b2))
         = Main.showSpinner false (set_results_hidden false (the_page b1))
      /\ fetches t2 = (fetches t ++ [Fetch (Main.contacts_url n)])%list
      /\ fetches (snd (Main.on_contacts rc b2)) = []
  | _ =>
      the_page b2
      = Main.showSpinner false
          (match o with
           | Ok _ => set_results_hidden false (the_page b1)
           | Throw _ => Main.setError lookup_failed (the_page b1)
           end)
      /\ fetches t2 = fetches t
  end.
Proof.
  intros H. unfold Main.on_aircraft. rewrite H.
  destruct o as [[]|e].
  - destruct (Main.contacts_guard (the_contacts b1)).
    + split; [reflexivity|]. split; [reflexivity|].
      split; [apply on_contacts_page|].
      split.
      * unfold fetches. now rewrite filter_app.
      * destruct (try_contacts_result rc b1) as (b' & t' & E & _ & _ & _ & _ & F & _).
        rewrite (on_contacts_result rc b1 b' t' E). exact F.
    + simpl. split; [reflexivity|].
      unfold fetches. rewrite filter_app. simpl. now rewrite app_nil_r.
  - simpl. split; [reflexivity|].
    unfold fetches. rewrite filter_app. simpl. now rewrite app_nil_r.
Qed.

Lemma static_sections_only (r : response) :
  writes_sections_only (Static.aircraft_sections r).
Proof.
  unfold Static.aircraft_sections.
  repeat first
    [ apply sections_only_liftH
    | apply sections_only_in_view;
      first [ apply keeps_fr24_card | apply keeps_registry_card
            | apply keeps_adsb_card | apply keeps_targeting
            | apply keeps_activity | apply keeps_flights_table ]
    | apply sections_only_bindH; [|intro] ].
Qed.

(** C10: answered alike, the two scripts end with the same page: the same
    cards, links and flight rows, the same error box, results region and
    spinner.  They differ in where the aircraft request goes (the hosted
    script prefixes its base URL) and in the contacts request, which only
    the hosted script sends; the page script never touches the contact
    blocks. *)
Theorem variants_render_alike (net_s net_m : string -> response)
    (b : browser) :
  net_s (Static.aircraft_url (trim (input_value b)))
  = net_m (Main.aircraft_url (trim (input_value b))) ->
  the_page (fst (Static.submit net_s b)) = the_page (fst (Main.submit net_m b))
  /\ the_contacts (fst (Static.submit net_s b)) = the_contacts b
  /\ (forall n,
        Main.aircraft_url n = Main.API_BASE ++ Static.aircraft_url n)
  /\ (fetches (snd (Static.submit net_s b)) = []
      /\ fetches (snd (Main.submit net_m b)) = []
      \/ exists n,
           fetches (snd (Static.submit net_s b))
           = [Fetch (Static.aircraft_url n)]
           /\ (fetches (snd (Main.submit net_m b))
               = [Fetch (Main.aircraft_url n)]
               \/ fetches (snd (Main.submit net_m b))
                  = [Fetch (Main.aircraft_url n);
                     Fetch (Main.contacts_url n)])).
Proof.
  intros Hnet.
  assert (Hall :
    the_page (fst (Static.submit net_s b))
    = the_page (fst (Main.submit net_m b))
    /\ the_contacts (fst (Static.submit net_s b)) = the_contacts b
    /\ (fetches (snd (Static.submit net_s b)) = []
        /\ fetches (snd (Main.submit net_m b)) = []
        \/ exists n,
             fetches (snd (Static.submit net_s b))
             = [Fetch (Static.aircraft_url n)]
             /\ (fetches (snd (Main.submit net_m b))
                 = [Fetch (Main.aircraft_url n)]
                 \/ fetches (snd (Main.submit net_m b))
                    = [Fetch (Main.aircraft_url n);
                       Fetch (Main.contacts_url n)]))).
  { unfold Static.submit, Main.submit.
    destruct (static_on_submit_cases b) as [[Es Hs]|[Es Hs]];
      destruct (on_submit_cases b) as [[Em Hm]|[Em Hm]];
      try contradiction; rewrite Hs, Hm.
    - simpl. split; [reflexivity|]. split; [reflexivity|].
      left. split; reflexivity.
    - set (n := trim (input_value b)) in *.
      rewrite Hnet. set (r := net_m (Main.aircraft_url n)).
      set (bs := mkBrowser waiting_page (the_contacts b) (input_value b)
                           (clock b)).
      set (bm := mkBrowser waiting_page
                           (Main.reset_contacts (the_contacts b))
                           (input_value b) (clock b)).
      pose proof (sections_same_view r bs bm eq_refl eq_refl) as Hsim.
      pose proof (static_sections_only r bs) as Hso.
      pose proof (aircraft_sections_only r bm) as Hmo.
      destruct (Static.aircraft_sections r bs) as [[os bs1] ts] eqn:Ess.
      destruct (Main.aircraft_sections r bm) as [[om bm1] tm] eqn:Ems.
      destruct Hsim as (-> & Hp & Hc & Hf).
      destruct Hso as (Hcs & _ & _ & Hfs & _).
      destruct Hmo as (_ & _ & _ & Hfm & _).
      destruct (static_on_aircraft_result n r bs bs1 om ts Ess)
        as (t' & -> & Hft).
      pose proof (main_on_aircraft_page n r bm bm1 om tm
                    (net_m (Main.contacts_url n)) Ems) as Hmain.
      destruct (Main.on_aircraft n r bm) as [[b2 t2] p].
      simpl fst. simpl snd. simpl the_page. simpl the_contacts.
      unfold fetches in *.
      destruct p as [ | n' | n' ].
      + destruct Hmain as [Hpg Hf2]. cbn [fst snd]. rewrite Hpg, Hp.
        split; [reflexivity|]. split; [exact Hcs|].
        right. exists n. simpl. rewrite Hft, Hfs, Hf2, Hfm.
        split; [reflexivity|left; reflexivity].
      + destruct Hmain as [Hpg Hf2]. cbn [fst snd]. rewrite Hpg, Hp.
        split; [reflexivity|]. split; [exact Hcs|].
        right. exists n. simpl. rewrite Hft, Hfs, Hf2, Hfm.
        split; [reflexivity|left; reflexivity].
      + destruct Hmain as (-> & -> & Hpg & Hf2 & Hf3).
        destruct (Main.on_contacts (net_m (Main.contacts_url n)) b2)
          as [b3 t3].
        cbn [fst snd] in *. rewrite Hpg, Hp.
        split; [reflexivity|]. split; [exact Hcs|].
        right. exists n. simpl. rewrite Hft, Hfs, !filter_app, Hf2, Hf3, Hfm.
        split; [reflexivity|right; reflexivity]. }
  destruct Hall as (H1 & H2 & H3).
  split; [exact H1|]. split; [exact H2|]. split; [reflexivity|exact H3].
Qed.

Lemma variants_render_alike_witness :
  the_page (fst (Static.submit
     (sample_net (Response 200 (Json sample_data)) NetworkFailure)
     (sample_browser " N123AB " 1700000100000)))
  = the_page (fst (Main.submit
       (sample_net (Response 200 (Json sample_data))
                   (Response 200 (Json sample_contacts)))
       (sample_browser " N123AB " 1700000100000))).
Proof.
  exact (proj1 (variants_render_alike
                  (sample_net (Response 200 (Json sample_data)) NetworkFailure)
                  (sample_net (Response 200 (Json sample_data))
                              (Response 200 (Json sample_contacts)))
                  (sample_browser " N123AB " 1700000100000) eq_refl)).
Defined.

(** A remark beside C9: the handler carries no mark of the query it
    belongs to.  When a second query is submitted while the answer to the
    first is still out, and that answer then arrives, the sections of the
    first query are written, and shown once its contacts step is done,
    although the request of the second query is still in flight. *)
Remark stale_answer_is_rendered :
  let '(b1, _, _) := Main.on_submit (sample_browser "N111AA" 1700000100000) in
  let '(b2, _, p2) :=
    Main.on_submit (mkBrowser (the_page b1) (the_contacts b1) "N222BB"
                              (clock b1)) in
  let '(b3, _, _) :=
    Main.on_aircraft "N111AA" (Response 200 (Json sample_data)) b2 in
  let '(b4, _) := Main.on_contacts NetworkFailure b3 in
  p2 = AwaitAircraft "N222BB"
  /\ sections_empty (the_page b2)
  /\ fr24Card (the_page b4) = fr24Card (the_page sample_rendered)
  /\ fr24Card (the_page b4) <> ""
  /\ results_hidden (the_page b4) = false.
Proof.
  vm_compute. repeat split. intros H. discriminate H.
Qed.

(** ** Further properties of the scripts *)

(** *** The handler as a whole *)

Lemma chrome_fields (p p' : page) :
  chrome p = chrome p' ->
  spinner_display p = spinner_display p'
  /\ errBox_hidden p = errBox_hidden p'
  /\ errBox_text p = errBox_text p'
  /\ results_hidden p = results_hidden p'.
Proof. unfold chrome. intros H. injection H as H1 H2 H3 H4. auto. Qed.

Lemma settled_after_sections (p : page) (o : outcome unit) :
  chrome p = chrome waiting_page ->
  settled (Main.showSpinner false
             (match o with
              | Ok _ => set_results_hidden false p
              | Throw _ => Main.setError lookup_failed p
              end)).
Proof.
  intros H. apply chrome_fields in H as (_ & Hh & Ht & Hr). simpl in *.
  unfold settled. destruct o; simpl.
  - split; [reflexivity|]. left. auto.
  - split; [reflexivity|]. right. rewrite Hr. auto.
Qed.

(** X1: however a submission goes, it leaves the page at rest: the spinner
    is off, and either the results are shown with the error box hidden and
    empty, or the results are hidden and the error box shows the
    validation message or the lookup message.  Both scripts. *)
Theorem submission_ends_settled (net : string -> response) (b : browser) :
  settled (the_page (fst (Main.submit net b)))
  /\ settled (the_page (fst (Static.submit net b))).
Proof.
  split.
  - unfold Main.submit.
    destruct (on_submit_cases b) as [[_ ->]|[_ ->]].
    + simpl. unfold settled. simpl. split; [reflexivity|]. right. auto.
    + set (n := trim (input_value b)).
      set (b1 := mkBrowser waiting_page (Main.reset_contacts (the_contacts b))
                           (input_value b) (clock b)).
      pose proof (aircraft_sections_only (net (Main.aircraft_url n)) b1) as Hs.
      destruct (Main.aircraft_sections (net (Main.aircraft_url n)) b1)
        as [[o b2] t2] eqn:E.
      destruct Hs as (_ & _ & Hch & _).
      pose proof (main_on_aircraft_page n (net (Main.aircraft_url n)) b1 b2 o
                    t2 (net (Main.contacts_url n)) E) as Hm.
      destruct (Main.on_aircraft n (net (Main.aircraft_url n)) b1)
        as [[b3 t3] p].
      destruct p as [ | n' | n' ].
      * destruct Hm as [Hp _]. cbn [fst]. rewrite Hp.
        now apply settled_after_sections.
      * destruct Hm as [Hp _]. cbn [fst]. rewrite Hp.
        now apply settled_after_sections.
      * destruct Hm as (-> & -> & Hp & _).
        destruct (Main.on_contacts (net (Main.contacts_url n)) b3) as [b4 t4].
        cbn [fst] in *. rewrite Hp.
        now apply (settled_after_sections _ (Ok tt)).
  - unfold Static.submit.
    destruct (static_on_submit_cases b) as [[_ ->]|[_ ->]].
    + simpl. unfold settled. simpl. split; [reflexivity|]. right. auto.
    + set (n := trim (input_value b)).
      set (b1 := mkBrowser waiting_page (the_contacts b) (input_value b)
                           (clock b)).
      pose proof (static_sections_only (net (Static.aircraft_url n)) b1) as Hs.
      destruct (Static.aircraft_sections (net (Static.aircraft_url n)) b1)
        as [[o b2] t2] eqn:E.
      destruct Hs as (_ & _ & Hch & _).
      destruct (static_on_aircraft_result n _ b1 b2 o t2 E) as (t' & -> & _).
      cbn [fst the_page]. now apply settled_after_sections.
Qed.

Lemma guard_presence (c c' : contacts) :
  presence c = presence c' -> Main.contacts_guard c = Main.contacts_guard c'.
Proof.
  unfold presence, Main.contacts_guard. intros H.
  injection H as -> -> -> ->. reflexivity.
Qed.

Lemma on_aircraft_without_blocks (n : string) (r : response) (b : browser) :
  Main.contacts_guard (the_contacts b) = false ->
  exists b' t,
    Main.on_aircraft n r b = (b', t, Finished)
    /\ the_contacts b' = the_contacts b
    /\ fetches t = [].
Proof.
  intros Hg. unfold Main.on_aircraft.
  pose proof (aircraft_sections_only r b) as Hs.
  destruct (Main.aircraft_sections r b) as [[[[]|e] b1] t1];
    destruct Hs as (Hc & _ & _ & Hf & _).
  - rewrite Hc, Hg. simpl. eexists _, _. split; [reflexivity|].
    split; [exact Hc|]. unfold fetches in *. now rewrite filter_app, Hf.
  - simpl. eexists _, _. split; [reflexivity|].
    split; [exact Hc|]. unfold fetches in *. now rewrite filter_app, Hf.
Qed.

(** X2: on a page that lacks one of the four contact blocks, the script
    sends no contacts request and writes no contact block: the blocks the
    page has are cleared and stay empty, and the only request is the one
    for the aircraft (none for an empty query). *)
Theorem no_contacts_request_without_blocks (net : string -> response)
    (b : browser) :
  Main.contacts_guard (the_contacts b) = false ->
  the_contacts (fst (Main.submit net b)) = Main.reset_contacts (the_contacts b)
  /\ fetches (snd (Main.submit net b))
     = (if String.eqb (trim (input_value b)) "" then []
        else [Fetch (Main.aircraft_url (trim (input_value b)))]).
Proof.
  intros Hg. unfold Main.submit.
  destruct (on_submit_cases b) as [[E ->]|[E ->]].
  - rewrite E. simpl. split; reflexivity.
  - apply String.eqb_neq in E. rewrite E.
    set (n := trim (input_value b)).
    set (b1 := mkBrowser waiting_page (Main.reset_contacts (the_contacts b))
                         (input_value b) (clock b)).
    assert (Hg1 : Main.contacts_guard (the_contacts b1) = false).
    { simpl. rewrite <- Hg. apply guard_presence.
      apply reset_contacts_empty. }
    destruct (on_aircraft_without_blocks n (net (Main.aircraft_url n)) b1 Hg1)
      as (b' & t & -> & Hc & Hf).
    cbn [fst snd]. split; [exact Hc|].
    unfold fetches in *. simpl. now rewrite Hf.
Qed.

Lemma no_contacts_request_without_blocks_witness :
  fetches (snd (Main.submit
                  (sample_net (Response 200 (Json sample_data)) NetworkFailure)
                  (mkBrowser used_page
                     (mkContacts (Some "old") None (Some "old") (Some "old"))
                     "N123AB" (fun _ => 1700000100000))))
  = [Fetch (Main.aircraft_url "N123AB")].
Proof.
  exact (proj2 (no_contacts_request_without_blocks
                  (sample_net (Response 200 (Json sample_data)) NetworkFailure)
                  (mkBrowser used_page
                     (mkContacts (Some "old") None (Some "old") (Some "old"))
                     "N123AB" (fun _ => 1700000100000))
                  eq_refl)).
Defined.

(** *** Answers and queries *)

Lemma same_view_emit (e : event) : same_view (emit e) (emit e).
Proof. intros b b' Hp Hc. simpl. repeat split; assumption. Qed.

Lemma main_sections_same_view (r : response) :
  same_view (Main.aircraft_sections r) (Main.aircraft_sections r).
Proof.
  unfold Main.aircraft_sections.
  repeat first
    [ apply same_view_liftH
    | apply same_view_emit
    | apply same_view_in_view
    | apply same_view_bindH; [|intro] ].
Qed.

(** X3: the handler keeps no mark of the query an answer belongs to.  What
    it writes when the aircraft answer arrives depends on the answer, the
    page, the contact blocks and the clock only: not on the query the
    request was sent for, and not on what the input field holds by then. *)
Theorem answer_rendered_for_any_query (n n' typed : string) (r : response)
    (b : browser) :
  let b' := mkBrowser (the_page b) (the_contacts b) typed (clock b) in
  the_page (fst (fst (Main.on_aircraft n r b)))
  = the_page (fst (fst (Main.on_aircraft n' r b')))
  /\ the_contacts (fst (fst (Main.on_aircraft n r b)))
     = the_contacts (fst (fst (Main.on_aircraft n' r b')))
  /\ the_page (fst (fst (Static.on_aircraft n r b)))
     = the_page (fst (fst (Static.on_aircraft n' r b'))).
Proof.
  intros b'.
  split; [|split].
  - unfold Main.on_aircraft.
    pose proof (main_sections_same_view r b b' eq_refl eq_refl) as Hsim.
    pose proof (aircraft_sections_only r b) as H1.
    pose proof (aircraft_sections_only r b') as H2.
    destruct (Main.aircraft_sections r b) as [[o b1] t1].
    destruct (Main.aircraft_sections r b') as [[o' b1'] t1'].
    destruct Hsim as (-> & Hp & _).
    destruct H1 as (C1 & _), H2 as (C2 & _). simpl in C2.
    destruct o' as [[]|e].
    + rewrite C1, C2.
      destruct (Main.contacts_guard (the_contacts b)); simpl;
        [exact Hp|now rewrite Hp].
    + simpl. now rewrite Hp.
  - now rewrite !on_aircraft_contacts.
  - pose proof (sections_same_view r b b' eq_refl eq_refl) as Hsim.
    pose proof (main_sections_same_view r b' b eq_refl eq_refl) as Hsim'.
    destruct (Static.aircraft_sections r b) as [[o b1] t1] eqn:E1.
    destruct (Static.aircraft_sections r b') as [[o' b1'] t1'] eqn:E2.
    pose proof (sections_same_view r b' b' eq_refl eq_refl) as Hs2.
    rewrite E2 in Hs2.
    destruct (Main.aircraft_sections r b') as [[om bm] tm].
    destruct (Main.aircraft_sections r b) as [[om' bm'] tm'].
    destruct Hsim as (-> & Hp & _). destruct Hs2 as (-> & Hp2 & _).
    destruct Hsim' as (-> & Hp3 & _).
    destruct (static_on_aircraft_result n r b b1 om' t1 E1) as (t & -> & _).
    destruct (static_on_aircraft_result n' r b' b1' om' t1' E2) as (t0 & -> & _).
    cbn [fst the_page]. now rewrite Hp, Hp2, Hp3.
Qed.

(** *** More on the time-relative formatter *)




(** X5: an epoch that is truthy but stands for no number (a word, an
    object) is not replaced by the sentinel: the formatter reads the clock
    and answers "NaN sec ago". *)
Theorem formatAgo_not_a_number (v : view) (epoch : jsval) :
  truthy epoch = true ->
  to_number epoch = Ok NaN ->
  Main.formatAgo epoch v
  = (Ok "NaN sec ago", mkView (v_page v) (fun k => v_clock v (S k)))
  /\ Static.formatAgo epoch v = Main.formatAgo epoch v.
Proof.
  intros Ht He. split; [|reflexivity].
  unfold Main.formatAgo. rewrite Ht. cbn [negb].
  unfold bind at 1. unfold Date_now at 1. cbv iota beta.
  unfold bind at 1. unfold lift at 1. rewrite He. reflexivity.
Qed.

Lemma formatAgo_not_a_number_witness :
  fst (Main.formatAgo (JStr "yesterday") (at_time 1700000100000))
  = Ok "NaN sec ago"
  /\ fst (Main.formatAgo (JObj [("t", JNum 5)]) (at_time 1700000100000))
     = Ok "NaN sec ago".
Proof.
  split.
  - exact (f_equal fst (proj1 (formatAgo_not_a_number
             (at_time 1700000100000) (JStr "yesterday") eq_refl eq_refl))).
  - exact (f_equal fst (proj1 (formatAgo_not_a_number
             (at_time 1700000100000) (JObj [("t", JNum 5)]) eq_refl eq_refl))).
Defined.

(** *** The flights table *)

Lemma add_rows (rows : list string) (v : view) :
  forEach (fun tr => on_page (fun p => set_flightsTable
                                         (flightsTable p ++ [tr])%list p))
          rows v
  = (Ok tt,
     mkView (set_flightsTable (flightsTable (v_page v) ++ rows)%list (v_page v))
            (v_clock v)).
Proof.
  revert v. induction rows as [|tr rest IH]; intros v.
  - simpl. rewrite app_nil_r. destruct v as [[] c]. reflexivity.
  - simpl. unfold bind. simpl. rewrite IH. simpl.
    rewrite <- app_assoc. reflexivity.
Qed.

Lemma flights_forEach (fs : list jsval) (v : view) :
  (forall rows, mapR Main.flight_row fs = Ok rows ->
     forEach (fun f =>
                tr <-- Main.flight_row f ;;
                on_page (fun p => set_flightsTable
                                    (flightsTable p ++ [tr])%list p))
             fs v
     = (Ok tt,
        mkView (set_flightsTable (flightsTable (v_page v) ++ rows)%list
                                 (v_page v))
               (v_clock v)))
  /\ (forall pre f post rows e,
        fs = (pre ++ f :: post)%list ->
        mapR Main.flight_row pre = Ok rows ->
        Main.flight_row f = Throw e ->
        forEach (fun f =>
                   tr <-- Main.flight_row f ;;
                   on_page (fun p => set_flightsTable
                                       (flightsTable p ++ [tr])%list p))
                fs v
        = (Throw e,
           mkView (set_flightsTable (flightsTable (v_page v) ++ rows)%list
                                    (v_page v))
                  (v_clock v))).
Proof.
  revert v. induction fs as [|f0 rest IH]; intros v; split.
  - intros rows H. injection H as <-. simpl. rewrite app_nil_r.
    destruct v as [[] c]. reflexivity.
  - intros pre f post rows e H. destruct pre; discriminate H.
  - intros rows H. simpl in H.
    destruct (Main.flight_row f0) as [r0|e0] eqn:E0; [|discriminate H].
    simpl in H. destruct (mapR Main.flight_row rest) as [rs|e1] eqn:E1;
      [|discriminate H].
    injection H as <-.
    simpl. unfold bind at 1. unfold bind at 1. unfold lift at 1.
    rewrite E0. cbn [on_page modify].
    rewrite (proj1 (IH _) rs eq_refl). simpl.
    rewrite <- app_assoc. reflexivity.
  - intros pre f post rows e H Hpre Hf.
    destruct pre as [|p0 pre].
    + simpl in H. injection H as -> ->. injection Hpre as <-.
      simpl. unfold bind at 1. unfold bind at 1. unfold lift at 1.
      rewrite Hf. rewrite app_nil_r. destruct v as [[] c]. reflexivity.
    + simpl in H. injection H as -> ->. simpl in Hpre.
      destruct (Main.flight_row p0) as [r0|e0] eqn:E0; [|discriminate Hpre].
      simpl in Hpre.
      destruct (mapR Main.flight_row pre) as [rs|e1] eqn:E1;
        [|discriminate Hpre].
      injection Hpre as <-.
      simpl. unfold bind at 1. unfold bind at 1. unfold lift at 1.
      rewrite E0. cbn [on_page modify].
      rewrite (proj2 (IH _) pre f post rs e eq_refl E1 Hf). simpl.
      rewrite <- app_assoc. reflexivity.
Qed.

Lemma mapR_length {A B} (f : A -> outcome B) (l : list A) (l' : list B) :
  mapR f l = Ok l' -> length l' = length l.
Proof.
  revert l'. induction l as [|x rest IH]; intros l' H; simpl in H.
  - now injection H as <-.
  - destruct (f x); [|discriminate H]. simpl in H.
    destruct (mapR f rest); [|discriminate H]. injection H as <-.
    simpl. now rewrite (IH _ eq_refl).
Qed.

(** X6: the flights table gets one row per flight of the payload, in the
    order the payload lists them, after the rows it already holds; a
    payload without flights leaves it as it is; and when a flight cannot
    be rendered, the rows of the flights before it are in the table when
    the exception leaves the handler. *)
Theorem flights_table_rows (data : jsval) (v : view) (fs : list jsval) :
  get data "recent_flights" = Ok (JArr fs) ->
  (forall rows,
     mapR Main.flight_row fs = Ok rows ->
     Main.flights_table data v
     = (Ok tt,
        mkView (set_flightsTable (flightsTable (v_page v) ++ rows)%list
                                 (v_page v))
               (v_clock v))
     /\ length rows = length fs)
  /\ (forall pre f post rows e,
        fs = (pre ++ f :: post)%list ->
        mapR Main.flight_row pre = Ok rows ->
        Main.flight_row f = Throw e ->
        Main.flights_table data v
        = (Throw e,
           mkView (set_flightsTable (flightsTable (v_page v) ++ rows)%list
                                    (v_page v))
                  (v_clock v)))
  /\ Static.flights_table data v = Main.flights_table data v.
Proof.
  intros Hg.
  assert (Hunf : Main.flights_table data v
                 = forEach (fun f =>
                     tr <-- Main.flight_row f ;;
                     on_page (fun p => set_flightsTable
                                         (flightsTable p ++ [tr])%list p))
                   fs v).
  { unfold Main.flights_table. rewrite !bind_lift, Hg. reflexivity. }
  split; [|split; [|reflexivity]].
  - intros rows Hr. rewrite Hunf.
    split; [apply (proj1 (flights_forEach fs v)); exact Hr|].
    apply (mapR_length _ _ _ Hr).
  - intros pre f post rows e Hfs Hpre Hf. rewrite Hunf.
    apply (proj2 (flights_forEach fs v) pre f post rows e Hfs Hpre Hf).
Qed.

Lemma flights_table_rows_witness :
  exists rows,
    flightsTable (v_page (snd (Main.flights_table sample_data
                                 (at_time 1700000100000))))
    = rows /\ length rows = 1%nat.
Proof.
  destruct (flights_table_rows sample_data (at_time 1700000100000)
              [JObj [("callsign", JStr "EJA1")]] eq_refl) as (H & _).
  destruct (mapR Main.flight_row [JObj [("callsign", JStr "EJA1")]])
    as [rows|e] eqn:E; [|discriminate E].
  destruct (H rows eq_refl) as [H1 H2].
  exists rows. rewrite H1. split; [reflexivity|exact H2].
Defined.

(** *** Payloads of the expected shape *)

Lemma plain_items (items : list jsval) :
  plain (JArr items) = true <-> Forall (fun x => plain x = true) items.
Proof.
  induction items as [|x r IH].
  - split; [constructor|reflexivity].
  - change (plain (JArr (x :: r))) with (plain x && plain (JArr r))%bool.
    rewrite andb_true_iff, IH. split.
    + intros [A B]. now constructor.
    + intros F. inversion F; subst. now split.
Qed.

Lemma plain_props (ps : list (string * jsval)) :
  plain (JObj ps) = true
  <-> own_prop "toString" ps = None
      /\ Forall (fun kv => plain (snd kv) = true) ps.
Proof.
  assert (G : forall l,
             (fix all (l : list (string * jsval)) : bool :=
                match l with
                | [] => true
                | (_, x) :: r => plain x && all r
                end) l = true
             <-> Forall (fun kv => plain (snd kv) = true) l).
  { induction l as [|[k x] r IH].
    - split; [constructor|reflexivity].
    - rewrite andb_true_iff, IH. split.
      + intros [A B]. now constructor.
      + intros F. inversion F; subst. now split. }
  change (plain (JObj ps))
    with (match own_prop "toString" ps with
          | Some _ => false
          | None => true
          end
          && (fix all (l : list (string * jsval)) : bool :=
                match l with
                | [] => true
                | (_, x) :: r => plain x && all r
                end) ps)%bool.
  rewrite andb_true_iff, G.
  destruct (own_prop "toString" ps); split; intros [A B]; try discriminate;
    split; auto.
Qed.

Lemma own_prop_plain (k : string) (ps : list (string * jsval)) (v : jsval) :
  Forall (fun kv => plain (snd kv) = true) ps ->
  own_prop k ps = Some v -> plain v = true.
Proof.
  induction 1 as [|[k' x] r Hx _ IH]; simpl; [discriminate|].
  destruct (String.eqb k' k); [|exact IH].
  intros E. injection E as <-. exact Hx.
Qed.

Lemma get_prop (o : jsval) (k : string) :
  nullish o = false -> get o k = Ok (prop o k).
Proof.
  unfold prop.
  destruct o as [ | | b | x | s | l | ps ]; simpl; try discriminate;
    try reflexivity.
  intros _. destruct (own_prop k ps); reflexivity.
Qed.

Lemma get_opt_prop (o : jsval) (k : string) : get_opt o k = Ok (prop o k).
Proof.
  destruct o as [ | | b | x | s | l | ps ]; try reflexivity;
    apply get_prop; reflexivity.
Qed.

Lemma plain_prop (o : jsval) (k : string) :
  plain o = true -> plain (prop o k) = true.
Proof.
  unfold prop.
  destruct o as [ | | b | x | s | l | ps ]; simpl get; try reflexivity.
  - intros _. destruct (String.eqb k "length"); reflexivity.
  - intros _. destruct (String.eqb k "length"); reflexivity.
  - intros Hp. apply plain_props in Hp. destruct Hp as [_ F].
    destruct (own_prop k ps) as [v|] eqn:E; [|reflexivity].
    apply (own_prop_plain k ps v F E).
Qed.

Lemma plain_js_or (a b : jsval) :
  plain a = true -> plain b = true -> plain (js_or a b) = true.
Proof. unfold js_or. destruct (truthy a); auto. Qed.

Lemma truthy_not_nullish (v : jsval) : truthy v = true -> nullish v = false.
Proof. destruct v; simpl; congruence. Qed.

Lemma js_or_not_nullish (a b : jsval) :
  truthy b = true -> nullish (js_or a b) = false.
Proof.
  intros Hb. unfold js_or. destruct (truthy a) eqn:E;
    now apply truthy_not_nullish.
Qed.

Lemma to_string_str (v : jsval) : plain v = true -> to_string v = Ok (str v).
Proof.
  assert (G : forall v, plain v = true -> exists s, to_string v = Ok s).
  { clear v. intros v. induction v as [ | | b | x | s | items IH | ps IH ]
      using jsval_nested_ind; intros Hp.
    - simpl; eauto.
    - simpl; eauto.
    - destruct b; simpl; eauto.
    - simpl; eauto.
    - simpl; eauto.
    - apply plain_items in Hp.
      assert (E : exists strs,
                 (fix elems (l : list jsval) : outcome (list string) :=
                    match l with
                    | [] => Ok []
                    | x :: rest =>
                        s <~ match x with
                             | JUndefined => Ok ""
                             | JNull => Ok ""
                             | _ => to_string x
                             end ;;
                        ss <~ elems rest ;;
                        Ok (s :: ss)
                    end) items = Ok strs).
      { induction items as [|x r IHr]; [eauto|].
        inversion IH as [|? ? Hx Hr]; subst.
        inversion Hp as [|? ? Px Pr]; subst.
        destruct (IHr Hr Pr) as [strs Es]. rewrite Es.
        destruct (Hx Px) as [s Ex].
        destruct x; try rewrite Ex; simpl; eauto. }
      destruct E as [strs E]. simpl. rewrite E. simpl. eauto.
    - apply plain_props in Hp. destruct Hp as [Hn _].
      simpl. rewrite Hn. eauto. }
  intros Hp. unfold str. destruct (G v Hp) as [s ->]. reflexivity.
Qed.

Lemma join_elem_str (v : jsval) :
  plain v = true -> exists s, join_elem v = Ok s.
Proof.
  intros Hp. unfold join_elem.
  destruct v; cbv beta iota; eauto; rewrite (to_string_str _ Hp); eauto.
Qed.

Lemma mapR_all {A B} (f : A -> outcome B) (P : A -> Prop) (l : list A) :
  (forall x, P x -> exists y, f x = Ok y) ->
  Forall P l -> exists ys, mapR f l = Ok ys.
Proof.
  intros Hf. induction 1 as [|x r Hx _ [ys IH]]; simpl; [eauto|].
  destruct (Hf x Hx) as [y ->]. rewrite IH. simpl. eauto.
Qed.

Lemma array_join_plain (sep : string) (items : list jsval) :
  plain (JArr items) = true -> exists s, array_join sep items = Ok s.
Proof.
  intros Hp. apply plain_items in Hp. unfold array_join.
  destruct (mapR_all join_elem _ items join_elem_str Hp) as [ys ->].
  simpl. eauto.
Qed.

Lemma plain_filter (f : jsval -> bool) (items : list jsval) :
  plain (JArr items) = true -> plain (JArr (filter f items)) = true.
Proof.
  rewrite !plain_items. induction 1; simpl; [constructor|].
  destruct (f x); [constructor|]; assumption.
Qed.

Lemma kv_plain (label : string) (v : jsval) :
  plain v = true -> Main.kv label v = Ok (kv_html label (str (js_or v (JStr "—")))).
Proof.
  intros Hp. unfold Main.kv.
  rewrite to_string_str by (apply plain_js_or; [exact Hp|reflexivity]).
  reflexivity.
Qed.

Lemma bind_ret {S A B} (a : A) (k : A -> ST S B) (s : S) :
  bind (ret a) k s = k a s.
Proof. reflexivity. Qed.

Lemma bind_assoc {S A B C} (m : ST S A) (k1 : A -> ST S B)
    (k2 : B -> ST S C) (s : S) :
  bind (bind m k1) k2 s = bind m (fun a => bind (k1 a) k2) s.
Proof. unfold bind. destruct (m s) as [[a|e] s']; reflexivity. Qed.

Lemma bind_run {S A B} (m : ST S A) (k : A -> ST S B) (s s' : S) (a : A) :
  m s = (Ok a, s') -> bind m k s = k a s'.
Proof. intros E. unfold bind. now rewrite E. Qed.

Lemma plain_pair (a b : jsval) :
  plain a = true -> plain b = true -> plain (JArr [a; b]) = true.
Proof. intros Ha Hb. apply plain_items. repeat constructor; assumption. Qed.

Lemma prop_truthy_not_nullish (o : jsval) (k : string) :
  truthy (prop o k) = true -> nullish o = false.
Proof. destruct o; simpl; congruence. Qed.

Lemma joined_plain (sep : string) (vals : list jsval) :
  plain (JArr vals) = true -> exists s, Main.joined sep vals = Ok (JStr s).
Proof.
  intros Hp. unfold Main.joined.
  destruct (array_join_plain sep _ (plain_filter truthy vals Hp)) as [s ->].
  simpl. unfold js_or. destruct (truthy (JStr s)); eauto.
Qed.

Lemma to_number_plain (v : jsval) :
  plain v = true -> exists n, to_number v = Ok n.
Proof.
  intros Hp. unfold to_number.
  destruct v; cbv beta iota; eauto; rewrite (to_string_str _ Hp); simpl; eauto.
Qed.

Lemma formatAgo_runs (epoch : jsval) (v : view) :
  plain epoch = true -> exists s v', Main.formatAgo epoch v = (Ok s, v').
Proof.
  intros Hp. unfold Main.formatAgo.
  destruct (truthy epoch); [|cbn [negb]; unfold ret; eauto].
  cbn [negb]. unfold bind at 1. cbn [Date_now].
  rewrite bind_lift. destruct (to_number_plain epoch Hp) as [n ->].
  cbv zeta.
  repeat match goal with
         | |- context [if ?c then _ else _] =>
             match c with
             | num_ge _ _ => destruct c
             end
         end; unfold ret; eauto.
Qed.

Ltac side :=
  solve
    [ repeat first
        [ assumption
        | apply plain_prop
        | apply plain_js_or
        | apply plain_pair
        | apply js_or_not_nullish
        | eapply prop_truthy_not_nullish; eassumption
        | apply truthy_not_nullish; assumption
        | reflexivity ] ].

Lemma texts_items (v : jsval) :
  texts_field v = true -> plain v = true ->
  exists items,
    as_array (js_or v (JArr [])) = Ok items /\ plain (JArr items) = true.
Proof.
  intros Ht Hp. unfold js_or.
  destruct v as [ | | b | x | s | items | ps ].
  - exists []. split; reflexivity.
  - exists []. split; reflexivity.
  - apply negb_true_iff in Ht. rewrite Ht. exists []. split; reflexivity.
  - apply negb_true_iff in Ht. rewrite Ht. exists []. split; reflexivity.
  - apply negb_true_iff in Ht. rewrite Ht. exists []. split; reflexivity.
  - exists items. split; [reflexivity|exact Hp].
  - discriminate Ht.
Qed.

Lemma rows_items (v : jsval) :
  rows_field v = true -> plain v = true ->
  exists items,
    as_array (js_or v (JArr [])) = Ok items /\ Forall entry items.
Proof.
  intros Ht Hp. unfold js_or.
  destruct v as [ | | b | x | s | items | ps ].
  - exists []. split; [reflexivity|constructor].
  - exists []. split; [reflexivity|constructor].
  - apply negb_true_iff in Ht. rewrite Ht. exists [].
    split; [reflexivity|constructor].
  - apply negb_true_iff in Ht. rewrite Ht. exists [].
    split; [reflexivity|constructor].
  - apply negb_true_iff in Ht. rewrite Ht. exists [].
    split; [reflexivity|constructor].
  - exists items. split; [reflexivity|].
    apply plain_items in Hp. simpl in Ht. rewrite forallb_forall in Ht.
    rewrite Forall_forall in *. intros x Hx. split.
    + apply negb_true_iff. now apply Ht.
    + now apply Hp.
  - discriminate Ht.
Qed.

Lemma texts_js_or (c d : jsval) (k : string) :
  texts_field (prop c k) = true -> texts_field (prop d k) = true ->
  texts_field (prop (js_or c d) k) = true.
Proof. unfold js_or. destruct (truthy c); auto. Qed.

Ltac run_step :=
  first
    [ rewrite bind_lift
    | rewrite bind_on_page
    | rewrite bind_ret
    | rewrite bind_assoc
    | rewrite get_prop by side
    | rewrite get_opt_prop
    | rewrite kv_plain by side
    | rewrite to_string_str by side
    | match goal with
      | E : _ = Ok _ |- _ => rewrite E
      | |- context [Main.joined ?sep ?vals] =>
          let s := fresh "s" in
          let E := fresh "E" in
          destruct (joined_plain sep vals) as [s E]; [side|rewrite E; clear E]
      | |- context [to_number ?x] =>
          let n := fresh "n" in
          let E := fresh "E" in
          destruct (to_number_plain x) as [n E]; [side|rewrite E; clear E]
      | |- context [array_join ?sep ?items] =>
          let s := fresh "s" in
          let E := fresh "E" in
          destruct (array_join_plain sep items) as [s E];
          [side|rewrite E; clear E]
      | |- context [bind (Main.formatAgo ?e) ?k ?v] =>
          let s := fresh "s" in
          let v' := fresh "v" in
          let E := fresh "E" in
          destruct (formatAgo_runs e v) as (s & v' & E);
          [side|rewrite (bind_run _ k v v' s E); clear E]
      end
    | progress cbv beta iota zeta
               delta [bindR Main.kv_prop Main.kv_prop_or Main.source_link
                      Main.pill]
    | match goal with
      | |- context [if ?c then _ else _] => destruct c eqn:?
      end ].

Ltac run := repeat first [ solve [unfold on_page, modify; eauto] | run_step ].

Lemma role_badge_runs (x : jsval) :
  plain x = true -> exists s, Main.role_badge x = Ok s.
Proof. intros Hp. unfold Main.role_badge. run. Qed.

Lemma overnight_badge_runs (x : jsval) :
  entry x -> exists s, Main.overnight_badge x = Ok s.
Proof. intros [Hn Hp]. unfold Main.overnight_badge. run. Qed.

Lemma top_pill_runs (x : jsval) :
  entry x -> exists s, Main.top_pill x = Ok s.
Proof. intros [Hn Hp]. unfold Main.top_pill. run. Qed.

Lemma flight_row_runs (x : jsval) :
  entry x -> exists s, Main.flight_row x = Ok s.
Proof. intros [Hn Hp]. unfold Main.flight_row. run. Qed.

Lemma roles_run (v : jsval) :
  texts_field v = true -> plain v = true ->
  exists s, Main.map_join v Main.role_badge = Ok s.
Proof.
  intros Ht Hp. unfold Main.map_join.
  destruct (texts_items v Ht Hp) as (items & -> & Pi).
  apply plain_items in Pi. cbv beta iota delta [bindR].
  destruct (mapR_all Main.role_badge _ items role_badge_runs Pi) as [ys ->].
  simpl. eauto.
Qed.

Lemma rows_run (v : jsval) (f : jsval -> outcome string) :
  (forall x, entry x -> exists s, f x = Ok s) ->
  rows_field v = true -> plain v = true ->
  exists s, Main.map_join v f = Ok s.
Proof.
  intros Hf Ht Hp. unfold Main.map_join.
  destruct (rows_items v Ht Hp) as (items & -> & Pi).
  cbv beta iota delta [bindR].
  destruct (mapR_all f _ items Hf Pi) as [ys ->].
  simpl. eauto.
Qed.

Lemma targeting_runs (data : jsval) (v : view) :
  nullish data = false -> plain data = true ->
  texts_field (prop data "buyer_roles_hint") = true ->
  rows_field (prop data "overnights_top") = true ->
  texts_field (prop (prop data "chase") "reasons") = true ->
  exists v', Main.targeting data v = (Ok tt, v').
Proof.
  intros Hn Hp H1 H2 H3.
  destruct (roles_run _ H1 (plain_prop data _ Hp)) as [roles Er].
  destruct (rows_run _ _ overnight_badge_runs H2 (plain_prop data _ Hp))
    as [ovn Eo].
  pose proof (texts_js_or (prop data "chase")
                (JObj [("score", JNum 0); ("reasons", JArr [])]) "reasons"
                H3 eq_refl) as H4.
  destruct (texts_items _ H4) as (items & Ei & Pi); [side|].
  unfold Main.targeting. run.
Qed.

Lemma activity_runs (data : jsval) (v : view) :
  nullish data = false -> plain data = true ->
  rows_field (prop data "top_airports_7d") = true ->
  rows_field (prop data "top_airports_30d") = true ->
  rows_field (prop data "top_airports_90d") = true ->
  exists v', Main.activity data v = (Ok tt, v').
Proof.
  intros Hn Hp H1 H2 H3.
  destruct (rows_run _ _ top_pill_runs H1 (plain_prop data _ Hp)) as [t7 E7].
  destruct (rows_run _ _ top_pill_runs H2 (plain_prop data _ Hp)) as [t30 E30].
  destruct (rows_run _ _ top_pill_runs H3 (plain_prop data _ Hp)) as [t90 E90].
  unfold Main.activity. run.
Qed.

Lemma flights_table_runs (data : jsval) (v : view) :
  nullish data = false -> plain data = true ->
  rows_field (prop data "recent_flights") = true ->
  exists v', Main.flights_table data v = (Ok tt, v').
Proof.
  intros Hn Hp H1.
  destruct (rows_items _ H1 (plain_prop data _ Hp)) as (items & Ei & Pi).
  destruct (mapR_all Main.flight_row _ items flight_row_runs Pi) as [rows Er].
  unfold Main.flights_table. rewrite bind_lift, get_prop by side.
  rewrite bind_lift, Ei.
  rewrite (proj1 (flights_forEach items v) rows Er). eauto.
Qed.

Lemma fr24_card_runs (data : jsval) (v : view) :
  nullish data = false -> plain data = true ->
  exists v', Main.fr24_card data v = (Ok tt, v').
Proof.
  intros Hn Hp. unfold Main.fr24_card. run.
Qed.

Lemma registry_card_runs (data : jsval) (v : view) :
  nullish data = false -> plain data = true ->
  exists v', Main.registry_card data v = (Ok tt, v').
Proof.
  intros Hn Hp. unfold Main.registry_card. run.
Qed.

Lemma adsb_card_runs (data : jsval) (v : view) :
  nullish data = false -> plain data = true ->
  exists v', Main.adsb_card data v = (Ok tt, v').
Proof.
  intros Hn Hp. unfold Main.adsb_card. run.
Qed.

Lemma in_view_runs (m : ST view unit) (b : browser) :
  (forall v, exists v', m v = (Ok tt, v')) ->
  exists b', in_view m b = (Ok tt, b', []).
Proof.
  intros Hm. unfold in_view.
  destruct (Hm (mkView (the_page b) (clock b))) as [v' ->]. eauto.
Qed.

Lemma bindH_runs {A B} (m : H A) (k : A -> H B) (b : browser) :
  (forall b, exists a b' t, m b = (Ok a, b', t)) ->
  (forall a b, exists c b' t, k a b = (Ok c, b', t)) ->
  exists c b' t, bindH m k b = (Ok c, b', t).
Proof.
  intros Hm Hk. unfold bindH.
  destruct (Hm b) as (a & b1 & t1 & ->).
  destruct (Hk a b1) as (c & b2 & t2 & ->). eauto.
Qed.

Lemma bindH_liftH_runs {A B} (a : A) (k : A -> H B) (b : browser) :
  (exists c b' t, k a b = (Ok c, b', t)) ->
  exists c b' t, bindH (liftH (Ok a)) k b = (Ok c, b', t).
Proof.
  intros (c & b' & t & E). unfold bindH, liftH. rewrite E. eauto.
Qed.

Lemma well_shaped_fields (data : jsval) :
  well_shaped data = true ->
  nullish data = false /\ plain data = true
  /\ texts_field (prop data "buyer_roles_hint") = true
  /\ rows_field (prop data "overnights_top") = true
  /\ texts_field (prop (prop data "chase") "reasons") = true
  /\ rows_field (prop data "top_airports_7d") = true
  /\ rows_field (prop data "top_airports_30d") = true
  /\ rows_field (prop data "top_airports_90d") = true
  /\ rows_field (prop data "recent_flights") = true.
Proof.
  unfold well_shaped. rewrite !andb_true_iff, negb_true_iff. tauto.
Qed.

Ltac sections_run_leaf Hn Hp H1 H2 H3 H4 H5 H6 H7 :=
  match goal with
  | |- exists a b' t, in_view ?m ?b = _ =>
      let E := fresh "E" in
      let b' := fresh "b" in
      destruct (in_view_runs m b) as [b' E];
      [ intros ?;
        first [ apply fr24_card_runs | apply registry_card_runs
              | apply adsb_card_runs | apply targeting_runs
              | apply activity_runs | apply flights_table_runs ];
        assumption
      | rewrite E; eauto ]
  | |- exists a b' t, liftH (get _ _) _ = _ =>
      rewrite get_prop by assumption; unfold liftH; eauto
  | |- exists a b' t, emit _ _ = _ => unfold emit; eauto
  end.

Lemma main_sections_run (st : Z) (data : jsval) (b : browser) :
  ok st = true -> well_shaped data = true ->
  exists b1 t,
    Main.aircraft_sections (Response st (Json data)) b = (Ok tt, b1, t).
Proof.
  intros Hok Hw.
  destruct (well_shaped_fields data Hw)
    as (Hn & Hp & H1 & H2 & H3 & H4 & H5 & H6 & H7).
  assert (G : exists c b1 t,
             Main.aircraft_sections (Response st (Json data)) b
             = (Ok c, b1, t)).
  { unfold Main.aircraft_sections, Main.received. rewrite Hok. cbn [negb].
    apply bindH_liftH_runs.
    repeat first
      [ sections_run_leaf Hn Hp H1 H2 H3 H4 H5 H6 H7
      | apply bindH_runs; [intros ?|intros ? ?] ]. }
  destruct G as ([] & b1 & t & G). eauto.
Qed.

Lemma static_sections_run (st : Z) (data : jsval) (b : browser) :
  ok st = true -> well_shaped data = true ->
  exists b1 t,
    Static.aircraft_sections (Response st (Json data)) b = (Ok tt, b1, t).
Proof.
  intros Hok Hw.
  destruct (well_shaped_fields data Hw)
    as (Hn & Hp & H1 & H2 & H3 & H4 & H5 & H6 & H7).
  assert (G : exists c b1 t,
             Static.aircraft_sections (Response st (Json data)) b
             = (Ok c, b1, t)).
  { unfold Static.aircraft_sections, Static.received. rewrite Hok. cbn [negb].
    apply bindH_liftH_runs.
    change Static.fr24_card with Main.fr24_card.
    change Static.registry_card with Main.registry_card.
    change Static.adsb_card with Main.adsb_card.
    change Static.targeting with Main.targeting.
    change Static.activity with Main.activity.
    change Static.flights_table with Main.flights_table.
    repeat first
      [ sections_run_leaf Hn Hp H1 H2 H3 H4 H5 H6 H7
      | apply bindH_runs; [intros ?|intros ? ?] ]. }
  destruct G as ([] & b1 & t & G). eauto.
Qed.

(** X7: an answer with a success status whose payload has the expected
    shape is always rendered.  Whatever the page showed and whatever the
    fields hold, no section throws; the older script ends with the results
    shown, the spinner hidden and the error box as the reset left it; the
    newer script either does the same or goes on to ask for the contacts;
    neither writes an error to the console. *)
Theorem well_shaped_payload_is_rendered (n : string) (st : Z) (data : jsval)
    (b : browser) :
  ok st = true -> well_shaped data = true ->
  (exists b1 t,
     Main.aircraft_sections (Response st (Json data)) b = (Ok tt, b1, t))
  /\ (let '(b', t, p) := Static.on_aircraft n (Response st (Json data)) b in
      p = Finished
      /\ results_hidden (the_page b') = false
      /\ spinner_display (the_page b') = "none"
      /\ errBox_hidden (the_page b') = errBox_hidden (the_page b)
      /\ errBox_text (the_page b') = errBox_text (the_page b)
      /\ filter is_console_error t = [])
  /\ (let '(b', t, p) := Main.on_aircraft n (Response st (Json data)) b in
      filter is_console_error t = []
      /\ errBox_hidden (the_page b') = errBox_hidden (the_page b)
      /\ errBox_text (the_page b') = errBox_text (the_page b)
      /\ (p = AwaitContacts n
          \/ p = Finished
             /\ results_hidden (the_page b') = false
             /\ spinner_display (the_page b') = "none")).
Proof.
  intros Hok Hw. split; [apply main_sections_run; assumption|]. split.
  - destruct (static_sections_run st data b Hok Hw) as (b1 & t & E).
    pose proof (static_sections_only (Response st (Json data)) b) as Hfr.
    rewrite E in Hfr. destruct Hfr as (_ & _ & Hc & _ & He).
    unfold chrome in Hc. injection Hc as Hs Hh Ht Hr.
    unfold Static.on_aircraft, Static.outer_handlers, finally, try_catch.
    unfold bindH at 1. rewrite E. simpl.
    rewrite !filter_app, He. simpl. repeat split; assumption.
  - destruct (main_sections_run st data b Hok Hw) as (b1 & t & E).
    pose proof (aircraft_sections_only (Response st (Json data)) b) as Hfr.
    rewrite E in Hfr. destruct Hfr as (_ & _ & Hc & _ & He).
    unfold chrome in Hc. injection Hc as Hs Hh Ht Hr.
    unfold Main.on_aircraft. rewrite E.
    destruct (Main.contacts_guard (the_contacts b1)).
    + rewrite filter_app, He. simpl. repeat split; auto.
    + unfold Main.outer_handlers, finally, try_catch. simpl.
      rewrite !filter_app, He. simpl. repeat split; auto.
Qed.

Lemma well_shaped_payload_is_rendered_witness :
  exists b1 t,
    Main.aircraft_sections (Response 200 (Json sample_data))
                           (sample_browser "N123AB" 1700000100000)
    = (Ok tt, b1, t).
Proof.
  exact (proj1 (well_shaped_payload_is_rendered "N123AB" 200 sample_data
                  (sample_browser "N123AB" 1700000100000) eq_refl eq_refl)).
Defined.

(** *** The contact groups *)

Lemma renderContactsGroup_cases (k : block) (label : string) (list : jsval)
    (cs : contacts) :
  (block_of k cs = None
   /\ Main.renderContactsGroup k label list cs = (Ok tt, cs))
  \/ (exists e, Main.renderContactsGroup k label list cs = (Throw e, cs))
  \/ (exists html,
        present (block_of k cs) = true
        /\ Main.renderContactsGroup k label list cs
           = (Ok tt, set_block k html cs)).
Proof.
  unfold Main.renderContactsGroup.
  destruct (block_of k cs) as [old|] eqn:Eb; [|left; split; reflexivity].
  right. cbn [present negb]. rewrite bind_lift.
  destruct (if negb (truthy list) then Ok true
            else len <~ get list "length" ;; Ok (Main.strict_eq_zero len))
    as [[|]|e]; [| |left; eauto].
  - rewrite bind_lift. unfold Main.kv. simpl. right. eexists.
    split; reflexivity.
  - rewrite bind_lift. destruct (as_array list) as [items|e]; [|left; eauto].
    rewrite bind_lift.
    destruct (mapR Main.contact_row items) as [rows|e]; [|left; eauto].
    right. eexists. split; reflexivity.
Qed.

Lemma block_of_set_block (k k' : block) (html : string) (cs : contacts) :
  k' <> k -> block_of k' (set_block k html cs) = block_of k' cs.
Proof. destruct k, k'; intros H; try reflexivity; now contradict H. Qed.

(** X8: rendering a contact group touches the block it is given and no
    other; it does nothing when the page lacks that block; and when it
    throws, it has written nothing. *)
Theorem contacts_group_writes_its_block (k : block) (label : string)
    (list : jsval) (cs : contacts) :
  (forall k', k' <> k ->
     block_of k' (snd (Main.renderContactsGroup k label list cs))
     = block_of k' cs)
  /\ (block_of k cs = None ->
      Main.renderContactsGroup k label list cs = (Ok tt, cs))
  /\ (forall e,
        fst (Main.renderContactsGroup k label list cs) = Throw e ->
        snd (Main.renderContactsGroup k label list cs) = cs).
Proof.
  destruct (renderContactsGroup_cases k label list cs)
    as [[Hb E] | [[e E] | (html & Hp & E)]]; rewrite E; simpl.
  - repeat split; auto.
  - repeat split; auto. intros Hb.
    unfold Main.renderContactsGroup in E. rewrite Hb in E. discriminate E.
  - split; [intros k' Hk; now apply block_of_set_block|].
    split; [|discriminate].
    intros Hb. rewrite Hb in Hp. discriminate Hp.
Qed.

(** X9: what a contact group shows.  A list that is missing or empty
    shows the label with the words No contacts found; a list of contacts
    shows the label as a heading followed by one row per contact, in the
    order of the list. *)
Theorem contacts_group_content (k : block) (label : string) (list : jsval)
    (cs : contacts) :
  present (block_of k cs) = true ->
  (truthy list = false \/ list = JArr [] ->
   Main.renderContactsGroup k label list cs
   = (Ok tt, set_block k (kv_html label "No contacts found") cs))
  /\ (forall items rows,
        list = JArr items -> items <> [] ->
        mapR Main.contact_row items = Ok rows ->
        Main.renderContactsGroup k label list cs
        = (Ok tt,
           set_block k
             (("<div class=" ++ q "mb-1 fw-semibold" ++ ">" ++ label
               ++ "</div>") ++ String.concat "" rows) cs)
        /\ length rows = length items).
Proof.
  intros Hp. unfold Main.renderContactsGroup. rewrite Hp. cbn [negb].
  split.
  - intros [Hf | ->].
    + rewrite Hf. reflexivity.
    + reflexivity.
  - intros items rows -> Hne Hr.
    split; [|apply (mapR_length _ _ _ Hr)].
    destruct items as [|x rest]; [now contradict Hne|].
    rewrite (@bind_lift contacts bool unit). cbn [truthy negb get bindR].
    match goal with
    | |- context [Main.strict_eq_zero ?len] =>
        change (Main.strict_eq_zero len) with false
    end.
    cbv beta iota.
    rewrite (@bind_lift contacts (list jsval) unit). cbn [as_array].
    rewrite (@bind_lift contacts (list string) unit), Hr.
    reflexivity.
Qed.

Lemma contacts_group_content_witness :
  Main.renderContactsGroup DomContacts "DOM" JNull empty_contacts
  = (Ok tt,
     set_block DomContacts (kv_html "DOM" "No contacts found") empty_contacts).
Proof.
  exact (proj1 (contacts_group_content DomContacts "DOM" JNull empty_contacts
                  eq_refl) (or_introl eq_refl)).
Defined.

Lemma get_shadowed (k k' : string) (x : jsval) (ps : list (string * jsval)) :
  String.eqb k' k = false -> get (JObj ((k', x) :: ps)) k = get (JObj ps) k.
Proof. intros H. simpl. now rewrite H. Qed.

(** X10: of the two telephone numbers a contact may carry, the corporate
    one is the one shown: when it is there, the row does not depend on
    what the other holds. *)
Theorem corporate_phone_takes_precedence (ps : list (string * jsval))
    (x : jsval) :
  truthy (prop (JObj ps) "corporate_phone") = true ->
  Main.contact_row (JObj (("phone", x) :: ps)) = Main.contact_row (JObj ps).
Proof.
  intros Hc. unfold Main.contact_row.
  rewrite !(get_shadowed _ "phone" x ps) by reflexivity.
  rewrite (get_prop (JObj ps) "corporate_phone") by reflexivity.
  cbn [bindR]. rewrite Hc. reflexivity.
Qed.

Lemma corporate_phone_takes_precedence_witness :
  Main.contact_row
    (JObj [("phone", JStr "555"); ("name", JStr "Ann");
           ("corporate_phone", JStr "800")])
  = Main.contact_row
      (JObj [("name", JStr "Ann"); ("corporate_phone", JStr "800")]).
Proof.
  exact (corporate_phone_takes_precedence
           [("name", JStr "Ann"); ("corporate_phone", JStr "800")]
           (JStr "555") eq_refl).
Defined.

(** *** The airline line *)

Lemma keeps_block_liftH (k : block) {A} (r : outcome A) :
  keeps_block k (liftH r).
Proof. intros b. reflexivity. Qed.

Lemma keeps_block_retH (k : block) {A} (a : A) : keeps_block k (retH a).
Proof. intros b. reflexivity. Qed.

Lemma keeps_block_emit (k : block) (e : event) : keeps_block k (emit e).
Proof. intros b. reflexivity. Qed.

Lemma bindH_left {A B} (m : H A) (k : A -> H B) (b : browser) :
  snd (fst (bindH m k b))
  = match fst (fst (m b)) with
    | Ok a => snd (fst (k a (snd (fst (m b)))))
    | Throw _ => snd (fst (m b))
    end.
Proof.
  unfold bindH. destruct (m b) as [[[a|e] b1] t1]; simpl; [|reflexivity].
  destruct (k a b1) as [[r b2] t2]. reflexivity.
Qed.

Lemma keeps_block_bindH (k : block) {A B} (m : H A) (kk : A -> H B) :
  keeps_block k m -> (forall a, keeps_block k (kk a)) ->
  keeps_block k (bindH m kk).
Proof.
  intros Hm Hk b. rewrite bindH_left.
  destruct (fst (fst (m b))) as [a|e]; [rewrite Hk|]; apply Hm.
Qed.

Lemma keeps_block_group (k k' : block) (label : string) (list : jsval) :
  k <> k' -> keeps_block k (in_contacts (Main.renderContactsGroup k' label list)).
Proof.
  intros Hk b. unfold in_contacts.
  destruct (renderContactsGroup_cases k' label list (the_contacts b))
    as [[_ E] | [[e E] | (html & _ & E)]]; rewrite E; simpl;
    [reflexivity|reflexivity|now apply block_of_set_block].
Qed.

Lemma keeps_block_set (k k' : block) (html : string) :
  k <> k' -> keeps_block k (in_contacts (modify (set_block k' html))).
Proof. intros Hk b. simpl. now apply block_of_set_block. Qed.

Lemma keeps_block_catch (e : exn) :
  keeps_block ContactsAirline (Main.contacts_catch e).
Proof.
  unfold Main.contacts_catch.
  apply keeps_block_bindH; [apply keeps_block_emit|intros _].
  apply keeps_block_bindH; [apply keeps_block_liftH|intros html].
  apply keeps_block_set. discriminate.
Qed.

Lemma bindH_airline {A B} (m : H A) (kk : A -> H B) (b : browser) :
  (forall x, keeps_block ContactsAirline (kk x)) ->
  contactsAirline (the_contacts (snd (fst (bindH m kk b))))
  = contactsAirline (the_contacts (snd (fst (m b)))).
Proof.
  intros Hk. rewrite bindH_left.
  destruct (fst (fst (m b))) as [x|e]; [apply (Hk x)|reflexivity].
Qed.

Lemma on_contacts_airline (rc : response) (b : browser) :
  contactsAirline (the_contacts (fst (Main.on_contacts rc b)))
  = contactsAirline (the_contacts (snd (fst (Main.contacts_body rc b)))).
Proof.
  destruct (try_contacts_result rc b) as (b' & t & E & _ & _ & _ & _ & _ & _ & Hok).
  rewrite (on_contacts_result rc b b' t E). simpl.
  unfold try_catch in E.
  destruct (Main.contacts_body rc b) as [[[[]|e] b0] t0] eqn:Eb.
  - injection E as <- <-. reflexivity.
  - pose proof (keeps_block_catch e b0) as Hc.
    destruct (Main.contacts_catch e b0) as [[r1 b1] t1].
    injection E as _ <- _. exact Hc.
Qed.

(** X11: the airline line of the contacts answer.  The line is written
    from the airline under [contacts], or else from the airline of the
    answer itself, whenever one of the two is there, and it stays whatever
    becomes of the three groups after it; without an airline the block is
    left as the reset cleared it. *)
Theorem airline_line_shown (st : Z) (cdata : jsval) (b : browser) :
  ok st = true -> nullish cdata = false ->
  let c := js_or (prop cdata "contacts") (JObj []) in
  let a := js_or (prop c "airline") (prop cdata "airline") in
  contactsAirline (the_contacts
                     (fst (Main.on_contacts (Response st (Json cdata)) b)))
  = if truthy a then
      match to_string a with
      | Ok s => assign (contactsAirline (the_contacts b))
                       ("Airline: <strong>" ++ s ++ "</strong>")
      | Throw _ => contactsAirline (the_contacts b)
      end
    else contactsAirline (the_contacts b).
Proof.
  intros Hok Hn c a. rewrite on_contacts_airline.
  unfold Main.contacts_body. rewrite Hok.
  rewrite bindH_left. cbn [liftH fst snd].
  rewrite bindH_left. rewrite (get_prop cdata "contacts" Hn).
  cbn [liftH fst snd]. fold c.
  assert (Hc : nullish c = false) by (apply js_or_not_nullish; reflexivity).
  rewrite bindH_left. rewrite !(get_prop c) by exact Hc.
  rewrite !(get_prop cdata) by exact Hn. cbn [liftH fst snd bindR].
  assert (Ea : (if truthy (prop c "airline") then Ok (prop c "airline")
                else Ok (prop cdata "airline")) = Ok a).
  { unfold a, js_or. destruct (truthy (prop c "airline")); reflexivity. }
  rewrite Ea. cbv beta iota delta [bindR].
  rewrite bindH_airline.
  - destruct (truthy a).
    + unfold bindH, liftH. destruct (to_string a) as [s|e]; reflexivity.
    + reflexivity.
  - intros _.
    repeat first
      [ apply keeps_block_liftH
      | apply keeps_block_group; discriminate
      | apply keeps_block_bindH; [|intro] ].
Qed.

Lemma airline_line_shown_witness :
  contactsAirline
    (the_contacts
       (fst (Main.on_contacts (Response 200 (Json sample_contacts))
                              sample_rendered)))
  = Some "Airline: <strong>NetJets</strong>".
Proof.
  exact (airline_line_shown 200 sample_contacts sample_rendered
           eq_refl eq_refl).
Defined.

(** *** The likely operating base *)

Lemma get_ok_prop (o : jsval) (k : string) (v : jsval) :
  get o k = Ok v -> prop o k = v.
Proof. intros E. unfold prop. now rewrite E. Qed.





(** *** The query in the request *)

Lemma hex_digit_unreserved (n : nat) :
  (n < 16)%nat -> uri_unreserved (hex_digit n) = true.
Proof.
  intros H.
  do 16 (destruct n as [|n]; [reflexivity|]). lia.
Qed.

Lemma hex_digit_injective (n m : nat) :
  (n < 16)%nat -> (m < 16)%nat -> hex_digit n = hex_digit m -> n = m.
Proof.
  intros Hn Hm.
  do 16 (destruct n as [|n];
         [do 16 (destruct m as [|m]; [first [reflexivity|discriminate]|]);
          lia|]).
  lia.
Qed.

Lemma nat_of_ascii_bound (c : ascii) : (nat_of_ascii c < 256)%nat.
Proof.
  destruct c as [[] [] [] [] [] [] [] []]; vm_compute; lia.
Qed.

Lemma percent_reserved : uri_unreserved "%"%char = false.
Proof. reflexivity. Qed.

Lemma encode_alphabet (s : string) :
  Forall (fun c => uri_unreserved c = true \/ c = "%"%char)
         (list_ascii_of_string (encodeURIComponent s)).
Proof.
  induction s as [|c r IH]; [constructor|].
  cbn [encodeURIComponent].
  destruct (uri_unreserved c) eqn:E; cbn [list_ascii_of_string].
  - constructor; auto.
  - pose proof (nat_of_ascii_bound c) as Hb.
    constructor; [now right|].
    constructor;
      [left; apply hex_digit_unreserved;
       apply Nat.Div0.div_lt_upper_bound; lia|].
    constructor;
      [left; apply hex_digit_unreserved; apply Nat.mod_upper_bound; lia|].
    exact IH.
Qed.

Lemma append_cancel_r (a b t : string) : a ++ t = b ++ t -> a = b.
Proof.
  revert b. induction a as [|x a IH]; intros [|y b] H.
  - reflexivity.
  - apply (f_equal String.length) in H. cbn [append] in H.
    cbn [String.length] in H. rewrite length_append in H. lia.
  - apply (f_equal String.length) in H. cbn [append] in H.
    cbn [String.length] in H. rewrite length_append in H. lia.
  - cbn [append] in H. injection H as -> H. f_equal. now apply IH.
Qed.

Lemma encode_injective (s1 s2 : string) :
  encodeURIComponent s1 = encodeURIComponent s2 -> s1 = s2.
Proof.
  revert s2. induction s1 as [|c1 r1 IH]; intros [|c2 r2] H.
  - reflexivity.
  - cbn [encodeURIComponent] in H.
    destruct (uri_unreserved c2); discriminate H.
  - cbn [encodeURIComponent] in H.
    destruct (uri_unreserved c1); discriminate H.
  - cbn [encodeURIComponent] in H.
    destruct (uri_unreserved c1) eqn:E1, (uri_unreserved c2) eqn:E2.
    + injection H as -> H. f_equal. now apply IH.
    + injection H as -> _. rewrite percent_reserved in E1. discriminate E1.
    + injection H as <- _. rewrite percent_reserved in E2. discriminate E2.
    + pose proof (nat_of_ascii_bound c1) as B1.
      pose proof (nat_of_ascii_bound c2) as B2.
      pose proof (Nat.div_mod_eq (nat_of_ascii c1) 16) as D1.
      pose proof (Nat.div_mod_eq (nat_of_ascii c2) 16) as D2.
      assert (Hh1 : (nat_of_ascii c1 / 16 < 16)%nat)
        by (apply Nat.Div0.div_lt_upper_bound; lia).
      assert (Hh2 : (nat_of_ascii c2 / 16 < 16)%nat)
        by (apply Nat.Div0.div_lt_upper_bound; lia).
      assert (Hl1 : (nat_of_ascii c1 mod 16 < 16)%nat)
        by (apply Nat.mod_upper_bound; lia).
      assert (Hl2 : (nat_of_ascii c2 mod 16 < 16)%nat)
        by (apply Nat.mod_upper_bound; lia).
      cbv zeta in H.
      remember (nat_of_ascii c1 / 16)%nat as h1.
      remember (nat_of_ascii c2 / 16)%nat as h2.
      remember (nat_of_ascii c1 mod 16)%nat as l1.
      remember (nat_of_ascii c2 mod 16)%nat as l2.
      injection H as Hh Hl H.
      apply hex_digit_injective in Hh; [|assumption|assumption].
      apply hex_digit_injective in Hl; [|assumption|assumption].
      assert (Hn : nat_of_ascii c1 = nat_of_ascii c2) by congruence.
      apply (f_equal ascii_of_nat) in Hn. rewrite !ascii_nat_embedding in Hn.
      subst c2. f_equal. now apply IH.
Qed.

(** X13: the query reaches the server intact and cannot alter the request.
    Whatever is typed, its encoding consists of unreserved characters and
    percent signs only, so it holds no [&], [=], [#] or white space; and
    two different queries never give the same address, in either
    script. *)
Theorem query_encoding_faithful :
  (forall s,
     Forall (fun c => uri_unreserved c = true \/ c = "%"%char)
            (list_ascii_of_string (encodeURIComponent s)))
  /\ (forall n1 n2, Main.aircraft_url n1 = Main.aircraft_url n2 -> n1 = n2)
  /\ (forall n1 n2, Main.contacts_url n1 = Main.contacts_url n2 -> n1 = n2)
  /\ (forall n1 n2,
        Static.aircraft_url n1 = Static.aircraft_url n2 -> n1 = n2).
Proof.
  split; [exact encode_alphabet|].
  split; [|split].
  - intros n1 n2 H. unfold Main.aircraft_url, Main.API_BASE in H.
    cbn [append] in H.
    repeat match type of H with
           | String _ _ = String _ _ => injection H as H
           end.
    apply encode_injective. exact (append_cancel_r _ _ _ H).
  - intros n1 n2 H. unfold Main.contacts_url, Main.API_BASE in H.
    cbn [append] in H.
    repeat match type of H with
           | String _ _ = String _ _ => injection H as H
           end.
    apply encode_injective. exact H.
  - intros n1 n2 H. unfold Static.aircraft_url in H.
    cbn [append] in H.
    repeat match type of H with
           | String _ _ = String _ _ => injection H as H
           end.
    apply encode_injective. exact (append_cancel_r _ _ _ H).
Qed.

(** *** The query that is sent *)

Lemma string_app_nil_r (s : string) : s ++ "" = s.
Proof. induction s as [|c s IH]; simpl; [reflexivity|now rewrite IH]. Qed.

Lemma string_app_assoc (a b c : string) : (a ++ b) ++ c = a ++ (b ++ c).
Proof. induction a as [|x a IH]; simpl; [reflexivity|now rewrite IH]. Qed.

Lemma string_rev_append (a b : string) :
  string_rev (a ++ b) = string_rev b ++ string_rev a.
Proof.
  induction a as [|x a IH]; simpl.
  - now rewrite string_app_nil_r.
  - now rewrite IH, string_app_assoc.
Qed.

Lemma string_rev_involutive (s : string) : string_rev (string_rev s) = s.
Proof.
  induction s as [|c s IH]; simpl; [reflexivity|].
  rewrite string_rev_append, IH. reflexivity.
Qed.

Lemma string_rev_length (s : string) :
  String.length (string_rev s) = String.length s.
Proof.
  induction s as [|c s IH]; simpl; [reflexivity|].
  rewrite length_append, IH. simpl. lia.
Qed.

Lemma starts_with_split (p s : string) :
  starts_with p s = true -> s = p ++ drop (String.length p) s.
Proof.
  revert s. induction p as [|a p IH]; intros s H; [reflexivity|].
  destruct s as [|b s]; [discriminate H|].
  simpl in H. apply andb_true_iff in H. destruct H as [Hab Hp].
  apply Ascii.eqb_eq in Hab. subst b. simpl. f_equal. now apply IH.
Qed.

Lemma starts_with_append (p a b : string) :
  starts_with p a = true -> starts_with p (a ++ b) = true.
Proof.
  revert a. induction p as [|x p IH]; intros a H; [reflexivity|].
  destruct a as [|y a]; [discriminate H|].
  simpl in *. apply andb_true_iff in H. destruct H as [Hxy Hp].
  rewrite Hxy. simpl. now apply IH.
Qed.

Lemma strip_one_none (pats : list string) (s : string) :
  strip_one pats s = None <-> Forall (fun p => starts_with p s = false) pats.
Proof.
  induction pats as [|p rest IH]; simpl.
  - split; [constructor|reflexivity].
  - destruct (starts_with p s) eqn:E.
    + split; [discriminate|]. intros F. inversion F; congruence.
    + rewrite IH. split; [now constructor|]. intros F. now inversion F.
Qed.

Lemma strip_one_some (pats : list string) (s r : string) :
  strip_one pats s = Some r -> exists p, In p pats /\ s = p ++ r.
Proof.
  induction pats as [|p rest IH]; simpl; [discriminate|].
  destruct (starts_with p s) eqn:E.
  - intros H. injection H as <-. exists p. split; [now left|].
    now apply starts_with_split.
  - intros H. destruct (IH H) as (p' & Hin & Hs). exists p'. auto.
Qed.

Lemma strip_all_fixed (pats : list string) (fuel : nat) (s : string) :
  (forall p, In p pats -> (1 <= String.length p)%nat) ->
  (String.length s <= fuel)%nat ->
  strip_one pats (strip_all fuel pats s) = None.
Proof.
  intros Hp. revert s. induction fuel as [|fuel IH]; intros s Hs.
  - destruct s; [|simpl in Hs; lia]. simpl.
    apply strip_one_none. rewrite Forall_forall. intros p Hin.
    specialize (Hp p Hin). destruct p; [simpl in Hp; lia|reflexivity].
  - simpl. destruct (strip_one pats s) as [r|] eqn:E; [|exact E].
    apply IH. destruct (strip_one_some pats s r E) as (p & Hin & ->).
    specialize (Hp p Hin). rewrite length_append in Hs. lia.
Qed.

Lemma strip_all_suffix (pats : list string) (fuel : nat) (s : string) :
  exists pre, s = pre ++ strip_all fuel pats s.
Proof.
  revert s. induction fuel as [|fuel IH]; intros s; [now exists ""|].
  simpl. destruct (strip_one pats s) as [r|] eqn:E; [|now exists ""].
  destruct (strip_one_some pats s r E) as (p & _ & ->).
  destruct (IH r) as [pre Hpre]. exists (p ++ pre).
  rewrite string_app_assoc. now rewrite <- Hpre.
Qed.

Lemma strip_all_none (pats : list string) (fuel : nat) (s : string) :
  strip_one pats s = None -> strip_all fuel pats s = s.
Proof. intros H. destruct fuel; simpl; [reflexivity|now rewrite H]. Qed.

Lemma reversed_white_space_not_empty (p : string) :
  In p (map string_rev white_space) -> (1 <= String.length p)%nat.
Proof.
  intros H. apply in_map_iff in H. destruct H as (w & <- & Hw).
  rewrite string_rev_length. now apply white_space_not_empty.
Qed.

Lemma trim_start_bare (s : string) :
  strip_one white_space (trim_start s) = None.
Proof.
  unfold trim_start. apply strip_all_fixed; [|lia].
  exact white_space_not_empty.
Qed.

Lemma trim_bare (s : string) : bare (trim s).
Proof.
  unfold trim, trim_end. set (t := trim_start s).
  set (X := strip_all (String.length t) (map string_rev white_space)
                      (string_rev t)).
  assert (HX : strip_one (map string_rev white_space) X = None).
  { apply strip_all_fixed; [exact reversed_white_space_not_empty|].
    rewrite string_rev_length. lia. }
  split.
  - intros w Hw.
    destruct (starts_with w (string_rev X)) eqn:E; [|reflexivity].
    destruct (strip_all_suffix (map string_rev white_space)
                (String.length t) (string_rev t)) as [pre Hpre].
    fold X in Hpre. apply (f_equal string_rev) in Hpre.
    rewrite string_rev_involutive, string_rev_append in Hpre.
    pose proof (trim_start_bare s) as Hs. fold t in Hs.
    rewrite strip_one_none, Forall_forall in Hs.
    rewrite <- (Hs w Hw). rewrite Hpre. symmetry.
    now apply starts_with_append.
  - intros w Hw. rewrite string_rev_involutive.
    rewrite strip_one_none, Forall_forall in HX.
    apply HX. now apply in_map.
Qed.

Lemma bare_trim (s : string) : bare s -> trim s = s.
Proof.
  intros [Hl Hr]. unfold trim, trim_end, trim_start.
  assert (H1 : strip_one white_space s = None).
  { apply strip_one_none. rewrite Forall_forall. exact Hl. }
  rewrite (strip_all_none _ _ _ H1).
  assert (H2 : strip_one (map string_rev white_space) (string_rev s) = None).
  { apply strip_one_none. rewrite Forall_forall. intros p Hp.
    apply in_map_iff in Hp. destruct Hp as (w & <- & Hw). now apply Hr. }
  rewrite (strip_all_none _ _ _ H2). apply string_rev_involutive.
Qed.

(** X14: the query a request carries is what was typed without the white
    space around it.  It is never empty, it neither begins nor ends with
    white space, and typing it as it is sends the same request again;
    both scripts. *)
Theorem sent_query_is_trimmed (b b1 : browser) (t : list event) (n : string) :
  Main.on_submit b = (b1, t, AwaitAircraft n) ->
  n = trim (input_value b) /\ n <> "" /\ bare n /\ trim n = n
  /\ t = [Fetch (Main.aircraft_url n)]
  /\ (forall b', input_value b' = n ->
        snd (fst (Main.on_submit b')) = t
        /\ snd (Main.on_submit b') = AwaitAircraft n)
  /\ snd (Static.on_submit b) = AwaitAircraft n
  /\ snd (fst (Static.on_submit b)) = [Fetch (Static.aircraft_url n)].
Proof.
  intros H.
  destruct (on_submit_cases b) as [[_ E] | [Hne E]];
    rewrite E in H; [discriminate H|].
  injection H as <- <- <-.
  pose proof (trim_bare (input_value b)) as Hb.
  pose proof (bare_trim _ Hb) as Ht.
  split; [reflexivity|]. split; [exact Hne|]. split; [exact Hb|].
  split; [exact Ht|]. split; [reflexivity|]. split.
  - intros b' Hi.
    destruct (on_submit_cases b') as [[Hq _] | [_ E']].
    + rewrite Hi, Ht in Hq. contradiction.
    + rewrite E'. rewrite Hi, Ht. split; reflexivity.
  - destruct (static_on_submit_cases b) as [[Hq _] | [_ E']];
      [contradiction|]. rewrite E'. split; reflexivity.
Qed.

Lemma sent_query_is_trimmed_witness :
  trim " N123AB " = "N123AB" /\ bare "N123AB".
Proof.
  destruct (sent_query_is_trimmed (sample_browser " N123AB " 1700000100000)
              _ _ "N123AB" eq_refl) as (H1 & _ & H3 & _).
  split; [symmetry; exact H1|exact H3].
Defined.

(** *** The first card and the source links *)

Lemma to_string_ok_str (v : jsval) (s : string) :
  to_string v = Ok s -> str v = s.
Proof. intros E. unfold str. now rewrite E. Qed.

Lemma kv_text (label s : string) :
  s <> "" -> Main.kv label (JStr s) = Ok (kv_html label s).
Proof.
  intros Hs. unfold Main.kv, js_or. simpl.
  destruct (String.eqb_spec s ""); [contradiction|reflexivity].
Qed.

Lemma source_link_cases (url : jsval) (text link : string) :
  Main.source_link url text = Ok link ->
  link = if truthy url then
           "Source: <a href=" ++ dq ++ str url ++ dq ++ " target="
           ++ q "_blank" ++ " rel=" ++ q "noopener" ++ ">" ++ text ++ "</a>"
         else "".
Proof.
  unfold Main.source_link. destruct (truthy url).
  - destruct (to_string url) as [u|e] eqn:E; [|discriminate].
    rewrite (to_string_ok_str url u E). simpl. congruence.
  - congruence.
Qed.

(** X15: the tail number heads the first card in bold exactly as the
    payload gives it, without the dash the other fields fall back to: a
    payload without a tail number shows the word undefined there.  The
    link under the card is there exactly when the payload names a source
    address. *)
Theorem tail_number_has_no_fallback (data : jsval) (v v' : view) :
  Main.fr24_card data v = (Ok tt, v') ->
  (exists rest,
     fr24Card (v_page v')
     = kv_html "Tail number"
               ("<strong>" ++ str (prop data "tail_number") ++ "</strong>")
       ++ rest)
  /\ (prop data "tail_number" = JUndefined ->
      exists rest,
        fr24Card (v_page v')
        = kv_html "Tail number" "<strong>undefined</strong>" ++ rest)
  /\ (let url := prop (js_or (prop data "fr24") (JObj [])) "source_url" in
      fr24Link (v_page v')
      = if truthy url then
          "Source: <a href=" ++ dq ++ str url ++ dq ++ " target="
          ++ q "_blank" ++ " rel=" ++ q "noopener" ++ ">FR24</a>"
        else "").
Proof.
  intros H. unfold Main.fr24_card in H.
  do 10 step_ok H. step_ok H. step_ok H.
  unfold on_page, modify in H. injection H as <-. cbn [v_page fr24Card fr24Link
    set_fr24Card set_fr24Link].
  assert (Hn : nullish data = false).
  { destruct data; try reflexivity; discriminate E. }
  rewrite (get_prop data "tail_number" Hn) in E0. cbn [bindR] in E0.
  destruct (to_string (prop data "tail_number")) as [ts|e] eqn:Et;
    [|discriminate E0].
  cbn [bindR] in E0. rewrite kv_text in E0 by discriminate.
  injection E0 as <-. rewrite (to_string_ok_str _ _ Et).
  assert (Hcard : exists rest,
            String.concat ""
              [kv_html "Tail number" ("<strong>" ++ ts ++ "</strong>");
               x1; x2; x3; x4; x5; x6; x7; x8]
            = kv_html "Tail number" ("<strong>" ++ ts ++ "</strong>")
              ++ rest).
  { eexists. cbn [String.concat]. reflexivity. }
  split; [exact Hcard|]. split.
  - intros Hu. rewrite Hu in Et. injection Et as <-. exact Hcard.
  - apply get_ok_prop in E. subst x.
    rewrite get_prop in E9 by (apply js_or_not_nullish; reflexivity).
    cbn [bindR] in E9. apply source_link_cases in E9. exact E9.
Qed.

Lemma tail_number_has_no_fallback_witness :
  exists rest,
    fr24Card (v_page (snd (Main.fr24_card (JObj []) (at_time 0))))
    = kv_html "Tail number" "<strong>undefined</strong>" ++ rest.
Proof.
  exact (proj1 (proj2 (tail_number_has_no_fallback (JObj []) (at_time 0)
                         (snd (Main.fr24_card (JObj []) (at_time 0)))
                         eq_refl)) eq_refl).
Defined.

(** *** Lookups that do not depend on the time *)

Lemma cf_ret {A} (a : A) : clock_free (ret a).
Proof. intros p. exists (Ok a), p. reflexivity. Qed.

Lemma cf_lift {A} (r : outcome A) : clock_free (lift r).
Proof. intros p. exists r, p. reflexivity. Qed.

Lemma cf_on_page (f : page -> page) : clock_free (on_page f).
Proof. intros p. exists (Ok tt), (f p). reflexivity. Qed.

Lemma cf_bind {A B} (m : ST view A) (k : A -> ST view B) :
  clock_free m -> (forall a, clock_free (k a)) -> clock_free (bind m k).
Proof.
  intros Hm Hk p. destruct (Hm p) as (r & p1 & E).
  destruct r as [a|e].
  - destruct (Hk a p1) as (r2 & p2 & E2). exists r2, p2. intros c.
    unfold bind. rewrite E. apply E2.
  - exists (Throw e), p1. intros c. unfold bind. now rewrite E.
Qed.

Lemma cf_bind_lift {A B} (r : outcome A) (k : A -> ST view B) :
  (forall a, r = Ok a -> clock_free (k a)) -> clock_free (bind (lift r) k).
Proof.
  intros Hk p. destruct r as [a|e].
  - destruct (Hk a eq_refl p) as (r2 & p2 & E2). exists r2, p2. exact E2.
  - exists (Throw e), p. reflexivity.
Qed.

Lemma cf_forEach {A} (f : A -> ST view unit) (l : list A) :
  (forall a, clock_free (f a)) -> clock_free (forEach f l).
Proof.
  intros Hf. induction l as [|x rest IH]; simpl.
  - apply cf_ret.
  - apply cf_bind; [apply Hf|intros _; exact IH].
Qed.

Ltac cf_step :=
  first
    [ apply cf_ret
    | apply cf_lift
    | apply cf_on_page
    | apply cf_bind_lift;
      let a := fresh "a" in
      let E := fresh "E" in
      intros a E; first [ apply get_ok_prop in E; subst a | clear E ]
    | match goal with
      | H : truthy ?x = false |- clock_free (if truthy ?x then _ else _) =>
          rewrite H
      end
    | apply cf_bind; [|intro]
    | apply cf_forEach; intro ].

Lemma cf_fr24_card (data : jsval) : clock_free (Main.fr24_card data).
Proof. unfold Main.fr24_card. repeat cf_step. Qed.

Lemma cf_registry_card (data : jsval) : clock_free (Main.registry_card data).
Proof. unfold Main.registry_card. repeat cf_step. Qed.

Lemma cf_targeting (data : jsval) : clock_free (Main.targeting data).
Proof. unfold Main.targeting. repeat cf_step. Qed.

Lemma cf_flights_table (data : jsval) : clock_free (Main.flights_table data).
Proof. unfold Main.flights_table. repeat cf_step. Qed.

Lemma cf_adsb_card (data : jsval) :
  truthy (prop (js_or (prop data "adsb") (JObj [])) "pos_epoch") = false ->
  clock_free (Main.adsb_card data).
Proof. intros H. unfold Main.adsb_card. repeat cf_step. Qed.

Lemma cf_activity (data : jsval) :
  truthy (prop (js_or (prop data "last_spotted") (JObj [])) "epoch") = false ->
  clock_free (Main.activity data).
Proof. intros H. unfold Main.activity. repeat cf_step. Qed.

Lemma cfH_retH {A} (a : A) : clock_freeH (retH a).
Proof. intros b. exists (Ok a), (the_page b), (the_contacts b), []. reflexivity. Qed.

Lemma cfH_liftH {A} (r : outcome A) : clock_freeH (liftH r).
Proof. intros b. exists r, (the_page b), (the_contacts b), []. reflexivity. Qed.

Lemma cfH_emit (e : event) : clock_freeH (emit e).
Proof.
  intros b. exists (Ok tt), (the_page b), (the_contacts b), [e]. reflexivity.
Qed.

Lemma cfH_in_view {A} (m : ST view A) : clock_free m -> clock_freeH (in_view m).
Proof.
  intros Hm b. destruct (Hm (the_page b)) as (r & p' & E).
  exists r, p', (the_contacts b), []. intros c.
  unfold in_view, with_clock. cbn [the_page clock]. rewrite E. reflexivity.
Qed.

Lemma cfH_in_contacts {A} (m : ST contacts A) : clock_freeH (in_contacts m).
Proof.
  intros b.
  exists (fst (m (the_contacts b))), (the_page b), (snd (m (the_contacts b))),
         [].
  intros c. unfold in_contacts, with_clock. cbn [the_contacts].
  destruct (m (the_contacts b)); reflexivity.
Qed.

Lemma cfH_bindH {A B} (m : H A) (k : A -> H B) :
  clock_freeH m -> (forall a, clock_freeH (k a)) -> clock_freeH (bindH m k).
Proof.
  intros Hm Hk b. destruct (Hm b) as (o & p & cs & t & E).
  destruct o as [a|e].
  - destruct (Hk a (mkBrowser p cs (input_value b) (clock b)))
      as (o2 & p2 & cs2 & t2 & E2).
    exists o2, p2, cs2, (t ++ t2)%list. intros c.
    unfold bindH. rewrite E.
    change (mkBrowser p cs (input_value b) c)
      with (with_clock c (mkBrowser p cs (input_value b) (clock b))).
    rewrite E2. reflexivity.
  - exists (Throw e), p, cs, t. intros c. unfold bindH. now rewrite E.
Qed.

Lemma cfH_bind_liftH {A B} (r : outcome A) (k : A -> H B) :
  (forall a, r = Ok a -> clock_freeH (k a)) -> clock_freeH (bindH (liftH r) k).
Proof.
  intros Hk b. destruct r as [a|e].
  - destruct (Hk a eq_refl b) as (o & p & cs & t & E).
    exists o, p, cs, t. intros c. unfold bindH, liftH. now rewrite E.
  - exists (Throw e), (the_page b), (the_contacts b), []. reflexivity.
Qed.

Lemma cfH_try_catch {A} (m : H A) (handler : exn -> H A) :
  clock_freeH m -> (forall e, clock_freeH (handler e)) ->
  clock_freeH (try_catch m handler).
Proof.
  intros Hm Hh b. destruct (Hm b) as (o & p & cs & t & E).
  destruct o as [a|e].
  - exists (Ok a), p, cs, t. intros c. unfold try_catch. now rewrite E.
  - destruct (Hh e (mkBrowser p cs (input_value b) (clock b)))
      as (o2 & p2 & cs2 & t2 & E2).
    exists o2, p2, cs2, (t ++ t2)%list. intros c.
    unfold try_catch. rewrite E.
    change (mkBrowser p cs (input_value b) c)
      with (with_clock c (mkBrowser p cs (input_value b) (clock b))).
    rewrite E2. reflexivity.
Qed.

Lemma cfH_finally {A} (m : H A) (f : H unit) :
  clock_freeH m -> clock_freeH f -> clock_freeH (finally m f).
Proof.
  intros Hm Hf b. destruct (Hm b) as (o & p & cs & t & E).
  destruct (Hf (mkBrowser p cs (input_value b) (clock b)))
    as (o2 & p2 & cs2 & t2 & E2).
  exists o, p2, cs2, (t ++ t2)%list. intros c.
  unfold finally. rewrite E.
  change (mkBrowser p cs (input_value b) c)
    with (with_clock c (mkBrowser p cs (input_value b) (clock b))).
  rewrite E2. reflexivity.
Qed.

Lemma cfH_outer_handlers (m : H unit) :
  clock_freeH m -> clock_freeH (Main.outer_handlers m).
Proof.
  intros Hm. unfold Main.outer_handlers.
  apply cfH_finally; [|apply cfH_in_view, cf_on_page].
  apply cfH_try_catch; [exact Hm|]. intros e.
  apply cfH_bindH; [apply cfH_emit|intros _].
  apply cfH_in_view, cf_on_page.
Qed.

Lemma cfH_aircraft_sections (st : Z) (data : jsval) :
  no_epochs data ->
  clock_freeH (Main.aircraft_sections (Response st (Json data))).
Proof.
  intros [Ha Hl]. unfold Main.aircraft_sections.
  apply cfH_bind_liftH. intros d Hd.
  assert (d = data).
  { unfold Main.received in Hd. destruct (negb (ok st)); congruence. }
  subst d.
  repeat first
    [ apply cfH_liftH
    | apply cfH_emit
    | apply cfH_in_view;
      first [ apply cf_fr24_card | apply cf_registry_card
            | apply cf_adsb_card; exact Ha | apply cf_targeting
            | apply cf_activity; exact Hl | apply cf_flights_table ]
    | apply cfH_bindH; [|intro] ].
Qed.

Lemma cfH_failed_sections (r : response) (e : exn) :
  Main.received r = Throw e -> clock_freeH (Main.aircraft_sections r).
Proof.
  intros Hr. unfold Main.aircraft_sections. rewrite Hr.
  apply cfH_bind_liftH. intros a Ha. discriminate Ha.
Qed.

Lemma cfH_contacts_step (rc : response) :
  clock_freeH
    (Main.outer_handlers
       (try_catch (Main.contacts_body rc) Main.contacts_catch
        >>> Main.show_results)).
Proof.
  apply cfH_outer_handlers.
  apply cfH_bindH; [|intros _; apply cfH_in_view, cf_on_page].
  apply cfH_try_catch.
  - unfold Main.contacts_body.
    repeat first
      [ apply cfH_liftH
      | apply cfH_retH
      | apply cfH_in_contacts
      | apply cfH_bindH; [|intro]
      | match goal with
        | |- clock_freeH (if ?c then _ else _) => destruct c
        | |- clock_freeH (match ?x with _ => _ end) => destruct x
        end ].
  - intros e. unfold Main.contacts_catch.
    repeat first
      [ apply cfH_liftH | apply cfH_emit | apply cfH_in_contacts
      | apply cfH_bindH; [|intro] ].
Qed.

Lemma on_aircraft_clock_free (n : string) (r : response) (b : browser) :
  clock_freeH (Main.aircraft_sections r) ->
  exists p cs t pd,
    forall c,
      Main.on_aircraft n r (with_clock c b)
      = (mkBrowser p cs (input_value b) c, t, pd).
Proof.
  intros Hs. destruct (Hs b) as (o & p & cs & t & E).
  destruct o as [[]|e].
  - destruct (Main.contacts_guard cs) eqn:G.
    + exists p, cs, (t ++ [Fetch (Main.contacts_url n)])%list,
             (AwaitContacts n).
      intros c. unfold Main.on_aircraft. rewrite E.
      cbn [the_contacts]. rewrite G. reflexivity.
    + destruct (cfH_outer_handlers Main.show_results
                  (cfH_in_view _ (cf_on_page _))
                  (mkBrowser p cs (input_value b) (clock b)))
        as (o2 & p2 & cs2 & t2 & E2).
      exists p2, cs2, (t ++ t2)%list, Finished.
      intros c. unfold Main.on_aircraft. rewrite E.
      cbn [the_contacts]. rewrite G.
      change (mkBrowser p cs (input_value b) c)
        with (with_clock c (mkBrowser p cs (input_value b) (clock b))).
      rewrite E2. reflexivity.
  - destruct (cfH_outer_handlers (liftH (Throw e)) (cfH_liftH _)
                (mkBrowser p cs (input_value b) (clock b)))
      as (o2 & p2 & cs2 & t2 & E2).
    exists p2, cs2, (t ++ t2)%list, Finished.
    intros c. unfold Main.on_aircraft. rewrite E.
    change (mkBrowser p cs (input_value b) c)
      with (with_clock c (mkBrowser p cs (input_value b) (clock b))).
    rewrite E2. reflexivity.
Qed.

Lemma on_contacts_clock_free (rc : response) (b : browser) :
  exists p cs t,
    forall c,
      Main.on_contacts rc (with_clock c b)
      = (mkBrowser p cs (input_value b) c, t).
Proof.
  destruct (cfH_contacts_step rc b) as (o & p & cs & t & E).
  exists p, cs, t. intros c. unfold Main.on_contacts. now rewrite E.
Qed.

Lemma submit_clock_free (net : string -> response) (b : browser) :
  (forall st data,
     net (Main.aircraft_url (trim (input_value b))) = Response st (Json data) ->
     no_epochs data) ->
  exists p cs t,
    forall c,
      Main.submit net (with_clock c b)
      = (mkBrowser p cs (input_value b) c, t).
Proof.
  intros Hnet.
  assert (Hs : clock_freeH
                 (Main.aircraft_sections
                    (net (Main.aircraft_url (trim (input_value b)))))).
  { destruct (net (Main.aircraft_url (trim (input_value b))))
      as [|st [|data]] eqn:En.
    - apply (cfH_failed_sections _ FetchFailure). reflexivity.
    - destruct (ok st) eqn:Eo.
      + apply (cfH_failed_sections _ SyntaxError). simpl. now rewrite Eo.
      + apply (cfH_failed_sections _ (Error ("HTTP " ++ Z_to_string st))).
        simpl. now rewrite Eo.
    - apply cfH_aircraft_sections. apply (Hnet st data eq_refl). }
  destruct (String.eqb_spec (trim (input_value b)) "") as [Hq|Hq].
  - exists rejected_page, (Main.reset_contacts (the_contacts b)), [].
    intros c. unfold Main.submit.
    destruct (on_submit_cases (with_clock c b)) as [[_ E] | [Hne _]];
      [|now contradict Hne].
    rewrite E. reflexivity.
  - set (n := trim (input_value b)) in *.
    set (b1 := mkBrowser waiting_page (Main.reset_contacts (the_contacts b))
                         (input_value b) (clock b)).
    destruct (on_aircraft_clock_free n (net (Main.aircraft_url n)) b1 Hs)
      as (p & cs & t & pd & Ea).
    destruct pd as [ | n' | n'].
    + exists p, cs, ([Fetch (Main.aircraft_url n)] ++ t)%list.
      intros c. unfold Main.submit.
      destruct (on_submit_cases (with_clock c b)) as [[Hq' _] | [_ E]];
        [now contradict Hq|].
      rewrite E. cbn [with_clock input_value the_contacts clock]. fold n.
      change (mkBrowser waiting_page (Main.reset_contacts (the_contacts b))
                        (input_value b) c) with (with_clock c b1).
      rewrite Ea. reflexivity.
    + exists p, cs, ([Fetch (Main.aircraft_url n)] ++ t)%list.
      intros c. unfold Main.submit.
      destruct (on_submit_cases (with_clock c b)) as [[Hq' _] | [_ E]];
        [now contradict Hq|].
      rewrite E. cbn [with_clock input_value the_contacts clock]. fold n.
      change (mkBrowser waiting_page (Main.reset_contacts (the_contacts b))
                        (input_value b) c) with (with_clock c b1).
      rewrite Ea. reflexivity.
    + destruct (on_contacts_clock_free (net (Main.contacts_url n'))
                  (mkBrowser p cs (input_value b) (clock b)))
        as (p3 & cs3 & t3 & Ec).
      exists p3, cs3, ([Fetch (Main.aircraft_url n)] ++ t ++ t3)%list.
      intros c. unfold Main.submit.
      destruct (on_submit_cases (with_clock c b)) as [[Hq' _] | [_ E]];
        [now contradict Hq|].
      rewrite E. cbn [with_clock input_value the_contacts clock]. fold n.
      change (mkBrowser waiting_page (Main.reset_contacts (the_contacts b))
                        (input_value b) c) with (with_clock c b1).
      rewrite Ea.
      change (mkBrowser p cs (input_value b1) c)
        with (with_clock c (mkBrowser p cs (input_value b) (clock b))).
      rewrite Ec. reflexivity.
Qed.

(** X16: a lookup whose payload carries neither a position time nor a
    last-spotted time does not depend on when it is made.  At any clock
    the submission writes the same page and the same contact blocks and
    leaves the same trace, and it never reads the clock. *)
Theorem lookup_without_epochs_ignores_clock (net : string -> response)
    (b : browser) (c : nat -> Z) :
  (forall st data,
     net (Main.aircraft_url (trim (input_value b))) = Response st (Json data) ->
     no_epochs data) ->
  Main.submit net (with_clock c b)
  = (with_clock c (fst (Main.submit net b)), snd (Main.submit net b)).
Proof.
  intros Hnet. destruct (submit_clock_free net b Hnet) as (p & cs & t & E).
  rewrite E. pose proof (E (clock b)) as E0.
  assert (Hb : with_clock (clock b) b = b) by (destruct b; reflexivity).
  rewrite Hb in E0. rewrite E0. reflexivity.
Qed.

Lemma lookup_without_epochs_ignores_clock_witness :
  Main.submit (fun _ => Response 200 (Json registry_sample))
              (with_clock (fun _ => 5) (sample_browser "N1" 0))
  = (with_clock (fun _ => 5)
       (fst (Main.submit (fun _ => Response 200 (Json registry_sample))
                         (sample_browser "N1" 0))),
     snd (Main.submit (fun _ => Response 200 (Json registry_sample))
                      (sample_browser "N1" 0))).
Proof.
  apply (lookup_without_epochs_ignores_clock
           (fun _ => Response 200 (Json registry_sample))
           (sample_browser "N1" 0) (fun _ => 5)).
  intros st data E. injection E as _ <-. split; reflexivity.
Defined.

(** *** The requests of a submission *)



(** *** Contacts of the expected shape *)

Lemma bindH_liftH_ok {A B} (a : A) (k : A -> H B) (b : browser) :
  bindH (liftH (Ok a)) k b = k a b.
Proof. unfold bindH, liftH. destruct (k a b) as [[r b'] t]. reflexivity. Qed.

Lemma bindH_in_contacts_ok {A B} (m : ST contacts A) (k : A -> H B)
    (b : browser) (a : A) (cs : contacts) :
  m (the_contacts b) = (Ok a, cs) ->
  bindH (in_contacts m) k b
  = k a (mkBrowser (the_page b) cs (input_value b) (clock b)).
Proof.
  intros E. unfold bindH, in_contacts. rewrite E.
  destruct (k a _) as [[r b'] t]. reflexivity.
Qed.

Lemma bindH_retH_ok {A B} (a : A) (k : A -> H B) (b : browser) :
  bindH (retH a) k b = k a b.
Proof. unfold bindH, retH. destruct (k a b) as [[r b'] t]. reflexivity. Qed.

Lemma group_step {B} (k : block) (label : string) (v : jsval)
    (K : unit -> H B) (b : browser) (cs : contacts) :
  Main.renderContactsGroup k label v (the_contacts b) = (Ok tt, cs) ->
  bindH (bindH (liftH (Ok v))
               (fun l => in_contacts (Main.renderContactsGroup k label l)))
        K b
  = K tt (mkBrowser (the_page b) cs (input_value b) (clock b)).
Proof.
  intros E. unfold bindH at 1. rewrite bindH_liftH_ok.
  unfold in_contacts. rewrite E. destruct (K tt _) as [[r b'] t].
  reflexivity.
Qed.

Lemma contact_row_runs (x : jsval) :
  entry x -> exists s, Main.contact_row x = Ok s.
Proof.
  intros [Hn Hp]. unfold Main.contact_row. run;
    match goal with
    | |- context [array_join ?sep ?items] =>
        let s := fresh "s" in
        let E := fresh "E" in
        destruct (array_join_plain sep items) as [s E];
        [ apply plain_items; cbn [app];
          repeat (constructor; [side|]); constructor
        | rewrite E; clear E ]
    end; run.
Qed.

Lemma renderContactsGroup_runs (k : block) (label : string) (list : jsval) :
  rows_field list = true -> plain list = true ->
  exists html,
    forall cs,
      present (block_of k cs) = true ->
      Main.renderContactsGroup k label list cs = (Ok tt, set_block k html cs).
Proof.
  intros Hr Hp.
  destruct (truthy list) eqn:Ht.
  - destruct list as [ | | b | x | s | items | ps ];
      cbn [rows_field] in Hr;
      try (rewrite Ht in Hr; simpl in Hr; discriminate Hr).
    destruct items as [|x rest].
    + exists (kv_html label "No contacts found"). intros cs Hc.
      unfold Main.renderContactsGroup. rewrite Hc. reflexivity.
    + assert (Fe : Forall entry (x :: rest)).
        { destruct (rows_items (JArr (x :: rest)) Hr Hp) as (items & E & F).
          injection E as <-. exact F. }
        destruct (mapR_all Main.contact_row _ _ contact_row_runs Fe)
          as [rows Er].
        eexists. intros cs Hc.
        unfold Main.renderContactsGroup. rewrite Hc. cbn [negb].
        rewrite (@bind_lift contacts bool unit). cbn [truthy negb get bindR].
        match goal with
        | |- context [Main.strict_eq_zero ?len] =>
            change (Main.strict_eq_zero len) with false
        end.
        cbv beta iota.
        rewrite (@bind_lift contacts (list jsval) unit). cbn [as_array].
        rewrite (@bind_lift contacts (list string) unit), Er.
        reflexivity.
  - exists (kv_html label "No contacts found"). intros cs Hc.
    unfold Main.renderContactsGroup. rewrite Hc, Ht. reflexivity.
Qed.

Lemma present_set_block (k k' : block) (html : string) (cs : contacts) :
  present (block_of k (set_block k' html cs)) = present (block_of k cs).
Proof. destruct k, k'; simpl; try reflexivity; apply assign_present. Qed.

Lemma guard_blocks (cs : contacts) :
  Main.contacts_guard cs = true -> forall k, present (block_of k cs) = true.
Proof.
  unfold Main.contacts_guard. rewrite !andb_true_iff.
  intros [[[H1 H2] H3] H4] []; assumption.
Qed.

(** X18: a contacts answer of the expected shape is shown without an
    error.  With a success status, a payload that is not null and holds
    no object with a [toString] of its own, and three groups that are
    each missing or a list without null entries, the three groups are
    written, each as the group rendering gives it, nothing is written to
    the console and no request is sent; the page ends with the results
    shown and the spinner hidden. *)
Theorem well_shaped_contacts_are_rendered (st : Z) (cdata : jsval)
    (b : browser) :
  ok st = true ->
  Main.contacts_guard (the_contacts b) = true ->
  nullish cdata = false -> plain cdata = true ->
  rows_field (prop (js_or (prop cdata "contacts") (JObj [])) "dom") = true ->
  rows_field (prop (js_or (prop cdata "contacts") (JObj [])) "occ") = true ->
  rows_field (prop (js_or (prop cdata "contacts") (JObj [])) "other") = true ->
  exists h1 h2 h3 cs1,
    Main.on_contacts (Response st (Json cdata)) b
    = (mkBrowser
         (Main.showSpinner false (set_results_hidden false (the_page b)))
         (set_block OtherContacts h3
            (set_block OccContacts h2 (set_block DomContacts h1 cs1)))
         (input_value b) (clock b),
       [])
    /\ (cs1 = the_contacts b
        \/ exists line, cs1 = set_block ContactsAirline line (the_contacts b))
    /\ (forall cs, present (domContacts cs) = true ->
          Main.renderContactsGroup DomContacts
            "Director of Maintenance / Maintenance"
            (prop (js_or (prop cdata "contacts") (JObj [])) "dom") cs
          = (Ok tt, set_block DomContacts h1 cs))
    /\ (forall cs, present (occContacts cs) = true ->
          Main.renderContactsGroup OccContacts "OCC / Dispatch"
            (prop (js_or (prop cdata "contacts") (JObj [])) "occ") cs
          = (Ok tt, set_block OccContacts h2 cs))
    /\ (forall cs, present (otherContacts cs) = true ->
          Main.renderContactsGroup OtherContacts "Other relevant contacts"
            (prop (js_or (prop cdata "contacts") (JObj [])) "other") cs
          = (Ok tt, set_block OtherContacts h3 cs)).
Proof.
  intros Hok Hg Hn Hp Hd Ho Hx.
  set (c := js_or (prop cdata "contacts") (JObj [])) in *.
  assert (Hc : nullish c = false) by (apply js_or_not_nullish; reflexivity).
  assert (Hpc : plain c = true).
  { apply plain_js_or; [now apply plain_prop|reflexivity]. }
  destruct (renderContactsGroup_runs DomContacts
              "Director of Maintenance / Maintenance" _ Hd
              (plain_prop c "dom" Hpc)) as [h1 R1].
  destruct (renderContactsGroup_runs OccContacts "OCC / Dispatch" _ Ho
              (plain_prop c "occ" Hpc)) as [h2 R2].
  destruct (renderContactsGroup_runs OtherContacts "Other relevant contacts"
              _ Hx (plain_prop c "other" Hpc)) as [h3 R3].
  set (a := js_or (prop c "airline") (prop cdata "airline")).
  assert (Hpa : plain a = true).
  { apply plain_js_or; now apply plain_prop. }
  set (cs1 := if truthy a
              then set_block ContactsAirline
                     ("Airline: <strong>" ++ str a ++ "</strong>")
                     (the_contacts b)
              else the_contacts b).
  assert (Hpres : forall k, present (block_of k cs1) = true).
  { intros k. unfold cs1. destruct (truthy a);
      [rewrite present_set_block|]; now apply guard_blocks. }
  exists h1, h2, h3, cs1.
  split; [|split; [|split; [exact R1|split; [exact R2|exact R3]]]].
  2:{ unfold cs1. destruct (truthy a); [right; eauto|left; reflexivity]. }
  assert (Eb : Main.contacts_body (Response st (Json cdata)) b
               = (Ok tt,
                  mkBrowser (the_page b)
                    (set_block OtherContacts h3
                       (set_block OccContacts h2
                          (set_block DomContacts h1 cs1)))
                    (input_value b) (clock b),
                  [])).
  { unfold Main.contacts_body. rewrite Hok.
    rewrite bindH_liftH_ok.
    rewrite (get_prop cdata "contacts" Hn), bindH_liftH_ok.
    fold c. rewrite !(get_prop c) by exact Hc.
    rewrite !(get_prop cdata) by exact Hn. cbn [bindR].
    assert (Ea : (if truthy (prop c "airline") then Ok (prop c "airline")
                  else Ok (prop cdata "airline")) = Ok a).
    { unfold a, js_or. destruct (truthy (prop c "airline")); reflexivity. }
    rewrite Ea, bindH_liftH_ok.
    assert (Eair :
      forall k : unit -> H unit,
        bindH (if truthy a then
                 html <<- liftH (a' <~ Ok a ;;
                                 s <~ to_string a' ;;
                                 Ok ("Airline: <strong>" ++ s ++ "</strong>")) ;;
                 in_contacts (modify (set_block ContactsAirline html))
               else retH tt) k b
        = k tt (mkBrowser (the_page b) cs1 (input_value b) (clock b))).
    { intros k. unfold cs1. destruct (truthy a).
      - cbn [bindR]. rewrite (to_string_str a Hpa). cbn [bindR].
        unfold bindH at 1. rewrite bindH_liftH_ok.
        unfold in_contacts, modify.
        destruct (k tt _) as [[r b'] t]. reflexivity.
      - rewrite bindH_retH_ok. destruct b; reflexivity. }
    rewrite Eair. cbv beta.
    rewrite (group_step DomContacts _ _ _
               (mkBrowser (the_page b) cs1 (input_value b) (clock b)) _
               (R1 cs1 (Hpres DomContacts))).
    cbn [the_page input_value clock].
    rewrite (group_step OccContacts _ _ _ _
               (set_block OccContacts h2 (set_block DomContacts h1 cs1))).
    2:{ cbn [the_contacts]. apply R2.
        change (present (block_of OccContacts (set_block DomContacts h1 cs1))
                = true).
        rewrite present_set_block. apply Hpres. }
    rewrite bindH_liftH_ok. unfold in_contacts. cbn [the_contacts].
    rewrite R3.
    2:{ change (present
                  (block_of OtherContacts
                     (set_block OccContacts h2
                        (set_block DomContacts h1 cs1))) = true).
        rewrite !present_set_block. apply Hpres. }
    reflexivity. }
  assert (Et : try_catch (Main.contacts_body (Response st (Json cdata)))
                         Main.contacts_catch b
               = (Ok tt,
                  mkBrowser (the_page b)
                    (set_block OtherContacts h3
                       (set_block OccContacts h2
                          (set_block DomContacts h1 cs1)))
                    (input_value b) (clock b),
                  [])).
  { unfold try_catch. rewrite Eb. reflexivity. }
  rewrite (on_contacts_result _ b _ _ Et). reflexivity.
Qed.

Lemma well_shaped_contacts_are_rendered_witness :
  exists h1 h2 h3 cs1,
    Main.on_contacts (Response 200 (Json sample_contacts)) sample_rendered
    = (mkBrowser
         (Main.showSpinner false
            (set_results_hidden false (the_page sample_rendered)))
         (set_block OtherContacts h3
            (set_block OccContacts h2 (set_block DomContacts h1 cs1)))
         (input_value sample_rendered) (clock sample_rendered),
       []).
Proof.
  destruct (well_shaped_contacts_are_rendered 200 sample_contacts
              sample_rendered eq_refl eq_refl eq_refl eq_refl eq_refl eq_refl
              eq_refl) as (h1 & h2 & h3 & cs1 & E & _).
  exists h1, h2, h3, cs1. exact E.
Defined.
